(** * Peak_Selector: the row annotation session of peak_selector.py

    A shallow embedding of the event handlers of [peak_selector.py]
    (mouse clicks, key presses, console entry, file switching, plot
    export) over an explicit program state, and the properties of the
    annotation session proved about them.

    Conventions of the model
    - Python [int] is [Z]; [%] is [Z.modulo] (both floor towards the
      sign of the divisor).
    - A numpy float64 cell is a [num]: a rational or NaN. The float
      subtraction, square and addition that [on_click] computes with
      are parameters of the development, so that their results are the
      rounded ones, whatever the rounding; overflow and the infinities
      are outside the model.
    - The per-row dicts [{'top':..,'left':..,'right':..}] are mutable
      objects: they live in an object store ([heap]) and [results] and
      [selected_points] hold references into it, so that two names of
      one dict are one location.
    - A handler that raises is a computation returning [Raised e]; the
      state it leaves behind is the state at the point of the raise.
    - [scipy.signal.find_peaks] and [float] are parameters of the
      development too; the answers of the console and of the file
      dialog are streams held in the state. *)

From Stdlib Require Import QArith ZArith String Ascii List Lia.
From stdpp Require Import base option list gmap.
Import ListNotations.
Local Open Scope string_scope.
Local Open Scope list_scope.
Local Open Scope Z_scope.

(** ** Numbers: float64 cells as rationals or NaN *)

Inductive num : Type :=
| Fin (q : Q)
| NaN.

Definition isnan (a : num) : bool :=
  match a with
  | NaN => true
  | Fin _ => false
  end.

(** The library functions the handlers call and the program does not
    define. *)
Class Externals : Type := {
  (** [scipy.signal.find_peaks(y, prominence=.., width=..)[0]] *)
  find_peaks : list num -> list nat;
  (** [float(s)]; [None] is its ValueError. *)
  py_float : string -> option num;
  (** float64 [a - b], [a ** 2] and [a + b] on numbers: the rounded
      results that the hardware and the C library give. *)
  float_sub : Q -> Q -> Q;
  float_sq : Q -> Q;
  float_add : Q -> Q -> Q
}.

(** [a - b], [a + b] and [a ** 2] on cells: NaN as soon as an operand is. *)
Definition num_sub {ext : Externals} (a b : num) : num :=
  match a, b with
  | Fin p, Fin q => Fin (float_sub p q)
  | _, _ => NaN
  end.

Definition num_add {ext : Externals} (a b : num) : num :=
  match a, b with
  | Fin p, Fin q => Fin (float_add p q)
  | _, _ => NaN
  end.

Definition num_sq {ext : Externals} (a : num) : num :=
  match a with
  | Fin p => Fin (float_sq p)
  | NaN => NaN
  end.

(** [a <= b] on floats: false as soon as one side is NaN. *)
Definition num_le (a b : num) : bool :=
  match a, b with
  | Fin p, Fin q => Qle_bool p q
  | _, _ => false
  end.

Definition point : Type := num * num.

(** ** numpy.argmin

    The scan of numpy's float argmin: the running minimum [mp] is
    replaced when [not (mp <= ip[i])], and a NaN ends the scan at its
    index. [None] stands for the ValueError on an empty sequence. *)

Fixpoint argmin_scan (mp : num) (min_ind i : nat) (ip : list num) : nat :=
  match ip with
  | [] => min_ind
  | d :: ip' =>
      if num_le mp d then argmin_scan mp min_ind (S i) ip'
      else if isnan d then i
      else argmin_scan d i (S i) ip'
  end.

Definition np_argmin (a : list num) : option nat :=
  match a with
  | [] => None
  | d :: a' => Some (if isnan d then O else argmin_scan d O 1%nat a')
  end.

(** ** Strings: [str.split(',')] and [str.strip()] *)

Fixpoint split_comma (s : string) : list string :=
  match s with
  | EmptyString => [EmptyString]
  | String c s' =>
      if Ascii.eqb c ","%char then EmptyString :: split_comma s'
      else match split_comma s' with
           | h :: t => String c h :: t
           | [] => [String c EmptyString]
           end
  end.

Definition is_space (c : ascii) : bool :=
  let n := nat_of_ascii c in
  ((9 <=? n) && (n <=? 13) || (28 <=? n) && (n <=? 32))%nat.

Fixpoint lstrip (s : string) : string :=
  match s with
  | EmptyString => EmptyString
  | String c s' => if is_space c then lstrip s' else s
  end.

Fixpoint rstrip (s : string) : string :=
  match s with
  | EmptyString => EmptyString
  | String c s' =>
      match rstrip s' with
      | EmptyString => if is_space c then EmptyString else String c EmptyString
      | r => String c r
      end
  end.

Definition strip (s : string) : string := rstrip (lstrip s).

(** ** The table: a pandas DataFrame of numeric cells

    [df_columns] are the column labels ([row.index.values], the x axis),
    [df_values] the rows ([row.values], the y values). Row labels are
    only printed and are left out. *)

Record DataFrame : Type := mkDataFrame {
  df_columns : list num;
  df_values : list (list num)
}.

(** [len(data)] *)
Definition df_len (df : DataFrame) : Z := Z.of_nat (length (df_values df)).

(** [data.empty]: some axis has length 0. *)
Definition df_empty (df : DataFrame) : bool :=
  (Nat.eqb (length (df_values df)) 0) || (Nat.eqb (length (df_columns df)) 0).

(** Positional indexing [l.iloc[i]]: a negative position counts from
    the end, a position out of bounds is an IndexError ([None]). *)
Definition iloc {A : Type} (l : list A) (i : Z) : option A :=
  let n := Z.of_nat (length l) in
  if (0 <=? i) then l !! Z.to_nat i
  else if (- n <=? i) then l !! Z.to_nat (n + i)
  else None.

(** [data is None or data.empty] *)
Definition no_data (d : option DataFrame) : bool :=
  match d with
  | None => true
  | Some df => df_empty df
  end.

(** ** Annotations and the object store *)

(** One dict [{'top': .., 'left': .., 'right': ..}]; [None] is Python's None. *)
Record Selection : Type := mkSelection {
  top : option point;
  left : option point;
  right : option point
}.

Definition unset : Selection :=
  {| top := None; left := None; right := None |}.

Inductive Slot : Type := TOP | LEFT | RIGHT.

Definition get_slot (k : Slot) (d : Selection) : option point :=
  match k with
  | TOP => top d
  | LEFT => left d
  | RIGHT => right d
  end.

(** [d[k] = v] *)
Definition set_slot (k : Slot) (v : option point) (d : Selection) : Selection :=
  match k with
  | TOP => {| top := v; left := left d; right := right d |}
  | LEFT => {| top := top d; left := v; right := right d |}
  | RIGHT => {| top := top d; left := left d; right := v |}
  end.

(** References to dict objects: positions in the store. *)
Abbreviation loc := nat (only parsing).

(** ** What the figure shows, and what leaves the program *)

Inductive Figure : Type :=
| FigBlank
| FigMessage (title : string)
| FigCurve (x_data y_data : list num) (peaks : list point)
           (marks : option Selection).

Inductive Output : Type :=
| CallFindPeaks (y_data : list num)   (* one call of scipy's find_peaks *)
| WarnNaN (row : Z)                   (* "Warning: NaN values found in row .." *)
| SaveFig (row_idx : Z) (shown : Figure) (* fig.savefig to the file named after row_idx *)
| ToCsv (base : string).              (* results_df.to_csv *)

(** ** Program state: the module globals and the environment *)

Record State : Type := mkState {
  data : option DataFrame;
  data_filepath : string;             (* "" stands for None: both are falsy *)
  current_row_index : Z;
  num_rows : Z;
  selected_points : loc;
  results : gmap Z loc;
  peak_candidates : gmap Z (list point);
  heap : list Selection;
  figure : Figure;
  stdin : list string;                (* lines the console will deliver to input() *)
  dialog : list (string * option DataFrame);
                                      (* answers of the file dialog, each with
                                         what load_data returns for that file *)
  trace : list Output
}.

Definition set_data (d : option DataFrame) (s : State) : State :=
  mkState d (data_filepath s) (current_row_index s) (num_rows s)
          (selected_points s) (results s) (peak_candidates s) (heap s)
          (figure s) (stdin s) (dialog s) (trace s).

Definition set_data_filepath (f : string) (s : State) : State :=
  mkState (data s) f (current_row_index s) (num_rows s)
          (selected_points s) (results s) (peak_candidates s) (heap s)
          (figure s) (stdin s) (dialog s) (trace s).

Definition set_num_rows (n : Z) (s : State) : State :=
  mkState (data s) (data_filepath s) (current_row_index s) n
          (selected_points s) (results s) (peak_candidates s) (heap s)
          (figure s) (stdin s) (dialog s) (trace s).

Definition set_current_row_index (i : Z) (s : State) : State :=
  mkState (data s) (data_filepath s) i (num_rows s) (selected_points s)
          (results s) (peak_candidates s) (heap s) (figure s) (stdin s)
          (dialog s) (trace s).

Definition set_selected_points (l : loc) (s : State) : State :=
  mkState (data s) (data_filepath s) (current_row_index s) (num_rows s) l
          (results s) (peak_candidates s) (heap s) (figure s) (stdin s)
          (dialog s) (trace s).

Definition set_results (r : gmap Z loc) (s : State) : State :=
  mkState (data s) (data_filepath s) (current_row_index s) (num_rows s)
          (selected_points s) r (peak_candidates s) (heap s) (figure s)
          (stdin s) (dialog s) (trace s).

Definition set_peak_candidates (c : gmap Z (list point)) (s : State) : State :=
  mkState (data s) (data_filepath s) (current_row_index s) (num_rows s)
          (selected_points s) (results s) c (heap s) (figure s) (stdin s)
          (dialog s) (trace s).

Definition set_heap (h : list Selection) (s : State) : State :=
  mkState (data s) (data_filepath s) (current_row_index s) (num_rows s)
          (selected_points s) (results s) (peak_candidates s) h (figure s)
          (stdin s) (dialog s) (trace s).

Definition set_figure (f : Figure) (s : State) : State :=
  mkState (data s) (data_filepath s) (current_row_index s) (num_rows s)
          (selected_points s) (results s) (peak_candidates s) (heap s) f
          (stdin s) (dialog s) (trace s).

Definition set_stdin (i : list string) (s : State) : State :=
  mkState (data s) (data_filepath s) (current_row_index s) (num_rows s)
          (selected_points s) (results s) (peak_candidates s) (heap s)
          (figure s) i (dialog s) (trace s).

Definition set_dialog (d : list (string * option DataFrame)) (s : State) : State :=
  mkState (data s) (data_filepath s) (current_row_index s) (num_rows s)
          (selected_points s) (results s) (peak_candidates s) (heap s)
          (figure s) (stdin s) d (trace s).

Definition emit (o : Output) (s : State) : State :=
  mkState (data s) (data_filepath s) (current_row_index s) (num_rows s)
          (selected_points s) (results s) (peak_candidates s) (heap s)
          (figure s) (stdin s) (dialog s) (trace s ++ [o]).

(** The annotation the renderer reads for row [i]: [results[i]] dereferenced. *)
Definition row_view (s : State) (i : Z) : option Selection :=
  match results s !! i with
  | Some l => heap s !! l
  | None => None
  end.

(** ** Computations that may raise *)

Inductive exn : Type :=
| ValueError | KeyError | IndexError | EOFError
| ZeroDivisionError | UnboundLocalError.

Inductive outcome (A : Type) : Type :=
| Ok (a : A)
| Raised (e : exn).
Arguments Ok {A} a.
Arguments Raised {A} e.

Definition Py (A : Type) : Type := State -> outcome A * State.

Definition ret {A : Type} (a : A) : Py A := fun s => (Ok a, s).

Definition bind {A B : Type} (m : Py A) (k : A -> Py B) : Py B :=
  fun s =>
    match m s with
    | (Ok a, s') => k a s'
    | (Raised e, s') => (Raised e, s')
    end.

Definition raise {A : Type} (e : exn) : Py A := fun s => (Raised e, s).

Definition get : Py State := fun s => (Ok s, s).

Definition modify (f : State -> State) : Py unit := fun s => (Ok tt, f s).

(** [try: body / except handled: pass]: an exception on which [handled]
    holds ends the body and is swallowed, another one propagates. *)
Definition try_except (body : Py unit) (handled : exn -> bool) : Py unit :=
  fun s =>
    match body s with
    | (Ok u, s') => (Ok u, s')
    | (Raised e, s') => if handled e then (Ok tt, s') else (Raised e, s')
    end.

(** [try: body / finally: fin] *)
Definition try_finally (body fin : Py unit) : Py unit :=
  fun s =>
    match body s with
    | (Ok _, s') => fin s'
    | (Raised e, s') =>
        match fin s' with
        | (Ok _, s'') => (Raised e, s'')
        | (Raised e', s'') => (Raised e', s'')
        end
    end.

Definition from_option {A : Type} (e : exn) (o : option A) : Py A :=
  match o with
  | Some a => ret a
  | None => raise e
  end.

Notation "'do' x <- m ; k" := (bind m (fun x => k))
  (at level 20, x name, m at level 100, k at level 200, only parsing).
Notation "'run' m ; k" := (bind m (fun _ => k))
  (at level 20, m at level 100, k at level 200, only parsing).

(** State after a computation, whatever its outcome: what the event
    loop is left with once a callback has returned or raised. *)
Definition exec {A : Type} (m : Py A) (s : State) : State := snd (m s).

(** A sequential [for x in xs: body x]. *)
Fixpoint for_each {A : Type} (xs : list A) (body : A -> Py unit) : Py unit :=
  match xs with
  | [] => ret tt
  | x :: xs' => run body x; for_each xs' body
  end.

(** Creation of a dict object: a new location of the store. *)
Definition alloc (d : Selection) : Py loc :=
  fun s => (Ok (length (heap s)), set_heap (heap s ++ [d]) s).

(** [a % b] *)
Definition py_mod (a b : Z) : Py Z :=
  if b =? 0 then raise ZeroDivisionError else ret (a mod b).

(** [data.index[i]], read for the messages: only its bounds check is kept. *)
Definition row_label (df : DataFrame) (i : Z) : Py unit :=
  run from_option IndexError (iloc (df_values df) i); ret tt.

(** [input(prompt)] *)
Definition input : Py string :=
  fun s =>
    match stdin s with
    | [] => (Raised EOFError, s)
    | line :: rest => (Ok line, set_stdin rest s)
    end.

(** [filedialog.askopenfilename(..)] followed by [load_data] on the
    answer; a dialog without an answer left is a cancelled one. *)
Definition askopenfilename : Py (string * option DataFrame) :=
  fun s =>
    match dialog s with
    | [] => (Ok (EmptyString, None), s)
    | a :: rest => (Ok a, set_dialog rest s)
    end.

(** [(x - event.xdata)**2 + (y - event.ydata)**2] *)
Definition sq_dist {ext : Externals} (qx qy : num) (p : point) : num :=
  num_add (num_sq (num_sub (fst p) qx)) (num_sq (num_sub (snd p) qy)).

(** The nearest sample of a row to a query, as [on_click] computes it:
    [None] when a lookup or the argmin raises. *)
Definition snap {ext : Externals} (x_data y_data : list num) (qx qy : num)
  : option point :=
  match np_argmin (map (sq_dist qx qy) (zip x_data y_data)) with
  | Some closest_idx =>
      match x_data !! closest_idx, y_data !! closest_idx with
      | Some closest_x, Some closest_y => Some (closest_x, closest_y)
      | _, _ => None
      end
  | None => None
  end.

(** [[(x_data[p], y_data[p]) for p in peaks]]; [None] is the IndexError. *)
Definition peak_points (x_data y_data : list num) (peaks : list nat)
  : option (list point) :=
  mapM (fun p => match x_data !! p, y_data !! p with
                 | Some x, Some y => Some (x, y)
                 | _, _ => None
                 end) peaks.

(** The chain of [is None] tests of [on_click]. *)
Definition next_slot (d : Selection) : option Slot :=
  match left d with
  | None => Some LEFT
  | Some _ =>
      match top d with
      | None => Some TOP
      | Some _ =>
          match right d with
          | None => Some RIGHT
          | Some _ => None
          end
      end
  end.

(** [{i: {'top': None, 'left': None, 'right': None} for i in range(n)}]:
    one new dict per row. *)
Definition new_results (n : Z) (h : list Selection)
  : gmap Z loc * list Selection :=
  foldl (fun (acc : gmap Z loc * list Selection) (i : Z) =>
           (<[i := length (snd acc)]> (fst acc), snd acc ++ [unset]))
        (∅, h) (seqZ 0 n).

Record MouseEvent : Type := mkMouseEvent {
  inaxes : bool;                      (* event.inaxes == ax *)
  xdata : num;
  ydata : num
}.

(** ** The handlers *)

Section Handlers.

Context {ext : Externals}.

Definition no_data_title : string := "No data loaded or invalid row index".

Definition update_plot : Py unit :=
  do s <- get;
  match data s with
  | None => modify (set_figure (FigMessage no_data_title))
  | Some df =>
      if df_empty df || (df_len df <=? current_row_index s)
      then modify (set_figure (FigMessage no_data_title))
      else
        do y_data <- from_option IndexError
                       (iloc (df_values df) (current_row_index s));
        let x_data := df_columns df in
        (* ax.clear(); ax.plot(x_data, y_data) *)
        run modify (set_figure (FigCurve x_data y_data [] None));
        run match peak_candidates s !! current_row_index s with
            | Some _ => ret tt
            | None =>
                run modify (emit (CallFindPeaks y_data));
                let peaks := find_peaks y_data in
                do c <- from_option IndexError (peak_points x_data y_data peaks);
                modify (fun s1 => set_peak_candidates
                          (<[current_row_index s1 := c]> (peak_candidates s1)) s1)
            end;
        do s2 <- get;
        do cands <- from_option KeyError
                      (peak_candidates s2 !! current_row_index s2);
        run modify (set_figure (FigCurve x_data y_data cands None));
        do l <- from_option KeyError (results s2 !! current_row_index s2);
        do current_selections <- from_option KeyError (heap s2 !! l);
        modify (set_figure (FigCurve x_data y_data cands (Some current_selections)))
  end.

(** Defined in the source and called from nowhere. *)
Definition find_potential_peaks (y_data : list num) : Py (list nat) :=
  do s <- get;
  let nan_mask := map isnan y_data in
  do y_data_np <-
    (if existsb id nan_mask
     then run modify (emit (WarnNaN (current_row_index s)));
          ret (map (fun y => if isnan y then Fin 0 else y) y_data)
     else ret y_data);
  run modify (emit (CallFindPeaks y_data_np));
  ret (find_peaks y_data_np).

Definition on_click (event : MouseEvent) : Py unit :=
  do s <- get;
  if negb (inaxes event) || no_data (data s) then ret tt
  else
    match data s with
    | None => ret tt
    | Some df =>
        do y_data <- from_option IndexError
                       (iloc (df_values df) (current_row_index s));
        let x_data := df_columns df in
        let distances :=
          map (sq_dist (xdata event) (ydata event)) (zip x_data y_data) in
        do closest_idx <- from_option ValueError (np_argmin distances);
        do closest_x <- from_option IndexError (x_data !! closest_idx);
        do closest_y <- from_option IndexError (y_data !! closest_idx);
        do l <- from_option KeyError (results s !! current_row_index s);
        do current_selections <- from_option KeyError (heap s !! l);
        match next_slot current_selections with
        | None =>
            do fresh <- alloc unset;
            run modify (fun s1 => set_results
                          (<[current_row_index s1 := fresh]> (results s1)) s1);
            update_plot
        | Some point_type =>
            run modify (fun s1 => set_heap
                          (alter (set_slot point_type (Some (closest_x, closest_y)))
                                 l (heap s1)) s1);
            update_plot
        end
    end.

Definition clear_selection : Py unit :=
  do s <- get;
  match data s with
  | None => ret tt
  | Some df =>
      if df_empty df then ret tt
      else
        run row_label df (current_row_index s);
        do fresh <- alloc unset;
        run modify (set_selected_points fresh);
        run modify (fun s1 => set_results
                      (<[current_row_index s1 := selected_points s1]> (results s1)) s1);
        update_plot
  end.

(** [x_str, y_str = str.split(',')] then
    [(float(x_str.strip()), float(y_str.strip()))]; [None] is the
    ValueError of the unpacking or of [float]. *)
Definition parse_xy (str : string) : option point :=
  match split_comma str with
  | [x_str; y_str] =>
      match py_float (strip x_str), py_float (strip y_str) with
      | Some x, Some y => Some (x, y)
      | _, _ => None
      end
  | _ => None
  end.

(** One prompt of [manual_input]: read a line and, unless it is empty,
    write the parsed pair into the dict [selected_points] refers to. *)
Definition enter_slot (k : Slot) : Py unit :=
  do str <- input;
  if String.eqb str EmptyString then ret tt
  else
    do p <- from_option ValueError (parse_xy str);
    modify (fun s => set_heap
              (alter (set_slot k (Some p)) (selected_points s) (heap s)) s).

Definition manual_input : Py unit :=
  do s <- get;
  if no_data (data s) then ret tt
  else
    try_except
      (run enter_slot TOP;
       run enter_slot LEFT;
       run enter_slot RIGHT;
       run modify (fun s1 => set_results
                     (<[current_row_index s1 := selected_points s1]> (results s1)) s1);
       update_plot)
      (fun _ => true).

Definition save_plot (row_idx : option Z) (filename_prefix : option string)
  : Py unit :=
  do s <- get;
  match data s with
  | None => ret tt
  | Some df =>
      if df_empty df then ret tt
      else
        let row_idx := default (current_row_index s) row_idx in
        if match filename_prefix with
           | None => String.eqb (data_filepath s) EmptyString
           | Some _ => false
           end
        then ret tt
        else if df_len df <=? row_idx then ret tt
        else
          run row_label df row_idx;
          modify (emit (SaveFig row_idx (figure s)))
  end.

Definition save_results : Py unit :=
  do s <- get;
  if String.eqb (data_filepath s) EmptyString then ret tt
  else if no_data (data s) then ret tt
  else
    try_except
      (run modify (emit (ToCsv (data_filepath s)));
       match data s with
       | None => ret tt
       | Some df =>
           run row_label df (current_row_index s);
           save_plot None (Some (data_filepath s))
       end)
      (fun _ => true).

Definition change_data_file : Py unit :=
  try_except
    (do answer <- askopenfilename;
     let new_file := fst answer in
     if String.eqb new_file EmptyString then ret tt
     else
       let new_data := snd answer in
       match new_data with
       | None => modify (set_figure (FigMessage "Error Loading File"))
       | Some df =>
           if df_empty df
           then modify (set_figure (FigMessage "Error Loading File"))
           else
             run modify (set_data new_data);
             run modify (set_data_filepath new_file);
             run modify (set_num_rows (df_len df));
             run modify (set_current_row_index 0);
             run modify (fun s =>
                   let fresh := new_results (num_rows s) (heap s) in
                   set_results (fst fresh) (set_heap (snd fresh) s));
             run modify (set_peak_candidates ∅);
             update_plot
       end)
    (fun _ => true).

(** [save_all_plots] assigns [current_row_index] and declares only
    [data_filepath] global, so inside it the name is a local variable:
    [local_current_row_index] is that variable, unbound on entry, and
    [update_plot] keeps reading the global. *)
Definition save_all_plots : Py unit :=
  let local_current_row_index : option Z := None in
  do current_idx <- from_option UnboundLocalError local_current_row_index;
  do s <- get;
  if String.eqb (data_filepath s) EmptyString then ret tt
  else if no_data (data s) then ret tt
  else
    try_finally
      (try_except
         (for_each (seqZ 0 (num_rows s)) (fun idx =>
            (* local: current_row_index = idx *)
            run update_plot;
            try_except (save_plot (Some idx) (Some (data_filepath s)))
                       (fun _ => true)))
         (fun _ => true))
      ((* local: current_row_index = current_idx *)
       update_plot).

Definition on_key (key : string) : Py unit :=
  do s <- get;
  match data s with
  | None => ret tt
  | Some df =>
      if df_empty df then ret tt
      else if String.eqb key "right" then
        do i <- py_mod (current_row_index s + 1) (num_rows s);
        run modify (set_current_row_index i);
        run row_label df i;
        update_plot
      else if String.eqb key "left" then
        do i <- py_mod (current_row_index s - 1 + num_rows s) (num_rows s);
        run modify (set_current_row_index i);
        run row_label df i;
        update_plot
      else if String.eqb key "m" then manual_input
      else if String.eqb key "c" then clear_selection
      else if String.eqb key "s" then save_results
      else if String.eqb key "o" then change_data_file
      else if String.eqb key "p" then save_plot None None
      else if String.eqb key "a" then save_all_plots
      else ret tt
  end.

Definition prev_row_button_clicked : Py unit :=
  do s <- get;
  match data s with
  | None => ret tt
  | Some df =>
      if df_empty df then ret tt
      else
        do i <- py_mod (current_row_index s - 1 + num_rows s) (num_rows s);
        run modify (set_current_row_index i);
        run row_label df i;
        update_plot
  end.

Definition next_row_button_clicked : Py unit :=
  do s <- get;
  match data s with
  | None => ret tt
  | Some df =>
      if df_empty df then ret tt
      else
        do i <- py_mod (current_row_index s + 1) (num_rows s);
        run modify (set_current_row_index i);
        run row_label df i;
        update_plot
  end.

(** The events the window delivers, and the callback connected to each. *)
Inductive Event : Type :=
| ButtonPress (e : MouseEvent)
| KeyPress (key : string)
| PrevRowButton
| NextRowButton
| SaveButton
| SwitchFileButton
| SavePlotButton.

Definition callback (ev : Event) : Py unit :=
  match ev with
  | ButtonPress e => on_click e
  | KeyPress key => on_key key
  | PrevRowButton => prev_row_button_clicked
  | NextRowButton => next_row_button_clicked
  | SaveButton => save_results
  | SwitchFileButton => change_data_file
  | SavePlotButton => save_plot None None
  end.

(** One turn of the event loop: the callback runs to its end or to its
    raise, and the loop goes on with the state it left. *)
Definition handle (s : State) (ev : Event) : State := exec (callback ev) s.

Definition handle_all (s : State) (evs : list Event) : State :=
  foldl handle s evs.

(** The main block from the loaded table to [plt.show()]: the globals
    as the module defines them, the per-row dicts, the first plot. *)
Definition start (initial_file : string) (df : DataFrame)
    (console : list string) (answers : list (string * option DataFrame))
  : State :=
  let fresh := new_results (df_len df) [unset] in
  exec update_plot
    {| data := Some df;
       data_filepath := initial_file;
       current_row_index := 0;
       num_rows := df_len df;
       selected_points := O;
       results := fst fresh;
       peak_candidates := ∅;
       heap := snd fresh;
       figure := FigBlank;
       stdin := console;
       dialog := answers;
       trace := [] |}.

(** The main block; [None] is [sys.exit]. *)
Definition main (initial_file : string) (loaded : option DataFrame)
    (console : list string) (answers : list (string * option DataFrame))
  : option State :=
  if String.eqb initial_file EmptyString then None
  else
    match loaded with
    | None => None
    | Some df =>
        if df_empty df then None
        else Some (start initial_file df console answers)
    end.

End Handlers.

(** ** Predicates used in the statements *)

(** [keeps R m]: the state [m] ends in, returning or raising, is related
    by [R] to the state it started from. *)
Definition keeps (R : relation State) {A : Type} (m : Py A) : Prop :=
  forall s, R s (snd (m s)).

(** Everything but the candidate cache, the figure and the trace. *)
Definition same_session (s s' : State) : Prop :=
  data s' = data s /\ data_filepath s' = data_filepath s /\
  current_row_index s' = current_row_index s /\ num_rows s' = num_rows s /\
  selected_points s' = selected_points s /\ results s' = results s /\
  heap s' = heap s /\ stdin s' = stdin s /\ dialog s' = dialog s.


(** A cell that holds a number. *)
Definition finite (a : num) : Prop := isnan a = false.

(** [r] is the first position of a least element of [l] for [num_le]. *)
Definition is_first_min (l : list num) (r : nat) : Prop :=
  exists m, l !! r = Some m /\
    (forall j x, l !! j = Some x -> num_le m x = true) /\
    (forall j x, (j < r)%nat -> l !! j = Some x -> num_le x m = false).

(** [r] is the first position of a NaN in [l]. *)
Definition is_first_nan (l : list num) (r : nat) : Prop :=
  l !! r = Some NaN /\
  forall j x, (j < r)%nat -> l !! j = Some x -> finite x.

(** What one line of a manual-entry batch amounts to. *)
Inductive Entry : Type :=
| Blank
| Pair (p : point)
| Malformed.

Definition entry_of {ext : Externals} (str : string) : Entry :=
  if String.eqb str EmptyString then Blank
  else match parse_xy str with
       | Some p => Pair p
       | None => Malformed
       end.

(** The write a line causes on the dict it is entered into. *)
Definition apply_entry (k : Slot) (e : Entry) (d : Selection) : Selection :=
  match e with
  | Pair p => set_slot k (Some p) d
  | _ => d
  end.

(** ** Stand-ins for the two library functions, to run the handlers *)

(** Strictly below, on numbers. *)
Definition num_lt (a b : num) : bool := num_le a b && negb (num_le b a).

(** Positions strictly above both neighbours. *)
Fixpoint local_maxima (i : nat) (prev : num) (l : list num) : list nat :=
  match l with
  | [] => []
  | cur :: tl =>
      match tl with
      | [] => []
      | next :: _ =>
          if num_lt prev cur && num_lt next cur
          then i :: local_maxima (S i) cur tl
          else local_maxima (S i) cur tl
      end
  end.

Definition interior_maxima (y : list num) : list nat :=
  match y with
  | [] => []
  | first :: tl => local_maxima 1 first tl
  end.

Definition digit (c : ascii) : option Z :=
  let n := nat_of_ascii c in
  if ((48 <=? n) && (n <=? 57))%nat then Some (Z.of_nat (n - 48)) else None.

(** Digits with at most one point: mantissa, digits after the point. *)
Fixpoint read_decimal (s : string) (mant : Z) (scale : option nat)
    (any : bool) : option Q :=
  match s with
  | EmptyString =>
      if any then Some (mant # Pos.of_nat (10 ^ default O scale)) else None
  | String c s' =>
      if Ascii.eqb c "."%char then
        match scale with
        | None => read_decimal s' mant (Some O) any
        | Some _ => None
        end
      else
        match digit c with
        | Some d => read_decimal s' (10 * mant + d) (S <$> scale) true
        | None => None
        end
  end.

(** Plain decimal literals and ["nan"]: a part of what [float] accepts. *)
Definition decimal_float (s : string) : option num :=
  if String.eqb s "nan" then Some NaN
  else
    match s with
    | String "-"%char s' => (fun q => Fin (- q)%Q) <$> read_decimal s' 0 None false
    | _ => Fin <$> read_decimal s 0 None false
    end.

(** Rounding to the nearest binary64 number, ties to even: a mantissa
    of 53 bits and an exponent not below -1074 (the subnormal range);
    what lies above the largest binary64 number is not cut off. *)
Definition round64 (q : Q) : Q :=
  let n := Qnum q in
  let d := Z.pos (Qden q) in
  if n =? 0 then 0%Q
  else
    let a := Z.abs n in
    let l0 := Z.log2 a - Z.log2 d in
    (* l = floor (log2 (a / d)) *)
    let l := if (if 0 <=? l0 then d * 2 ^ l0 <=? a else d <=? a * 2 ^ (- l0))
             then l0 else l0 - 1 in
    let e := Z.max (l - 52) (- 1074) in
    let num' := if 0 <=? e then a else a * 2 ^ (- e) in
    let den' := if 0 <=? e then d * 2 ^ e else d in
    let q0 := num' / den' in
    let r := num' mod den' in
    let m := if 2 * r <? den' then q0
             else if den' <? 2 * r then q0 + 1
             else if Z.even q0 then q0 else q0 + 1 in
    let v := if 0 <=? e then (m * 2 ^ e) # 1 else m # Z.to_pos (2 ^ (- e)) in
    Qred (if n <? 0 then - v else v)%Q.

Definition stand_in : Externals :=
  {| find_peaks := interior_maxima;
     py_float := decimal_float;
     float_sub := fun p q => round64 (p - q)%Q;
     float_sq := fun p => round64 (p * p)%Q;
     float_add := fun p q => round64 (p + q)%Q |}.

Definition demo_row0 : list num := [Fin 0; Fin 5; Fin 1; Fin 4; Fin 0].
Definition demo_row1 : list num := [Fin 1; Fin 2; Fin 3; Fin 2; Fin 1].

(** A table of two rows over the columns 0..4. *)
Definition demo_table : DataFrame :=
  {| df_columns := [Fin 0; Fin 1; Fin 2; Fin 3; Fin 4];
     df_values := [demo_row0; demo_row1] |}.

(** A table of two rows whose row 0 has an unparseable cell. *)
Definition nan_row_table : DataFrame :=
  {| df_columns := [Fin 1; Fin 2; Fin 3];
     df_values := [[Fin 5; NaN; Fin 2]; [Fin 1; Fin 2; Fin 3]] |}.

(** A table whose only row has an unparseable cell. *)
Definition nan_table : DataFrame :=
  {| df_columns := [Fin 1; Fin 2; Fin 3];
     df_values := [[Fin 5; NaN; Fin 2]] |}.

Definition click_at (x y : Q) : MouseEvent :=
  {| inaxes := true; xdata := Fin x; ydata := Fin y |}.

(** The session on [demo_table], with the lines the console will deliver. *)
Definition demo_session (console : list string) : State :=
  @start stand_in "peaks.csv" demo_table console [].

(** The state after one line of a batch has been read and applied to
    the dict [selected_points] refers to. *)
Definition entered (k : Slot) (e : Entry) (rest : list string) (s : State)
  : State :=
  set_stdin rest
    (set_heap (alter (apply_entry k e) (selected_points s) (heap s)) s).

(** The events that move to the next and to the previous row. *)
Definition forward_events : list Event := [KeyPress "right"; NextRowButton].
Definition backward_events : list Event := [KeyPress "left"; PrevRowButton].

(** The events that end in [change_data_file]. *)
Definition replaces_table (ev : Event) : Prop :=
  ev = SwitchFileButton \/ ev = KeyPress "o".

(** From [s] to [s'] the table is the same, no entry of the candidate
    cache was dropped or changed, and the peak finder was called only
    on rows that had no entry in [s]. *)
Definition cache_kept (s s' : State) : Prop :=
  data s' = data s /\
  peak_candidates s ⊆ peak_candidates s' /\
  exists calls, trace s' = trace s ++ calls /\
    forall y_data, CallFindPeaks y_data ∈ calls ->
      exists i df, data s = Some df /\ peak_candidates s !! i = None /\
                   iloc (df_values df) i = Some y_data.

(** The session a successful load installs, before its first plot. *)
Definition reloaded (new_file : string) (df : DataFrame)
    (rest : list (string * option DataFrame)) (s : State) : State :=
  let s1 := set_current_row_index 0
              (set_num_rows (df_len df)
                 (set_data_filepath new_file
                    (set_data (Some df) (set_dialog rest s)))) in
  let fresh := new_results (num_rows s1) (heap s1) in
  set_peak_candidates ∅ (set_results (fst fresh) (set_heap (snd fresh) s1)).

(** The session on [nan_table]. *)
Definition nan_session : State :=
  @start stand_in "cells.csv" nan_table [] [].

(** The session on [nan_row_table]. *)
Definition nan_row_session : State :=
  @start stand_in "cells.csv" nan_row_table [] [].

(** ** Invariants of the session *)

(** Every row of the table has one cell per column, as in a DataFrame. *)
Definition rows_ok (df : DataFrame) : Prop :=
  Forall (fun r => length r = length (df_columns df)) (df_values df).

(** The tables the file dialog will deliver are DataFrames too. *)
Definition answers_ok (d : list (string * option DataFrame)) : Prop :=
  Forall (fun a => forall df, snd a = Some df -> rows_ok df) d.

(** A table is loaded and not empty, [num_rows] is its length, the
    current row index is one of its rows, every row index is bound in
    [results] to a dict that exists, and so is [selected_points]. *)
Definition session_ok (s : State) : Prop :=
  exists df,
    data s = Some df /\ df_empty df = false /\ rows_ok df /\
    num_rows s = df_len df /\
    0 <= current_row_index s < num_rows s /\
    (forall i, 0 <= i < num_rows s ->
       exists l, results s !! i = Some l /\ (l < length (heap s))%nat) /\
    (selected_points s < length (heap s))%nat /\
    answers_ok (dialog s).

(** A step that keeps the session invariant. *)
Definition ok_step (s s' : State) : Prop := session_ok s -> session_ok s'.

(** No two row indices are bound to one dict, none is bound to the dict
    of [selected_points], and every bound dict exists. *)
Definition unshared (s : State) : Prop :=
  (forall i j l, results s !! i = Some l -> results s !! j = Some l -> i = j) /\
  (forall i l, results s !! i = Some l ->
     l <> selected_points s /\ (l < length (heap s))%nat) /\
  (selected_points s < length (heap s))%nat.

(** A step that keeps the rows unshared. *)
Definition un_step (s s' : State) : Prop := unshared s -> unshared s'.

(** The events that bind a row to the dict of [selected_points]. *)
Definition binds_selected (ev : Event) : Prop :=
  ev = KeyPress "m" \/ ev = KeyPress "c".

(** What a manual entry may touch: the dict of [selected_points] and
    the binding of the current row, nothing else of the annotations. *)
Definition manual_frame (s s' : State) : Prop :=
  selected_points s' = selected_points s /\
  current_row_index s' = current_row_index s /\
  length (heap s') = length (heap s) /\
  (forall l, l <> selected_points s -> heap s' !! l = heap s !! l) /\
  (forall j, j <> current_row_index s -> results s' !! j = results s !! j).

(** Every entry of the candidate cache is what the finder gives on the
    row of that index in the table that is loaded now. *)
Definition cache_coherent {ext : Externals} (s : State) : Prop :=
  forall i c, peak_candidates s !! i = Some c ->
    exists df ys, data s = Some df /\ iloc (df_values df) i = Some ys /\
                  peak_points (df_columns df) ys (find_peaks ys) = Some c.

(** A step that keeps the cache coherent. *)
Definition co_step {ext : Externals} (s s' : State) : Prop :=
  cache_coherent s -> cache_coherent s'.

(** The y values [find_potential_peaks] hands to the finder. *)
Definition nan_to_zero (y_data : list num) : list num :=
  map (fun y => if isnan y then Fin 0 else y) y_data.

(** From [s] to [s'] only the trace grew. *)
Definition only_reports (s s' : State) : Prop :=
  exists out, s' = mkState (data s) (data_filepath s) (current_row_index s)
                     (num_rows s) (selected_points s) (results s)
                     (peak_candidates s) (heap s) (figure s) (stdin s)
                     (dialog s) (trace s ++ out).

(** The events that export: results to CSV, the plot, all plots. *)
Definition export_events : list Event :=
  [KeyPress "s"; KeyPress "p"; KeyPress "a"; SaveButton; SavePlotButton].

(** ** File-name sanitising

    The expression [safe(name)] of [get_base_filename] and [save_plot]:
    ["".join(c if c.isalnum() or c in (' ', '.', '_', '-') else '_'
    for c in name).rstrip()]. [isalnum] is [str.isalnum] on one
    character. *)

Definition kept_char (isalnum : ascii -> bool) (c : ascii) : bool :=
  isalnum c || Ascii.eqb c " " || Ascii.eqb c "." || Ascii.eqb c "_"
  || Ascii.eqb c "-".

Fixpoint map_chars (f : ascii -> ascii) (s : string) : string :=
  match s with
  | EmptyString => EmptyString
  | String c s' => String (f c) (map_chars f s')
  end.

Definition safe_name (isalnum : ascii -> bool) (name : string) : string :=
  rstrip (map_chars (fun c => if kept_char isalnum c then c else "_"%char) name).

Fixpoint all_chars (P : ascii -> bool) (s : string) : bool :=
  match s with
  | EmptyString => true
  | String c s' => P c && all_chars P s'
  end.

(** The last character of a string, if it has one. *)
Fixpoint last_char (s : string) : option ascii :=
  match s with
  | EmptyString => None
  | String c EmptyString => Some c
  | String _ s' => last_char s'
  end.

(** ** Coordinate strings *)

Fixpoint has_comma (s : string) : bool :=
  match s with
  | EmptyString => false
  | String c s' => Ascii.eqb c "," || has_comma s'
  end.

(** ** What the figure shows *)

(** The contract of the peak finder: indices into its argument. *)
Definition finder_in_range {ext : Externals} : Prop :=
  forall y, Forall (fun p => (p < length y)%nat) (find_peaks y).

(** The figure is the plot of the current row: its curve as loaded, its
    cached candidates and its annotation as it is now. *)
Definition figure_shows_current_row (s : State) : Prop :=
  exists df ys c sel,
    data s = Some df /\
    iloc (df_values df) (current_row_index s) = Some ys /\
    peak_candidates s !! current_row_index s = Some c /\
    row_view s (current_row_index s) = Some sel /\
    figure s = FigCurve (df_columns df) ys c (Some sel).

(** The events after which the handler draws the current row again. *)
Definition redraws (ev : Event) : Prop :=
  (exists e, ev = ButtonPress e /\ inaxes e = true) \/
  ev ∈ forward_events ++ backward_events \/ ev = KeyPress "c".

(** * Proofs

    ** What a computation leaves alone *)

Section Frame.

Context (R : relation State) `{!PreOrder R}.

Lemma keeps_ret {A : Type} (a : A) : keeps R (ret a).
Proof. intros s. reflexivity. Qed.

Lemma keeps_raise {A : Type} (e : exn) : keeps R (@raise A e).
Proof. intros s. reflexivity. Qed.

Lemma keeps_get : keeps R get.
Proof. intros s. reflexivity. Qed.

Lemma keeps_from_option {A : Type} (e : exn) (o : option A) :
  keeps R (from_option e o).
Proof. destruct o; [apply keeps_ret | apply keeps_raise]. Qed.

Lemma keeps_py_mod (a b : Z) : keeps R (py_mod a b).
Proof. unfold py_mod. destruct (b =? 0); [apply keeps_raise | apply keeps_ret]. Qed.

Lemma keeps_modify (f : State -> State) :
  (forall s, R s (f s)) -> keeps R (modify f).
Proof. intros Hf s. apply Hf. Qed.

Lemma keeps_bind {A B : Type} (m : Py A) (k : A -> Py B) :
  keeps R m -> (forall a, keeps R (k a)) -> keeps R (bind m k).
Proof.
  intros Hm Hk s. unfold bind. specialize (Hm s).
  destruct (m s) as [[a|e] s']; simpl in *; [|exact Hm].
  etransitivity; [exact Hm | apply Hk].
Qed.

Lemma keeps_try_except (body : Py unit) (handled : exn -> bool) :
  keeps R body -> keeps R (try_except body handled).
Proof.
  intros Hb s. unfold try_except. specialize (Hb s).
  destruct (body s) as [[u|e] s']; simpl in *; [exact Hb|].
  destruct (handled e); exact Hb.
Qed.

Lemma keeps_try_finally (body fin : Py unit) :
  keeps R body -> keeps R fin -> keeps R (try_finally body fin).
Proof.
  intros Hb Hf s. unfold try_finally. specialize (Hb s).
  destruct (body s) as [[u|e] s']; simpl in *.
  - etransitivity; [exact Hb | apply Hf].
  - specialize (Hf s'). destruct (fin s') as [[u|e'] s'']; simpl in *;
      (etransitivity; [exact Hb | exact Hf]).
Qed.

Lemma keeps_for_each {A : Type} (xs : list A) (body : A -> Py unit) :
  (forall x, keeps R (body x)) -> keeps R (for_each xs body).
Proof.
  intros Hb. induction xs as [|x xs IH]; simpl.
  - apply keeps_ret.
  - apply keeps_bind; [apply Hb | intros _; exact IH].
Qed.

Lemma keeps_row_label (df : DataFrame) (i : Z) : keeps R (row_label df i).
Proof.
  unfold row_label. apply keeps_bind; [apply keeps_from_option|].
  intros _. apply keeps_ret.
Qed.

Lemma keeps_alloc (d : Selection) :
  (forall h s, R s (set_heap h s)) -> keeps R (alloc d).
Proof. intros Hh s. apply Hh. Qed.

Lemma keeps_input : (forall i s, R s (set_stdin i s)) -> keeps R input.
Proof.
  intros Hi s. unfold input. destruct (stdin s); simpl; [reflexivity | apply Hi].
Qed.

End Frame.

(** Decomposes a [keeps] goal along the shape of the computation;
    [leaf] closes the goals [R s (f s)] left by the state updates. *)
Ltac keeps_step leaf :=
  lazymatch goal with
  | |- PreOrder _ => typeclasses eauto
  | |- forall _, _ => intros ?
  | |- keeps _ (bind _ _) => apply keeps_bind
  | |- keeps _ (ret _) => apply keeps_ret
  | |- keeps _ (raise _) => apply keeps_raise
  | |- keeps _ get => apply keeps_get
  | |- keeps _ (from_option _ _) => apply keeps_from_option
  | |- keeps _ (py_mod _ _) => apply keeps_py_mod
  | |- keeps _ (row_label _ _) => apply keeps_row_label
  | |- keeps _ (try_except _ _) => apply keeps_try_except
  | |- keeps _ (try_finally _ _) => apply keeps_try_finally
  | |- keeps _ (for_each _ _) => apply keeps_for_each
  | |- keeps _ (modify _) => apply keeps_modify; intros ?; leaf
  | |- keeps _ (alloc _) => apply keeps_alloc; intros ? ?; leaf
  | |- keeps _ input =>
      apply keeps_input; [typeclasses eauto | intros ? ?; leaf]
  | |- keeps _ (match ?x with _ => _ end) => destruct x
  | |- keeps _ (let _ := _ in _) => cbv zeta
  | |- _ => leaf
  end.

Ltac keeps_auto leaf := repeat (keeps_step leaf).

#[local] Instance same_session_preorder : PreOrder same_session.
Proof.
  split.
  - intros s. unfold same_session. tauto.
  - intros s1 s2 s3. unfold same_session. intuition congruence.
Qed.


(** ** numpy.argmin and the snap *)

Lemma num_le_Fin (p q : Q) : num_le (Fin p) (Fin q) = true <-> (p <= q)%Q.
Proof. simpl. apply Qle_bool_iff. Qed.

Lemma num_le_refl (a : num) : finite a -> num_le a a = true.
Proof.
  destruct a as [p|]; [intros _|discriminate].
  apply num_le_Fin. apply Qle_refl.
Qed.

Lemma num_le_trans (a b c : num) :
  num_le a b = true -> num_le b c = true -> num_le a c = true.
Proof.
  destruct a as [p|], b as [q|], c as [r|]; try discriminate.
  rewrite !num_le_Fin. apply Qle_trans.
Qed.

(** On numbers, [not (a <= b)] is [b < a]. *)
Lemma num_le_false (a b : num) :
  finite a -> finite b -> num_le a b = false ->
  num_le b a = true /\ forall c, num_le a c = true -> num_le c b = false.
Proof.
  destruct a as [p|], b as [q|]; try discriminate. intros _ _ Hab.
  assert (Hlt : (q < p)%Q).
  { apply Qnot_le_lt. intros Hle. apply num_le_Fin in Hle. congruence. }
  split.
  - apply num_le_Fin. apply Qlt_le_weak. exact Hlt.
  - intros [r|] Hpr; [|reflexivity].
    apply num_le_Fin in Hpr.
    destruct (num_le (Fin r) (Fin q)) eqn:Hrq; [|reflexivity].
    apply num_le_Fin in Hrq. exfalso.
    apply (Qlt_not_le q p Hlt). apply Qle_trans with r; assumption.
Qed.

Lemma argmin_scan_range (l : list num) (mp : num) (min_ind i : nat) :
  argmin_scan mp min_ind i l = min_ind \/
  (i <= argmin_scan mp min_ind i l < i + length l)%nat.
Proof.
  revert mp min_ind i. induction l as [|d l IH]; intros mp min_ind i; simpl.
  - left. reflexivity.
  - destruct (num_le mp d).
    + destruct (IH mp min_ind (S i)) as [->|H]; [left; reflexivity | right; lia].
    + destruct (isnan d); [right; lia|].
      destruct (IH d i (S i)) as [->|H]; right; lia.
Qed.

Lemma np_argmin_lt (l : list num) (r : nat) :
  np_argmin l = Some r -> (r < length l)%nat.
Proof.
  destruct l as [|d l]; simpl; [discriminate|].
  intros [= <-]. destruct (isnan d); [lia|].
  destruct (argmin_scan_range l d 0 1) as [->|H]; lia.
Qed.

Lemma np_argmin_is_Some (l : list num) : l <> [] -> is_Some (np_argmin l).
Proof. destruct l; [congruence | intros _; eexists; reflexivity]. Qed.

Lemma first_min_extend (pre : list num) (mi : nat) (mp d : num) :
  pre !! mi = Some mp -> is_first_min pre mi -> num_le mp d = true ->
  is_first_min (pre ++ [d]) mi.
Proof.
  intros Hmp (m & Hm & Hle & Hlt) Hd.
  assert (m = mp) as -> by congruence.
  exists mp. split; [|split].
  - apply lookup_app_l_Some. exact Hm.
  - intros j x Hj. apply lookup_app_Some in Hj as [Hj|[_ Hj]]; [eauto|].
    apply list_lookup_singleton_Some in Hj as [_ <-]. exact Hd.
  - intros j x Hjr Hj. apply lookup_app_Some in Hj as [Hj|[Hge _]]; [eauto|].
    apply lookup_lt_Some in Hm. lia.
Qed.

Lemma first_min_replace (pre : list num) (mi : nat) (mp d : num) :
  Forall finite pre -> finite d ->
  pre !! mi = Some mp -> is_first_min pre mi -> num_le mp d = false ->
  is_first_min (pre ++ [d]) (length pre).
Proof.
  intros Hpre Hfd Hmp (m & Hm & Hle & _) Hd.
  assert (m = mp) as -> by congruence.
  assert (Hfm : finite mp).
  { eapply Forall_lookup_1 in Hpre; [exact Hpre | exact Hm]. }
  destruct (num_le_false mp d Hfm Hfd Hd) as [Hdm Hstrict].
  exists d. split; [|split].
  - rewrite lookup_app_r by lia. by rewrite Nat.sub_diag.
  - intros j x Hj. apply lookup_app_Some in Hj as [Hj|[_ Hj]].
    + apply num_le_trans with mp; eauto.
    + apply list_lookup_singleton_Some in Hj as [_ <-]. by apply num_le_refl.
  - intros j x Hjr Hj. rewrite lookup_app_l in Hj by exact Hjr.
    apply Hstrict. eauto.
Qed.

Lemma argmin_scan_first_min (l pre : list num) (mp : num) (mi : nat) :
  Forall finite (pre ++ l) -> pre !! mi = Some mp -> is_first_min pre mi ->
  is_first_min (pre ++ l) (argmin_scan mp mi (length pre) l).
Proof.
  revert pre mp mi. induction l as [|d l IH]; intros pre mp mi Hfin Hmp Hmin; simpl.
  - by rewrite app_nil_r.
  - assert (Hpre : Forall finite pre) by (apply Forall_app in Hfin; tauto).
    assert (Hd : finite d).
    { apply Forall_app in Hfin as [_ Hfin]. by apply Forall_cons in Hfin as [? _]. }
    rewrite (cons_middle d pre l), app_assoc in Hfin |- *.
    destruct (num_le mp d) eqn:Hle.
    + replace (S (length pre)) with (length (pre ++ [d]))
        by (rewrite length_app; simpl; lia).
      apply IH; [exact Hfin | by apply lookup_app_l_Some |].
      by apply first_min_extend with mp.
    + rewrite Hd.
      replace (S (length pre)) with (length (pre ++ [d]))
        by (rewrite length_app; simpl; lia).
      apply IH; [exact Hfin | |].
      * rewrite lookup_app_r by lia. by rewrite Nat.sub_diag.
      * by apply first_min_replace with mi mp.
Qed.

(** On a sequence of numbers [np.argmin] is the first position of the minimum. *)
Lemma np_argmin_first_min (l : list num) (r : nat) :
  Forall finite l -> np_argmin l = Some r -> is_first_min l r.
Proof.
  destruct l as [|d l]; simpl; [discriminate|].
  intros Hfin [= <-].
  assert (Hd : finite d) by (by apply Forall_cons in Hfin as [? _]).
  rewrite Hd.
  apply (argmin_scan_first_min l [d] d 0 Hfin); [reflexivity|].
  exists d. split; [reflexivity|]. split.
  - intros [|j] x; simpl; [intros [= <-]; by apply num_le_refl | by destruct j].
  - intros j x Hj. lia.
Qed.

Lemma argmin_scan_nan (l : list num) (mp : num) (mi i : nat) :
  finite mp -> ~ Forall finite l ->
  exists k, argmin_scan mp mi i l = (i + k)%nat /\ is_first_nan l k.
Proof.
  revert mp mi i. induction l as [|d l IH]; intros mp mi i Hmp Hnan; simpl.
  - exfalso. apply Hnan. constructor.
  - destruct d as [q|].
    + assert (Hl : ~ Forall finite l).
      { intros Hl. apply Hnan. constructor; [reflexivity | exact Hl]. }
      assert (Hstep : forall mp' mi', finite mp' ->
                exists k, argmin_scan mp' mi' (S i) l = (i + k)%nat /\
                          is_first_nan (Fin q :: l) k).
      { intros mp' mi' Hmp'. destruct (IH mp' mi' (S i) Hmp' Hl) as (k & Hk & Hk1 & Hk2).
        exists (S k). split; [lia|]. split; [exact Hk1|].
        intros [|j] x Hj; simpl; [intros [= <-]; reflexivity|].
        apply Hk2. lia. }
      destruct (num_le mp (Fin q)); simpl; apply Hstep; [exact Hmp | reflexivity].
    + replace (num_le mp NaN) with false by (by destruct mp). simpl.
      exists O. split; [lia|]. split; [reflexivity|]. intros j x Hj. lia.
Qed.

(** With a NaN in the sequence [np.argmin] is the position of the first NaN. *)
Lemma np_argmin_first_nan (l : list num) :
  ~ Forall finite l -> exists r, np_argmin l = Some r /\ is_first_nan l r.
Proof.
  destruct l as [|d l]; intros Hnan.
  - exfalso. apply Hnan. constructor.
  - simpl. destruct d as [q|]; simpl.
    + assert (Hl : ~ Forall finite l).
      { intros Hl. apply Hnan. constructor; [reflexivity | exact Hl]. }
      destruct (argmin_scan_nan l (Fin q) 0 1 eq_refl Hl) as (k & Hk & Hk1 & Hk2).
      exists (S k). split; [f_equal; lia|]. split; [exact Hk1|].
      intros [|j] x Hj; simpl; [intros [= <-]; reflexivity|].
      apply Hk2. lia.
    + exists O. split; [reflexivity|]. split; [reflexivity|]. intros j x Hj. lia.
Qed.

Section Snap.

Context {ext : Externals}.

(** The pair [on_click] stores is the sample at the argmin position. *)
Lemma snap_lookup (x_data y_data : list num) (qx qy : num) (p : point) :
  snap x_data y_data qx qy = Some p ->
  exists i, np_argmin (map (sq_dist qx qy) (zip x_data y_data)) = Some i /\
            zip x_data y_data !! i = Some p.
Proof.
  unfold snap. destruct (np_argmin _) as [i|] eqn:Hi; [|discriminate].
  destruct (x_data !! i) as [x|] eqn:Hx; [|discriminate].
  destruct (y_data !! i) as [y|] eqn:Hy; [|discriminate].
  intros [= <-]. exists i. split; [reflexivity|].
  apply lookup_zip_with_Some. exists x, y. auto.
Qed.

Lemma snap_is_Some (x_data y_data : list num) (qx qy : num) :
  zip x_data y_data <> [] -> is_Some (snap x_data y_data qx qy).
Proof.
  intros Hne. unfold snap.
  destruct (np_argmin_is_Some (map (sq_dist qx qy) (zip x_data y_data)))
    as [i Hi].
  { destruct (zip x_data y_data); [congruence | discriminate]. }
  rewrite Hi. apply np_argmin_lt in Hi. rewrite length_map in Hi.
  destruct (lookup_lt_is_Some_2 _ _ Hi) as [[x y] Hxy].
  apply lookup_zip_with_Some in Hxy as (x' & y' & [= <- <-] & Hx & Hy).
  rewrite Hx, Hy. by eexists.
Qed.

Lemma sq_dist_finite (qx qy : num) (p : point) :
  finite qx -> finite qy -> finite (fst p) -> finite (snd p) ->
  finite (sq_dist qx qy p).
Proof.
  destruct p as [[x|] [y|]], qx as [a|], qy as [b|]; simpl;
    unfold finite; simpl; congruence.
Qed.

(** X19. On a row with at least one sample the snap of a click returns
    a pair that stands in the row's sample sequence. When the query and
    every coordinate of the row are numbers (no NaN cell), it is the
    sample whose squared distance to the query, as the float
    operations compute it on the raw coordinates, is least, and among
    the samples at that computed distance the first one in the row's
    order. *)
Theorem snap_returns_first_nearest_sample (x_data y_data : list num)
    (qx qy : num) :
  zip x_data y_data <> [] ->
  let dists := map (sq_dist qx qy) (zip x_data y_data) in
  exists i p,
    snap x_data y_data qx qy = Some p /\
    zip x_data y_data !! i = Some p /\
    (finite qx -> finite qy ->
     Forall (fun xy => finite (fst xy) /\ finite (snd xy)) (zip x_data y_data) ->
     Forall finite dists /\ is_first_min dists i).
Proof.
  intros Hne dists.
  destruct (snap_is_Some x_data y_data qx qy Hne) as [p Hp].
  destruct (snap_lookup _ _ _ _ _ Hp) as (i & Hi & Hzip).
  exists i, p. split; [exact Hp|]. split; [exact Hzip|].
  intros Hqx Hqy Hall.
  assert (Hfin : Forall finite dists).
  { subst dists. apply Forall_fmap.
    eapply Forall_impl; [exact Hall|]. intros xy [Hx Hy]. simpl.
    by apply sq_dist_finite. }
  split; [exact Hfin|]. by apply np_argmin_first_min.
Qed.

(** With a NaN cell in the row the snap is the first sample whose
    distance is NaN, wherever the query lies. *)
Lemma snap_with_nan_distance (x_data y_data : list num) (qx qy : num)
    (p : point) :
  let dists := map (sq_dist qx qy) (zip x_data y_data) in
  ~ Forall finite dists -> snap x_data y_data qx qy = Some p ->
  exists i, zip x_data y_data !! i = Some p /\ is_first_nan dists i.
Proof.
  intros dists Hnan Hp.
  destruct (snap_lookup _ _ _ _ _ Hp) as (i & Hi & Hzip).
  destruct (np_argmin_first_nan dists Hnan) as (r & Hr & Hfirst).
  fold dists in Hi. exists i. split; [exact Hzip|].
  by replace i with r by congruence.
Qed.

End Snap.

(** ** Clicks *)

Ltac py_unfold :=
  unfold exec, bind, get, modify, ret, raise, from_option, row_label,
    py_mod, alloc in *.

Ltac py_simpl := py_unfold; simpl.

Section Session.

Context {ext : Externals}.

Lemma update_plot_same_session : keeps same_session update_plot.
Proof.
  unfold update_plot.
  repeat keeps_step ltac:(unfold same_session; simpl; tauto).
Qed.

Lemma update_plot_row_view (s : State) (i : Z) :
  row_view (exec update_plot s) i = row_view s i.
Proof.
  destruct (update_plot_same_session s) as (_ & _ & _ & _ & _ & Hr & Hh & _).
  unfold row_view, exec. by rewrite Hr, Hh.
Qed.

(** What one click does, once its guards and lookups go through. *)
Lemma on_click_exec (s : State) (e : MouseEvent) (df : DataFrame)
    (ys : list num) (p : point) (l : loc) (d : Selection) :
  inaxes e = true -> data s = Some df -> df_empty df = false ->
  iloc (df_values df) (current_row_index s) = Some ys ->
  snap (df_columns df) ys (xdata e) (ydata e) = Some p ->
  results s !! current_row_index s = Some l -> heap s !! l = Some d ->
  exec (on_click e) s =
  exec update_plot
    match next_slot d with
    | None =>
        set_results (<[current_row_index s := length (heap s)]> (results s))
                    (set_heap (heap s ++ [unset]) s)
    | Some k => set_heap (alter (set_slot k (Some p)) l (heap s)) s
    end.
Proof.
  intros Hin Hdata Hne Hrow Hsnap Hres Hheap.
  unfold snap in Hsnap.
  destruct (np_argmin _) as [i|] eqn:Hi; [|discriminate].
  destruct (df_columns df !! i) as [x|] eqn:Hx; [|discriminate].
  destruct (ys !! i) as [y|] eqn:Hy; [|discriminate].
  injection Hsnap as <-.
  unfold on_click. py_unfold. simpl.
  rewrite Hin, Hdata. simpl. rewrite Hne, Hrow. simpl.
  rewrite Hi; py_simpl. rewrite Hx; py_simpl. rewrite Hy; py_simpl.
  rewrite Hres; py_simpl. rewrite Hheap; py_simpl.
  destruct (next_slot d); reflexivity.
Qed.

Lemma df_nonempty_zip (df : DataFrame) (ys : list num) :
  df_empty df = false -> ys <> [] -> zip (df_columns df) ys <> [].
Proof.
  unfold df_empty. intros Hne Hys.
  apply orb_false_iff in Hne as [_ Hc].
  destruct (df_columns df), ys; simpl in *; congruence.
Qed.

(** The state a click leaves, field by field. *)
Lemma on_click_session (s : State) (e : MouseEvent) (df : DataFrame)
    (ys : list num) (p : point) (l : loc) (d : Selection) :
  inaxes e = true -> data s = Some df -> df_empty df = false ->
  iloc (df_values df) (current_row_index s) = Some ys ->
  snap (df_columns df) ys (xdata e) (ydata e) = Some p ->
  results s !! current_row_index s = Some l -> heap s !! l = Some d ->
  let s' := handle s (ButtonPress e) in
  data s' = data s /\ current_row_index s' = current_row_index s /\
  match next_slot d with
  | Some k =>
      results s' = results s /\
      heap s' = alter (set_slot k (Some p)) l (heap s)
  | None =>
      results s' = (<[current_row_index s := length (heap s)]> (results s)) /\
      heap s' = heap s ++ [unset]
  end.
Proof.
  intros Hin Hdata Hne Hrow Hsnap Hres Hheap s'. subst s'.
  unfold handle, callback.
  rewrite (on_click_exec s e df ys p l d) by assumption.
  match goal with
  | |- context [exec update_plot ?s1] =>
      destruct (update_plot_same_session s1)
        as (Hd & _ & Hc & _ & _ & Hr & Hh & _)
  end.
  unfold exec. rewrite Hd, Hc, Hr, Hh.
  destruct (next_slot d); simpl; auto.
Qed.

Lemma on_click_row_view (s : State) (e : MouseEvent) (df : DataFrame)
    (ys : list num) (p : point) (l : loc) (d : Selection) :
  inaxes e = true -> data s = Some df -> df_empty df = false ->
  iloc (df_values df) (current_row_index s) = Some ys ->
  snap (df_columns df) ys (xdata e) (ydata e) = Some p ->
  results s !! current_row_index s = Some l -> heap s !! l = Some d ->
  row_view (handle s (ButtonPress e)) (current_row_index s) =
  Some match next_slot d with
       | Some k => set_slot k (Some p) d
       | None => unset
       end.
Proof.
  intros Hin Hdata Hne Hrow Hsnap Hres Hheap.
  destruct (on_click_session s e df ys p l d) as (_ & _ & Hs); try assumption.
  unfold row_view. destruct (next_slot d) as [k|]; destruct Hs as [-> ->].
  - rewrite Hres, list_lookup_alter_eq, Hheap. reflexivity.
  - rewrite lookup_insert_eq, lookup_app_r by lia.
    by rewrite Nat.sub_diag.
Qed.

(** C10. A click looks at the contents of the three slots of the
    current row, in the order LEFT, TOP, RIGHT, and writes the snapped
    sample into the first one that is unset, leaving the two others as
    they are: with LEFT unset it fills LEFT whatever TOP and RIGHT
    hold. Only when all three are set does it put the row back to
    all-unset. *)
Theorem click_fills_first_unset_slot (s : State) (e : MouseEvent)
    (df : DataFrame) (ys : list num) (l : loc) (d : Selection) :
  inaxes e = true -> data s = Some df -> df_empty df = false ->
  iloc (df_values df) (current_row_index s) = Some ys -> ys <> [] ->
  results s !! current_row_index s = Some l -> heap s !! l = Some d ->
  exists p,
    snap (df_columns df) ys (xdata e) (ydata e) = Some p /\
    let after := row_view (handle s (ButtonPress e)) (current_row_index s) in
    (left d = None ->
       after = Some {| top := top d; left := Some p; right := right d |}) /\
    (left d <> None -> top d = None ->
       after = Some {| top := Some p; left := left d; right := right d |}) /\
    (left d <> None -> top d <> None -> right d = None ->
       after = Some {| top := top d; left := left d; right := Some p |}) /\
    (left d <> None -> top d <> None -> right d <> None ->
       after = Some unset) /\
    (after = Some unset ->
       left d <> None /\ top d <> None /\ right d <> None).
Proof.
  intros Hin Hdata Hne Hrow Hys Hres Hheap.
  destruct (snap_is_Some (df_columns df) ys (xdata e) (ydata e)) as [p Hp].
  { by apply df_nonempty_zip. }
  exists p. split; [exact Hp|]. cbv zeta.
  rewrite (on_click_row_view s e df ys p l d) by assumption.
  unfold next_slot.
  destruct d as [[t|] [lf|] [r|]]; simpl;
    repeat split; intros; try congruence; try discriminate.
Qed.

(** C1. On any row whose three slots are unset, four clicks in a row
    fill LEFT, then TOP, then RIGHT, each with the sample snapped from
    that click, and the fourth click leaves the row all-unset: it
    clears the three slots in one step and stores no point. *)
Theorem clicks_fill_left_top_right_then_reset (s : State) (df : DataFrame)
    (ys : list num) (l : loc) (e1 e2 e3 e4 : MouseEvent) :
  data s = Some df -> df_empty df = false ->
  iloc (df_values df) (current_row_index s) = Some ys -> ys <> [] ->
  results s !! current_row_index s = Some l -> heap s !! l = Some unset ->
  inaxes e1 = true -> inaxes e2 = true -> inaxes e3 = true ->
  inaxes e4 = true ->
  let r := current_row_index s in
  let click := ButtonPress in
  exists p1 p2 p3,
    snap (df_columns df) ys (xdata e1) (ydata e1) = Some p1 /\
    snap (df_columns df) ys (xdata e2) (ydata e2) = Some p2 /\
    snap (df_columns df) ys (xdata e3) (ydata e3) = Some p3 /\
    row_view (handle_all s [click e1]) r =
      Some {| top := None; left := Some p1; right := None |} /\
    row_view (handle_all s [click e1; click e2]) r =
      Some {| top := Some p2; left := Some p1; right := None |} /\
    row_view (handle_all s [click e1; click e2; click e3]) r =
      Some {| top := Some p2; left := Some p1; right := Some p3 |} /\
    row_view (handle_all s [click e1; click e2; click e3; click e4]) r =
      Some unset.
Proof.
  intros Hdata Hne Hrow Hys Hres Hheap Hin1 Hin2 Hin3 Hin4 r click.
  assert (Hzip : zip (df_columns df) ys <> []) by (by apply df_nonempty_zip).
  destruct (snap_is_Some (df_columns df) ys (xdata e1) (ydata e1) Hzip) as [p1 Hp1].
  destruct (snap_is_Some (df_columns df) ys (xdata e2) (ydata e2) Hzip) as [p2 Hp2].
  destruct (snap_is_Some (df_columns df) ys (xdata e3) (ydata e3) Hzip) as [p3 Hp3].
  destruct (snap_is_Some (df_columns df) ys (xdata e4) (ydata e4) Hzip) as [p4 Hp4].
  exists p1, p2, p3. do 3 (split; [assumption|]).
  unfold handle_all; simpl. subst click r.
  (* first click *)
  pose proof (on_click_row_view s e1 df ys p1 l unset
                Hin1 Hdata Hne Hrow Hp1 Hres Hheap) as Hv1.
  destruct (on_click_session s e1 df ys p1 l unset
              Hin1 Hdata Hne Hrow Hp1 Hres Hheap) as (Hd1 & Hc1 & Hr1 & Hh1).
  simpl in Hv1, Hr1, Hh1.
  set (s1 := handle s (ButtonPress e1)) in *.
  assert (Hheap1 : heap s1 !! l =
                   Some {| top := None; left := Some p1; right := None |}).
  { rewrite Hh1, list_lookup_alter_eq, Hheap. reflexivity. }
  rewrite <- Hd1 in Hdata. rewrite <- Hc1 in Hrow, Hv1 |- *. rewrite <- Hr1, <- Hc1 in Hres.
  split; [exact Hv1|].
  (* second click *)
  pose proof (on_click_row_view s1 e2 df ys p2 l _
                Hin2 Hdata Hne Hrow Hp2 Hres Hheap1) as Hv2.
  destruct (on_click_session s1 e2 df ys p2 l _
              Hin2 Hdata Hne Hrow Hp2 Hres Hheap1) as (Hd2 & Hc2 & Hr2 & Hh2).
  simpl in Hv2, Hr2, Hh2.
  set (s2 := handle s1 (ButtonPress e2)) in *.
  assert (Hheap2 : heap s2 !! l =
                   Some {| top := Some p2; left := Some p1; right := None |}).
  { rewrite Hh2, list_lookup_alter_eq, Hheap1. reflexivity. }
  rewrite <- Hd2 in Hdata. rewrite <- Hc2 in Hrow, Hv2 |- *. rewrite <- Hr2, <- Hc2 in Hres.
  split; [exact Hv2|].
  (* third click *)
  pose proof (on_click_row_view s2 e3 df ys p3 l _
                Hin3 Hdata Hne Hrow Hp3 Hres Hheap2) as Hv3.
  destruct (on_click_session s2 e3 df ys p3 l _
              Hin3 Hdata Hne Hrow Hp3 Hres Hheap2) as (Hd3 & Hc3 & Hr3 & Hh3).
  simpl in Hv3, Hr3, Hh3.
  set (s3 := handle s2 (ButtonPress e3)) in *.
  assert (Hheap3 : heap s3 !! l =
                   Some {| top := Some p2; left := Some p1; right := Some p3 |}).
  { rewrite Hh3, list_lookup_alter_eq, Hheap2. reflexivity. }
  rewrite <- Hd3 in Hdata. rewrite <- Hc3 in Hrow, Hv3 |- *. rewrite <- Hr3, <- Hc3 in Hres.
  split; [exact Hv3|].
  (* fourth click *)
  exact (on_click_row_view s3 e4 df ys p4 l _
           Hin4 Hdata Hne Hrow Hp4 Hres Hheap3).
Qed.

End Session.

(** ** Manual entry *)

Section Manual.

Context {ext : Externals}.

Lemma set_heap_same (s : State) : set_heap (heap s) s = s.
Proof. by destruct s. Qed.

Lemma enter_slot_exec (k : Slot) (s : State) (str : string) (rest : list string) :
  stdin s = str :: rest ->
  enter_slot k s =
  match entry_of str with
  | Malformed => (Raised ValueError, set_stdin rest s)
  | e => (Ok tt, set_stdin rest
                   (set_heap (alter (apply_entry k e) (selected_points s) (heap s)) s))
  end.
Proof.
  intros Hin. unfold enter_slot, input, entry_of. py_simpl. rewrite Hin.
  destruct (String.eqb str EmptyString).
  - simpl. rewrite list_alter_id by reflexivity. by rewrite set_heap_same.
  - destruct (parse_xy str); reflexivity.
Qed.

Lemma exec_try_except_all (body : Py unit) (s : State) :
  exec (try_except body (fun _ => true)) s = exec body s.
Proof.
  unfold exec, try_except. destruct (body s) as [[u|e] s']; reflexivity.
Qed.

Lemma exec_bind_ok {A B : Type} (m : Py A) (k : A -> Py B) (s s' : State) (a : A) :
  m s = (Ok a, s') -> exec (bind m k) s = exec (k a) s'.
Proof. intros H. unfold exec, bind. by rewrite H. Qed.

Lemma exec_bind_raised {A B : Type} (m : Py A) (k : A -> Py B) (s s' : State)
    (e : exn) :
  m s = (Raised e, s') -> exec (bind m k) s = s'.
Proof. intros H. unfold exec, bind. by rewrite H. Qed.

Lemma enter_slot_then (k : Slot) (s : State) (str : string)
    (rest : list string) (next : Py unit) :
  stdin s = str :: rest ->
  exec (bind (enter_slot k) (fun _ => next)) s =
  match entry_of str with
  | Malformed => set_stdin rest s
  | e => exec next (entered k e rest s)
  end.
Proof.
  intros Hin. pose proof (enter_slot_exec k s str rest Hin) as H.
  destruct (entry_of str).
  - by rewrite (exec_bind_ok _ _ _ _ _ H).
  - by rewrite (exec_bind_ok _ _ _ _ _ H).
  - by rewrite (exec_bind_raised _ _ _ _ _ H).
Qed.

(** A batch of three lines, line by line: the first malformed line ends it. *)
Lemma manual_input_exec (s : State) (df : DataFrame) (t l r : string)
    (rest : list string) :
  data s = Some df -> df_empty df = false -> stdin s = t :: l :: r :: rest ->
  exec manual_input s =
  match entry_of t with
  | Malformed => set_stdin (l :: r :: rest) s
  | et =>
      let s1 := entered TOP et (l :: r :: rest) s in
      match entry_of l with
      | Malformed => set_stdin (r :: rest) s1
      | el =>
          let s2 := entered LEFT el (r :: rest) s1 in
          match entry_of r with
          | Malformed => set_stdin rest s2
          | er =>
              let s3 := entered RIGHT er rest s2 in
              exec update_plot
                (set_results (<[current_row_index s3 := selected_points s3]>
                                (results s3)) s3)
          end
      end
  end.
Proof.
  intros Hdata Hne Hin.
  unfold manual_input.
  rewrite (exec_bind_ok get _ s s s) by reflexivity.
  unfold no_data. rewrite Hdata, Hne.
  rewrite exec_try_except_all.
  rewrite (enter_slot_then TOP s t (l :: r :: rest)) by exact Hin.
  destruct (entry_of t); [ | | reflexivity ].
  all: rewrite (enter_slot_then LEFT _ l (r :: rest)) by reflexivity;
    (destruct (entry_of l); [ | | reflexivity ]).
  all: rewrite (enter_slot_then RIGHT _ r rest) by reflexivity;
    (destruct (entry_of r); reflexivity).
Qed.

Lemma on_key_m (s : State) (df : DataFrame) :
  data s = Some df -> df_empty df = false ->
  handle s (KeyPress "m") = exec manual_input s.
Proof.
  intros Hdata Hne. unfold handle, callback, on_key.
  rewrite (exec_bind_ok get _ s s s) by reflexivity.
  rewrite Hdata, Hne. reflexivity.
Qed.

Lemma entered_heap_other (k : Slot) (e : Entry) (rest : list string)
    (s : State) (l : loc) :
  l <> selected_points s -> heap (entered k e rest s) !! l = heap s !! l.
Proof. intros Hl. simpl. by apply list_lookup_alter_ne. Qed.

Lemma entered_heap_selected (k : Slot) (e : Entry) (rest : list string)
    (s : State) (d : Selection) :
  heap s !! selected_points s = Some d ->
  heap (entered k e rest s) !! selected_points s = Some (apply_entry k e d).
Proof. intros Hd. simpl. by rewrite list_lookup_alter_eq, Hd. Qed.

(** C3, as the code has it. The three lines of a batch are read and
    validated one after the other, TOP then LEFT then RIGHT, and the
    first malformed line ends the batch: its slot and the slots of the
    lines after it are left unchanged, those lines are not read, and the
    current row is not given the entered selection. A batch without a
    malformed line applies every line that is not blank. *)
Theorem manual_batch_ends_at_first_malformed (s : State) (df : DataFrame)
    (t l r : string) (rest : list string) (d : Selection) :
  data s = Some df -> df_empty df = false ->
  stdin s = t :: l :: r :: rest ->
  heap s !! selected_points s = Some d ->
  let sp := selected_points s in
  let s' := handle s (KeyPress "m") in
  (entry_of t = Malformed -> s' = set_stdin (l :: r :: rest) s) /\
  (entry_of t <> Malformed -> entry_of l = Malformed ->
     stdin s' = r :: rest /\ results s' = results s /\
     (forall l', l' <> sp -> heap s' !! l' = heap s !! l') /\
     exists d', heap s' !! sp = Some d' /\
                left d' = left d /\ right d' = right d) /\
  (entry_of t <> Malformed -> entry_of l <> Malformed ->
   entry_of r = Malformed ->
     stdin s' = rest /\ results s' = results s /\
     (forall l', l' <> sp -> heap s' !! l' = heap s !! l') /\
     exists d', heap s' !! sp = Some d' /\ right d' = right d) /\
  (entry_of t <> Malformed -> entry_of l <> Malformed ->
   entry_of r <> Malformed ->
     stdin s' = rest /\
     row_view s' (current_row_index s) =
       Some (apply_entry RIGHT (entry_of r)
               (apply_entry LEFT (entry_of l)
                  (apply_entry TOP (entry_of t) d)))).
Proof.
  intros Hdata Hne Hin Hd sp s'. subst s' sp.
  rewrite (on_key_m s df Hdata Hne).
  rewrite (manual_input_exec s df t l r rest Hdata Hne Hin).
  cbv zeta.
  destruct (entry_of t) as [|pt|] eqn:Et, (entry_of l) as [|pl|] eqn:El,
    (entry_of r) as [|pr|] eqn:Er;
    (split; [|split; [|split]]); intros; try congruence;
    try rewrite update_plot_row_view;
    try match goal with
        | |- context [stdin (exec update_plot ?x)] =>
            destruct (update_plot_same_session x)
              as (_ & _ & _ & _ & _ & _ & _ & Hs & _);
            unfold exec; rewrite Hs
        end;
    repeat match goal with
           | |- _ /\ _ => split
           | |- exists _, _ => eexists
           | |- forall _, _ => intros ? ?
           end;
    unfold row_view; simpl;
    rewrite ?lookup_insert_eq, ?list_lookup_alter_eq,
      ?list_lookup_alter_ne by (apply not_eq_sym; assumption);
    rewrite ?Hd; reflexivity.
Qed.

End Manual.

(** ** The candidate cache *)

Section Cache.

Context {ext : Externals}.

Lemma peak_points_elem (x_data y_data : list num) (peaks : list nat)
    (c : list point) :
  peak_points x_data y_data peaks = Some c ->
  Forall2 (fun p xy => zip x_data y_data !! p = Some xy) peaks c.
Proof.
  unfold peak_points. intros H. apply mapM_Some_1 in H.
  eapply Forall2_impl; [exact H|]. intros p [x y]; simpl.
  destruct (x_data !! p) as [x'|] eqn:Hx; [|discriminate].
  destruct (y_data !! p) as [y'|] eqn:Hy; [|discriminate].
  intros [= <- <-]. apply lookup_zip_with_Some. eauto.
Qed.

Lemma peak_points_is_Some (x_data y_data : list num) (peaks : list nat) :
  Forall (fun p => (p < length (zip x_data y_data))%nat) peaks ->
  is_Some (peak_points x_data y_data peaks).
Proof.
  intros Hall. unfold peak_points. apply mapM_is_Some.
  eapply Forall_impl; [exact Hall|]. intros p Hp; simpl in *.
  destruct (lookup_lt_is_Some_2 _ _ Hp) as [[x y] Hxy].
  apply lookup_zip_with_Some in Hxy as (x' & y' & _ & -> & ->). by eexists.
Qed.

(** A request for a row that has no entry: one call of the finder on
    the row's y values as they are, and the entry is stored. *)
Lemma update_plot_miss (s : State) (df : DataFrame) (ys : list num) :
  data s = Some df -> df_empty df = false ->
  (df_len df <=? current_row_index s) = false ->
  iloc (df_values df) (current_row_index s) = Some ys ->
  peak_candidates s !! current_row_index s = None ->
  let s' := exec update_plot s in
  trace s' = trace s ++ [CallFindPeaks ys] /\
  peak_candidates s' =
    match peak_points (df_columns df) ys (find_peaks ys) with
    | Some c => <[current_row_index s := c]> (peak_candidates s)
    | None => peak_candidates s
    end /\
  (exists peaks marks, figure s' = FigCurve (df_columns df) ys peaks marks).
Proof.
  intros Hdata Hne Hlen Hrow Hmiss. cbv zeta.
  unfold update_plot. py_simpl.
  rewrite Hdata, Hne, Hlen. simpl. rewrite Hrow. simpl. rewrite Hmiss. simpl.
  destruct (peak_points _ _ _) as [c|]; simpl; [|eauto].
  rewrite lookup_insert_eq. simpl.
  destruct (results s !! current_row_index s) as [l|]; simpl; [|eauto].
  destruct (heap s !! l); simpl; eauto.
Qed.

(** A request for a row that has an entry: no call, no change. *)
Lemma update_plot_hit (s : State) (df : DataFrame) (ys : list num)
    (c : list point) :
  data s = Some df -> df_empty df = false ->
  (df_len df <=? current_row_index s) = false ->
  iloc (df_values df) (current_row_index s) = Some ys ->
  peak_candidates s !! current_row_index s = Some c ->
  let s' := exec update_plot s in
  trace s' = trace s /\ peak_candidates s' = peak_candidates s /\
  (exists marks, figure s' = FigCurve (df_columns df) ys c marks).
Proof.
  intros Hdata Hne Hlen Hrow Hhit. cbv zeta.
  unfold update_plot. py_simpl.
  rewrite Hdata, Hne, Hlen. simpl. rewrite Hrow. simpl. rewrite Hhit. simpl.
  rewrite Hhit. simpl.
  destruct (results s !! current_row_index s) as [l|]; simpl; [|eauto].
  destruct (heap s !! l); simpl; eauto.
Qed.

#[local] Instance cache_kept_preorder : PreOrder cache_kept.
Proof.
  split.
  - intros s. split; [reflexivity|]. split; [reflexivity|].
    exists []. split; [by rewrite app_nil_r|].
    intros y Hy. by apply elem_of_nil in Hy.
  - intros s1 s2 s3 (Hd1 & Hc1 & e1 & Ht1 & Hcalls1) (Hd2 & Hc2 & e2 & Ht2 & Hcalls2).
    split; [congruence|]. split; [by etransitivity|].
    exists (e1 ++ e2). split; [by rewrite Ht2, Ht1, app_assoc|].
    intros y Hy. apply elem_of_app in Hy as [Hy|Hy]; [by apply Hcalls1|].
    destruct (Hcalls2 y Hy) as (i & df & Hdf & Hnone & Hrow).
    exists i, df. split; [congruence|]. split; [|exact Hrow].
    by eapply lookup_weaken_None.
Qed.

(** A step that touches neither the table, nor the cache, nor the trace. *)
Lemma cache_kept_same (s s' : State) :
  data s' = data s -> peak_candidates s' = peak_candidates s ->
  trace s' = trace s -> cache_kept s s'.
Proof.
  intros Hd Hc Ht. split; [exact Hd|]. split; [by rewrite Hc|].
  exists []. split; [by rewrite Ht, app_nil_r|].
  intros y Hy. by apply elem_of_nil in Hy.
Qed.

(** A step that only reports something else than a finder call. *)
Lemma cache_kept_emit (s : State) (o : Output) :
  (forall y, o <> CallFindPeaks y) -> cache_kept s (emit o s).
Proof.
  intros Ho. split; [reflexivity|]. split; [reflexivity|].
  exists [o]. split; [reflexivity|].
  intros y Hy. apply list_elem_of_singleton in Hy. by destruct (Ho y).
Qed.

Lemma update_plot_cache_kept : keeps cache_kept update_plot.
Proof.
  intros s.
  destruct (update_plot_same_session s) as (Hdata & _).
  fold (exec update_plot s) in *.
  destruct (data s) as [df|] eqn:Hdf.
  2:{ unfold exec, update_plot. py_simpl. rewrite Hdf. by apply cache_kept_same. }
  destruct (df_empty df || (df_len df <=? current_row_index s)) eqn:Hguard.
  { unfold exec, update_plot. py_simpl. rewrite Hdf, Hguard.
    by apply cache_kept_same. }
  apply orb_false_iff in Hguard as [Hne Hlen].
  destruct (iloc (df_values df) (current_row_index s)) as [ys|] eqn:Hrow.
  2:{ unfold exec, update_plot. py_simpl. rewrite Hdf, Hne, Hlen. simpl.
      rewrite Hrow. by apply cache_kept_same. }
  destruct (peak_candidates s !! current_row_index s) as [c|] eqn:Hc.
  - destruct (update_plot_hit s df ys c Hdf Hne Hlen Hrow Hc) as (Ht & Hp & _).
    apply cache_kept_same; [congruence | exact Hp | exact Ht].
  - destruct (update_plot_miss s df ys Hdf Hne Hlen Hrow Hc) as (Ht & Hp & _).
    split; [congruence|]. split.
    + rewrite Hp. destruct (peak_points _ _ _); [|reflexivity].
      by apply insert_subseteq.
    + exists [CallFindPeaks ys]. split; [exact Ht|].
      intros y Hy. apply list_elem_of_singleton in Hy as [= ->].
      exists (current_row_index s), df. auto.
Qed.

Ltac cache_leaf :=
  first
    [ apply update_plot_cache_kept
    | apply cache_kept_emit; intros ?; discriminate
    | apply cache_kept_same; reflexivity ].

Lemma save_plot_cache_kept (row_idx : option Z) (prefix : option string) :
  keeps cache_kept (save_plot row_idx prefix).
Proof. unfold save_plot. repeat keeps_step cache_leaf. Qed.

Lemma on_click_cache_kept (e : MouseEvent) : keeps cache_kept (on_click e).
Proof. unfold on_click. repeat keeps_step cache_leaf. Qed.

Lemma clear_selection_cache_kept : keeps cache_kept clear_selection.
Proof. unfold clear_selection. repeat keeps_step cache_leaf. Qed.

Lemma manual_input_cache_kept : keeps cache_kept manual_input.
Proof. unfold manual_input, enter_slot. repeat keeps_step cache_leaf. Qed.

Lemma save_results_cache_kept : keeps cache_kept save_results.
Proof.
  unfold save_results.
  repeat keeps_step ltac:(first [apply save_plot_cache_kept | cache_leaf]).
Qed.

Lemma save_all_plots_cache_kept : keeps cache_kept save_all_plots.
Proof.
  unfold save_all_plots.
  repeat keeps_step ltac:(first [apply save_plot_cache_kept | cache_leaf]).
Qed.

Lemma prev_row_cache_kept : keeps cache_kept prev_row_button_clicked.
Proof. unfold prev_row_button_clicked. repeat keeps_step cache_leaf. Qed.

Lemma next_row_cache_kept : keeps cache_kept next_row_button_clicked.
Proof. unfold next_row_button_clicked. repeat keeps_step cache_leaf. Qed.

Lemma on_key_cache_kept (key : string) :
  key <> "o" -> keeps cache_kept (on_key key).
Proof.
  intros Hkey. unfold on_key.
  apply keeps_bind; [typeclasses eauto | apply keeps_get; typeclasses eauto |].
  intros s. destruct (data s) as [df|]; [|apply keeps_ret; typeclasses eauto].
  destruct (df_empty df); [apply keeps_ret; typeclasses eauto|].
  destruct (String.eqb key "right"); [repeat keeps_step cache_leaf|].
  destruct (String.eqb key "left"); [repeat keeps_step cache_leaf|].
  destruct (String.eqb key "m"); [apply manual_input_cache_kept|].
  destruct (String.eqb key "c"); [apply clear_selection_cache_kept|].
  destruct (String.eqb key "s"); [apply save_results_cache_kept|].
  destruct (String.eqb key "o") eqn:Ho; [by apply String.eqb_eq in Ho|].
  destruct (String.eqb key "p"); [apply save_plot_cache_kept|].
  destruct (String.eqb key "a"); [apply save_all_plots_cache_kept|].
  apply keeps_ret; typeclasses eauto.
Qed.

Lemma callback_cache_kept (ev : Event) :
  ~ replaces_table ev -> keeps cache_kept (callback ev).
Proof.
  unfold replaces_table. intros Hev.
  destruct ev as [e|key| | | | |]; simpl.
  - apply on_click_cache_kept.
  - apply on_key_cache_kept. intros ->. tauto.
  - apply prev_row_cache_kept.
  - apply next_row_cache_kept.
  - apply save_results_cache_kept.
  - tauto.
  - apply save_plot_cache_kept.
Qed.

Lemma handle_all_cache_kept (evs : list Event) (s : State) :
  Forall (fun ev => ~ replaces_table ev) evs ->
  cache_kept s (handle_all s evs).
Proof.
  unfold handle_all. revert s.
  induction evs as [|ev evs IH]; intros s Hevs; simpl; [reflexivity|].
  apply Forall_cons in Hevs as [Hev Hevs].
  etransitivity; [|apply IH; exact Hevs].
  by apply callback_cache_kept.
Qed.

(** C6. The first request for the candidates of a row calls the peak
    finder once, on that row's y values, turns each index it returns
    into the (x, y) sample of the row at that index, and stores the
    list. A request for a row that has an entry calls nothing and
    leaves the cache as it is. Whatever events follow, as long as none
    of them switches the file, every stored list stays what it is and
    the finder is called only for rows that have no entry. *)
Theorem candidate_cache_memoizes (s : State) (df : DataFrame) (ys : list num) :
  data s = Some df -> df_empty df = false ->
  current_row_index s < df_len df ->
  iloc (df_values df) (current_row_index s) = Some ys ->
  Forall (fun p => (p < length (zip (df_columns df) ys))%nat) (find_peaks ys) ->
  let s' := exec update_plot s in
  (peak_candidates s !! current_row_index s = None ->
     exists c,
       Forall2 (fun p xy => zip (df_columns df) ys !! p = Some xy)
               (find_peaks ys) c /\
       peak_candidates s' = <[current_row_index s := c]> (peak_candidates s) /\
       trace s' = trace s ++ [CallFindPeaks ys]) /\
  (forall c, peak_candidates s !! current_row_index s = Some c ->
     peak_candidates s' = peak_candidates s /\ trace s' = trace s) /\
  (peak_candidates (exec update_plot s') = peak_candidates s' /\
   trace (exec update_plot s') = trace s') /\
  (forall evs, Forall (fun ev => ~ replaces_table ev) evs ->
     cache_kept s (handle_all s evs)).
Proof.
  intros Hdata Hne Hlt Hrow Hpeaks s'.
  assert (Hlen : (df_len df <=? current_row_index s) = false)
    by (apply Z.leb_gt; exact Hlt).
  destruct (peak_points_is_Some _ _ _ Hpeaks) as [c Hc].
  assert (Hfirst : peak_candidates s !! current_row_index s = None ->
            peak_candidates s' = <[current_row_index s := c]> (peak_candidates s) /\
            trace s' = trace s ++ [CallFindPeaks ys]).
  { intros Hmiss.
    destruct (update_plot_miss s df ys Hdata Hne Hlen Hrow Hmiss) as (Ht & Hp & _).
    rewrite Hc in Hp. auto. }
  assert (Hagain : forall s1 c1, same_session s s1 ->
            peak_candidates s1 !! current_row_index s1 = Some c1 ->
            peak_candidates (exec update_plot s1) = peak_candidates s1 /\
            trace (exec update_plot s1) = trace s1).
  { intros s1 c1 (Hd1 & _ & Hc1 & _) Hhit.
    rewrite <- Hd1 in Hdata. rewrite <- Hc1 in Hlen, Hrow.
    destruct (update_plot_hit s1 df ys c1 Hdata Hne Hlen Hrow Hhit) as (Ht & Hp & _).
    auto. }
  split; [|split; [|split]].
  - intros Hmiss. exists c. split; [by apply peak_points_elem|]. by apply Hfirst.
  - intros c1 Hhit. apply (Hagain s c1); [reflexivity | exact Hhit].
  - pose proof (update_plot_same_session s) as Hs. fold (exec update_plot s) in Hs.
    fold s' in Hs.
    assert (Hcur : current_row_index s' = current_row_index s)
      by (destruct Hs as (_ & _ & H & _); exact H).
    destruct (peak_candidates s !! current_row_index s) as [c0|] eqn:Hentry.
    + apply (Hagain s' c0 Hs).
      destruct (Hagain s c0) as [Hp _]; [reflexivity | exact Hentry |].
      fold s' in Hp. by rewrite Hp, Hcur.
    + apply (Hagain s' c Hs).
      destruct (Hfirst eq_refl) as [Hp _]. rewrite Hp, Hcur.
      apply lookup_insert_eq.
  - intros evs Hevs. by apply handle_all_cache_kept.
Qed.

End Cache.

Section DeadCode.

Context {ext : Externals}.

(** What [find_potential_peaks] would do if it were called: warn, and
    hand the finder the y values with 0 in place of each NaN. *)
Lemma find_potential_peaks_substitutes (y_data : list num) (s : State) :
  existsb id (map isnan y_data) = true ->
  let cleaned := map (fun y => if isnan y then Fin 0 else y) y_data in
  find_potential_peaks y_data s =
  (Ok (find_peaks cleaned),
   emit (CallFindPeaks cleaned) (emit (WarnNaN (current_row_index s)) s)) /\
  Forall finite cleaned.
Proof.
  intros Hnan cleaned. split.
  - unfold find_potential_peaks. py_simpl. by rewrite Hnan.
  - subst cleaned. apply Forall_fmap, Forall_forall. intros y _. simpl.
    by destruct y.
Qed.

End DeadCode.

(** ** Navigation *)

Section Navigation.

Context {ext : Externals}.

(** What moving to row [i'] leaves: the session with the new index. *)
Lemma goto_row_same_session (s : State) (df : DataFrame) (i' : Z) :
  same_session (set_current_row_index i' s)
    (exec (run modify (set_current_row_index i'); run row_label df i'; update_plot) s).
Proof.
  rewrite (exec_bind_ok (modify (set_current_row_index i')) _ s
             (set_current_row_index i' s) tt) by reflexivity.
  generalize (set_current_row_index i' s). intros s1.
  assert (H : keeps same_session (run row_label df i'; update_plot)).
  { repeat keeps_step ltac:(apply update_plot_same_session). }
  apply H.
Qed.

Lemma forward_exec (s : State) (df : DataFrame) (ev : Event) :
  ev ∈ forward_events -> data s = Some df -> df_empty df = false ->
  num_rows s <> 0 ->
  same_session
    (set_current_row_index ((current_row_index s + 1) mod num_rows s) s)
    (handle s ev).
Proof.
  intros Hev Hdata Hne Hn.
  assert (Hz : (num_rows s =? 0) = false) by (by apply Z.eqb_neq).
  unfold forward_events in Hev.
  apply elem_of_cons in Hev as [->|Hev];
    [|apply list_elem_of_singleton in Hev as ->];
    unfold handle, callback, on_key, next_row_button_clicked;
    rewrite (exec_bind_ok get _ s s s) by reflexivity;
    rewrite Hdata, Hne; simpl;
    rewrite (exec_bind_ok (py_mod _ _) _ s s
               ((current_row_index s + 1) mod num_rows s))
      by (unfold py_mod; by rewrite Hz);
    apply goto_row_same_session.
Qed.

Lemma backward_exec (s : State) (df : DataFrame) (ev : Event) :
  ev ∈ backward_events -> data s = Some df -> df_empty df = false ->
  num_rows s <> 0 ->
  same_session
    (set_current_row_index
       ((current_row_index s - 1 + num_rows s) mod num_rows s) s)
    (handle s ev).
Proof.
  intros Hev Hdata Hne Hn.
  assert (Hz : (num_rows s =? 0) = false) by (by apply Z.eqb_neq).
  unfold backward_events in Hev.
  apply elem_of_cons in Hev as [->|Hev];
    [|apply list_elem_of_singleton in Hev as ->];
    unfold handle, callback, on_key, prev_row_button_clicked;
    rewrite (exec_bind_ok get _ s s s) by reflexivity;
    rewrite Hdata, Hne; simpl;
    rewrite (exec_bind_ok (py_mod _ _) _ s s
               ((current_row_index s - 1 + num_rows s) mod num_rows s))
      by (unfold py_mod; by rewrite Hz);
    apply goto_row_same_session.
Qed.

(** Without rows to move between, a navigation event changes nothing. *)
Lemma navigation_without_rows (s : State) (ev : Event) :
  ev ∈ forward_events ++ backward_events -> num_rows s = 0 -> handle s ev = s.
Proof.
  intros Hev Hn. unfold forward_events, backward_events in Hev. simpl in Hev.
  assert (Hcases : ev = KeyPress "right" \/ ev = NextRowButton \/
                   ev = KeyPress "left" \/ ev = PrevRowButton).
  { repeat (apply elem_of_cons in Hev as [->|Hev]; [tauto|]).
    by apply elem_of_nil in Hev. }
  destruct Hcases as [-> | [-> | [-> | ->]]];
    unfold handle, callback, on_key, next_row_button_clicked,
      prev_row_button_clicked, exec, bind, get, py_mod;
    destruct (data s) as [df|]; simpl; try reflexivity;
    destruct (df_empty df); simpl; try reflexivity;
    rewrite Hn; reflexivity.
Qed.

Lemma forward_backward_index (i n : Z) :
  0 <= i < n -> ((i + 1) mod n - 1 + n) mod n = i.
Proof.
  intros Hi. destruct (Z.eq_dec (i + 1) n) as [Heq|Hneq].
  - rewrite Heq, Z_mod_same_full.
    replace (0 - 1 + n) with i by lia. apply Z.mod_small. lia.
  - rewrite (Z.mod_small (i + 1) n) by lia.
    replace (i + 1 - 1 + n) with (i + 1 * n) by lia.
    rewrite Z_mod_plus_full. apply Z.mod_small. lia.
Qed.

Lemma backward_forward_index (i n : Z) :
  0 <= i < n -> ((i - 1 + n) mod n + 1) mod n = i.
Proof.
  intros Hi. destruct (Z.eq_dec i 0) as [->|Hneq].
  - rewrite (Z.mod_small (0 - 1 + n) n) by lia.
    replace (0 - 1 + n + 1) with n by lia. apply Z_mod_same_full.
  - replace (i - 1 + n) with (i - 1 + 1 * n) by lia.
    rewrite Z_mod_plus_full, (Z.mod_small (i - 1) n) by lia.
    replace (i - 1 + 1) with i by lia. apply Z.mod_small. lia.
Qed.

(** C8. With n > 0 rows and the current index i, a forward event
    (right arrow, Next button) moves to (i + 1) mod n and a backward
    event (left arrow, Previous button) to (i - 1 + n) mod n; for i
    among the row indices 0..n-1 one after the other, in either order,
    comes back to i. Both leave every row's annotation as it is. With
    no rows a navigation event does nothing. *)
Theorem navigation_wraps_and_keeps_annotations (s : State) (df : DataFrame)
    (fwd bwd : Event) :
  fwd ∈ forward_events -> bwd ∈ backward_events ->
  data s = Some df -> df_empty df = false -> 0 < num_rows s ->
  let n := num_rows s in
  let i := current_row_index s in
  current_row_index (handle s fwd) = (i + 1) mod n /\
  current_row_index (handle s bwd) = (i - 1 + n) mod n /\
  (0 <= i < n ->
     current_row_index (handle (handle s fwd) bwd) = i /\
     current_row_index (handle (handle s bwd) fwd) = i) /\
  (forall ev, ev ∈ forward_events ++ backward_events ->
     results (handle s ev) = results s /\ heap (handle s ev) = heap s /\
     forall r, row_view (handle s ev) r = row_view s r) /\
  (forall s0 ev, ev ∈ forward_events ++ backward_events ->
     num_rows s0 = 0 -> handle s0 ev = s0).
Proof.
  intros Hf Hb Hdata Hne Hn n i.
  assert (Hn0 : num_rows s <> 0) by lia.
  destruct (forward_exec s df fwd Hf Hdata Hne Hn0)
    as (Hfd & _ & Hfc & Hfn & _ & Hfr & Hfh & _).
  destruct (backward_exec s df bwd Hb Hdata Hne Hn0)
    as (Hbd & _ & Hbc & Hbn & _ & Hbr & Hbh & _).
  simpl in Hfd, Hfc, Hfn, Hfr, Hfh, Hbd, Hbc, Hbn, Hbr, Hbh.
  split; [exact Hfc|]. split; [exact Hbc|]. split; [|split].
  - intros Hi. split.
    + destruct (backward_exec (handle s fwd) df bwd Hb) as (_ & _ & Hc & _);
        [congruence | exact Hne | congruence |].
      simpl in Hc. rewrite Hc, Hfc, Hfn. by apply forward_backward_index.
    + destruct (forward_exec (handle s bwd) df fwd Hf) as (_ & _ & Hc & _);
        [congruence | exact Hne | congruence |].
      simpl in Hc. rewrite Hc, Hbc, Hbn. by apply backward_forward_index.
  - intros ev Hev.
    assert (Hrh : results (handle s ev) = results s /\ heap (handle s ev) = heap s).
    { apply elem_of_app in Hev as [Hev|Hev].
      - destruct (forward_exec s df ev Hev Hdata Hne Hn0)
          as (_ & _ & _ & _ & _ & Hr & Hh & _). auto.
      - destruct (backward_exec s df ev Hev Hdata Hne Hn0)
          as (_ & _ & _ & _ & _ & Hr & Hh & _). auto. }
    destruct Hrh as [Hr Hh]. split; [exact Hr|]. split; [exact Hh|].
    intros r. unfold row_view. by rewrite Hr, Hh.
  - intros s0 ev Hev H0. by apply navigation_without_rows.
Qed.

(** C9, the code at work. [save_all_plots] stops at its first
    statement with an UnboundLocalError, in any state: the 'a' key
    leaves the state as it was and no figure is saved. *)
Theorem save_all_plots_raises_at_once (s : State) :
  save_all_plots s = (Raised UnboundLocalError, s) /\
  handle s (KeyPress "a") = s /\
  trace (handle s (KeyPress "a")) = trace s.
Proof.
  split; [reflexivity|].
  assert (H : handle s (KeyPress "a") = s).
  { unfold handle, callback, on_key, exec, bind, get.
    destruct (data s) as [df|]; [|reflexivity].
    destruct (df_empty df); reflexivity. }
  split; [exact H | by rewrite H].
Qed.

End Navigation.

(** ** Switching the file *)

Section SwitchFile.

Context {ext : Externals}.

Lemma new_results_succ (k : nat) (h : list Selection) :
  new_results (Z.of_nat (S k)) h =
  (<[Z.of_nat k := length (snd (new_results (Z.of_nat k) h))]>
     (fst (new_results (Z.of_nat k) h)),
   snd (new_results (Z.of_nat k) h) ++ [unset]).
Proof.
  unfold new_results. rewrite seqZ_S, foldl_app. simpl.
  by rewrite Z.add_0_l.
Qed.

(** The dicts of a reloaded session: one new all-unset dict per row
    index 0..n-1, behind the objects that exist already. *)
Lemma new_results_spec (k : nat) (h : list Selection) :
  snd (new_results (Z.of_nat k) h) = h ++ replicate k unset /\
  forall i : Z,
    fst (new_results (Z.of_nat k) h) !! i =
    if decide (0 <= i < Z.of_nat k)
    then Some (length h + Z.to_nat i)%nat else None.
Proof.
  induction k as [|k [IHh IHr]].
  - split; [simpl; by rewrite app_nil_r|].
    intros i. unfold new_results. simpl. rewrite lookup_empty.
    case_decide; [lia | reflexivity].
  - rewrite new_results_succ. simpl. split.
    + rewrite IHh, <- app_assoc. f_equal. symmetry. apply replicate_cons_app.
    + intros i. destruct (decide (i = Z.of_nat k)) as [->|Hne].
      * rewrite lookup_insert_eq, IHh, length_app, length_replicate.
        case_decide; [|lia]. by rewrite Nat2Z.id.
      * rewrite lookup_insert_ne by congruence. rewrite IHr.
        repeat case_decide; try reflexivity; lia.
Qed.

Lemma new_results_row_view (s : State) (k : nat) (i : Z) :
  0 <= i < Z.of_nat k ->
  let fresh := new_results (Z.of_nat k) (heap s) in
  row_view (set_results (fst fresh) (set_heap (snd fresh) s)) i = Some unset.
Proof.
  intros Hi fresh. subst fresh.
  destruct (new_results_spec k (heap s)) as [Hh Hr].
  unfold row_view. simpl. rewrite Hr, Hh.
  case_decide; [|lia].
  rewrite lookup_app_r by lia.
  apply lookup_replicate. split; [reflexivity | lia].
Qed.

Lemma change_data_file_success (s : State) (new_file : string)
    (df : DataFrame) (rest : list (string * option DataFrame)) :
  dialog s = (new_file, Some df) :: rest ->
  new_file <> EmptyString -> df_empty df = false ->
  exec change_data_file s = exec update_plot (reloaded new_file df rest s).
Proof.
  intros Hdlg Hfile Hne.
  apply String.eqb_neq in Hfile.
  unfold change_data_file. rewrite exec_try_except_all.
  unfold exec, bind, askopenfilename. rewrite Hdlg. simpl.
  rewrite Hfile, Hne. reflexivity.
Qed.

Lemma change_data_file_failure (s : State) (new_file : string)
    (loaded : option DataFrame) (rest : list (string * option DataFrame)) :
  dialog s = (new_file, loaded) :: rest ->
  new_file = EmptyString \/ no_data loaded = true ->
  exists fig, exec change_data_file s = set_figure fig (set_dialog rest s).
Proof.
  intros Hdlg Hfail.
  unfold change_data_file. rewrite exec_try_except_all.
  unfold exec, bind, askopenfilename. rewrite Hdlg. simpl.
  destruct (String.eqb new_file EmptyString) eqn:Hfile.
  - exists (figure s). by destruct s.
  - destruct Hfail as [->|Hfail]; [discriminate|].
    destruct loaded as [df|]; simpl in Hfail; [rewrite Hfail|]; eauto.
Qed.

Lemma file_event_exec (s : State) (ev : Event) :
  ev = SwitchFileButton \/ (ev = KeyPress "o" /\ no_data (data s) = false) ->
  handle s ev = exec change_data_file s.
Proof.
  intros [->|[-> Hdata]]; [reflexivity|].
  unfold handle, callback, on_key.
  rewrite (exec_bind_ok get _ s s s) by reflexivity.
  unfold no_data in Hdata. destruct (data s) as [df|]; [|discriminate].
  by rewrite Hdata.
Qed.

(** C7. A file switch whose dialog returns a file that loads to a
    non-empty table installs that table, puts the current row at 0,
    gives every row a new all-unset annotation and empties the cache
    (after the first plot the only entry it can hold is the one of the
    new row 0). A switch that is cancelled, or whose file fails to load
    or loads empty, keeps the table, the annotations, the cache and the
    current row as they were. *)
Theorem load_replaces_all_or_nothing (s : State) (ev : Event)
    (new_file : string) (loaded : option DataFrame)
    (rest : list (string * option DataFrame)) :
  ev = SwitchFileButton \/ (ev = KeyPress "o" /\ no_data (data s) = false) ->
  dialog s = (new_file, loaded) :: rest ->
  let s' := handle s ev in
  (forall df, new_file <> EmptyString -> loaded = Some df ->
     df_empty df = false ->
     data s' = Some df /\ current_row_index s' = 0 /\
     num_rows s' = df_len df /\
     (forall i, 0 <= i < df_len df -> row_view s' i = Some unset) /\
     (forall i, ~ 0 <= i < df_len df -> results s' !! i = None) /\
     (forall i c, peak_candidates s' !! i = Some c ->
        i = 0 /\ exists ys, df_values df !! O = Some ys /\
                   peak_points (df_columns df) ys (find_peaks ys) = Some c)) /\
  (new_file = EmptyString \/ no_data loaded = true ->
     data s' = data s /\ data_filepath s' = data_filepath s /\
     num_rows s' = num_rows s /\ current_row_index s' = current_row_index s /\
     results s' = results s /\ heap s' = heap s /\
     peak_candidates s' = peak_candidates s).
Proof.
  intros Hev Hdlg s'. subst s'. rewrite (file_event_exec s ev Hev).
  split.
  - intros df Hfile -> Hne.
    rewrite (change_data_file_success s new_file df rest Hdlg Hfile Hne).
    set (s1 := reloaded new_file df rest s).
    destruct (update_plot_same_session s1)
      as (Hd & _ & Hc & Hn & _ & Hr & Hh & _).
    fold (exec update_plot s1) in *.
    split; [exact Hd|]. split; [exact Hc|]. split; [exact Hn|].
    split; [|split].
    + intros i Hi. rewrite update_plot_row_view.
      unfold s1, reloaded, df_len. cbv zeta. simpl num_rows. simpl heap.
      apply (new_results_row_view
               (set_current_row_index 0
                  (set_num_rows (df_len df)
                     (set_data_filepath new_file
                        (set_data (Some df) (set_dialog rest s)))))
               (length (df_values df)) i Hi).
    + intros i Hi. rewrite Hr. unfold s1, reloaded, df_len in *. simpl.
      destruct (new_results_spec (length (df_values df)) (heap s)) as [_ Hres].
      rewrite Hres. by case_decide.
    + intros i c Hic.
      assert (Hvals : exists ys, df_values df !! O = Some ys).
      { unfold df_empty in Hne. apply orb_false_iff in Hne as [Hne _].
        destruct (df_values df) as [|ys ?]; [discriminate | by exists ys]. }
      destruct Hvals as [ys Hys].
      assert (Hlen : (df_len df <=? current_row_index s1) = false).
      { apply Z.leb_gt. unfold df_len. simpl.
        apply lookup_lt_Some in Hys. lia. }
      destruct (update_plot_miss s1 df ys) as (_ & Hp & _);
        [reflexivity | exact Hne | exact Hlen | exact Hys | apply lookup_empty |].
      rewrite Hp in Hic. simpl in Hic.
      destruct (peak_points _ _ _) as [c0|] eqn:Hpp;
        [|by rewrite lookup_empty in Hic].
      apply lookup_insert_Some in Hic as [[<- <-]|[_ Hic]];
        [|by rewrite lookup_empty in Hic].
      split; [reflexivity|]. exists ys. auto.
  - intros Hfail.
    destruct (change_data_file_failure s new_file loaded rest Hdlg Hfail)
      as [fig ->].
    repeat split.
Qed.

End SwitchFile.

(** ** The session invariant *)

Section Invariant.

Context {ext : Externals}.

(** Every way a click can end. *)
Lemma on_click_cases (s : State) (e : MouseEvent) :
  let s' := exec (on_click e) s in
  s' = s \/
  (exists l d k p,
     results s !! current_row_index s = Some l /\ heap s !! l = Some d /\
     next_slot d = Some k /\
     s' = exec update_plot
            (set_heap (alter (set_slot k (Some p)) l (heap s)) s)) \/
  (exists l d,
     results s !! current_row_index s = Some l /\ heap s !! l = Some d /\
     next_slot d = None /\
     s' = exec update_plot
            (set_results (<[current_row_index s := length (heap s)]> (results s))
                         (set_heap (heap s ++ [unset]) s))).
Proof.
  cbv zeta.
  destruct (inaxes e) eqn:Hin.
  2:{ left. unfold on_click. py_simpl. by rewrite Hin. }
  destruct (data s) as [df|] eqn:Hdata.
  2:{ left. unfold on_click. py_simpl. by rewrite Hin, Hdata. }
  destruct (df_empty df) eqn:Hne.
  { left. unfold on_click. py_simpl. rewrite Hin, Hdata. simpl. by rewrite Hne. }
  destruct (iloc (df_values df) (current_row_index s)) as [ys|] eqn:Hrow.
  2:{ left. unfold on_click. py_simpl. rewrite Hin, Hdata. simpl.
      by rewrite Hne, Hrow. }
  destruct (snap (df_columns df) ys (xdata e) (ydata e)) as [p|] eqn:Hsnap.
  2:{ left. unfold on_click. py_simpl. rewrite Hin, Hdata. simpl.
      rewrite Hne, Hrow. simpl. unfold snap in Hsnap.
      destruct (np_argmin _) as [i|]; [|reflexivity]. simpl.
      destruct (df_columns df !! i); [|reflexivity]. simpl.
      destruct (ys !! i); [discriminate | reflexivity]. }
  destruct (results s !! current_row_index s) as [l|] eqn:Hres.
  2:{ left. unfold on_click. py_simpl. rewrite Hin, Hdata. simpl.
      rewrite Hne, Hrow. simpl. unfold snap in Hsnap.
      destruct (np_argmin _) as [i|]; [|discriminate]. simpl.
      destruct (df_columns df !! i); [|discriminate]. simpl.
      destruct (ys !! i); [|discriminate]. simpl. by rewrite Hres. }
  destruct (heap s !! l) as [d|] eqn:Hheap.
  2:{ left. unfold on_click. py_simpl. rewrite Hin, Hdata. simpl.
      rewrite Hne, Hrow. simpl. unfold snap in Hsnap.
      destruct (np_argmin _) as [i|]; [|discriminate]. simpl.
      destruct (df_columns df !! i); [|discriminate]. simpl.
      destruct (ys !! i); [|discriminate]. simpl. rewrite Hres. simpl.
      by rewrite Hheap. }
  right. rewrite (on_click_exec s e df ys p l d) by assumption.
  destruct (next_slot d) as [k|] eqn:Hk; [left | right]; eauto 10.
Qed.

(** Every way a clear can end. *)
Lemma clear_selection_cases (s : State) :
  let s' := exec clear_selection s in
  s' = s \/
  s' = exec update_plot
         (set_results (<[current_row_index s := length (heap s)]> (results s))
            (set_selected_points (length (heap s))
               (set_heap (heap s ++ [unset]) s))).
Proof.
  cbv zeta. unfold clear_selection. py_simpl.
  destruct (data s) as [df|]; [|by left].
  destruct (df_empty df); [by left|].
  destruct (iloc (df_values df) (current_row_index s)); simpl; [by right | by left].
Qed.

Lemma session_ok_same_session (s s' : State) :
  same_session s s' -> session_ok s -> session_ok s'.
Proof.
  intros (Hd & _ & Hc & Hn & Hsp & Hr & Hh & _ & Hdlg).
  intros (df & Hdata & Hne & Hrows & Hnum & Hcur & Hres & Hsel & Hans).
  exists df. rewrite Hd, Hc, Hn, Hsp, Hr, Hh, Hdlg. auto 10.
Qed.

Lemma session_ok_update_plot (s : State) :
  session_ok s -> session_ok (exec update_plot s).
Proof. apply session_ok_same_session, update_plot_same_session. Qed.

(** Writing into a dict that exists keeps the invariant. *)
Lemma session_ok_alter (s : State) (f : Selection -> Selection) (l : nat) :
  session_ok s -> session_ok (set_heap (alter f l (heap s)) s).
Proof.
  intros (df & Hdata & Hne & Hrows & Hnum & Hcur & Hres & Hsel & Hans).
  exists df. simpl. rewrite length_alter. auto 10.
Qed.

(** Binding a row index of the table to a new dict keeps the invariant. *)
Lemma session_ok_rebind_fresh (s : State) (i : Z) :
  session_ok s -> 0 <= i < num_rows s ->
  session_ok (set_results (<[i := length (heap s)]> (results s))
                          (set_heap (heap s ++ [unset]) s)).
Proof.
  intros (df & Hdata & Hne & Hrows & Hnum & Hcur & Hres & Hsel & Hans) Hi.
  exists df. simpl. rewrite length_app. simpl.
  repeat (split; [assumption|]). split; [|split; [lia | assumption]].
  intros j Hj. destruct (decide (i = j)) as [->|Hij].
  - exists (length (heap s)). rewrite lookup_insert_eq. split; [reflexivity | lia].
  - destruct (Hres j Hj) as (l & Hl & Hlt).
    exists l. rewrite lookup_insert_ne by exact Hij. split; [exact Hl | lia].
Qed.

Lemma session_ok_goto (s : State) (i : Z) :
  session_ok s -> 0 <= i < num_rows s ->
  session_ok (set_current_row_index i s).
Proof.
  intros (df & Hdata & Hne & Hrows & Hnum & Hcur & Hres & Hsel & Hans) Hi.
  exists df. simpl. auto 10.
Qed.

Lemma session_ok_on_click (s : State) (e : MouseEvent) :
  session_ok s -> session_ok (exec (on_click e) s).
Proof.
  intros Hok.
  destruct (on_click_cases s e)
    as [-> | [(l & d & k & p & _ & _ & _ & ->) | (l & d & _ & _ & _ & ->)]].
  - exact Hok.
  - by apply session_ok_update_plot, session_ok_alter.
  - apply session_ok_update_plot, session_ok_rebind_fresh; [exact Hok|].
    destruct Hok as (df & _ & _ & _ & _ & Hcur & _). exact Hcur.
Qed.

Lemma session_ok_clear_selection (s : State) :
  session_ok s -> session_ok (exec clear_selection s).
Proof.
  intros Hok. destruct (clear_selection_cases s) as [-> | ->]; [exact Hok|].
  apply session_ok_update_plot.
  assert (Hcur : 0 <= current_row_index s < num_rows s)
    by (destruct Hok as (df & _ & _ & _ & _ & Hcur & _); exact Hcur).
  pose proof (session_ok_rebind_fresh s (current_row_index s) Hok Hcur)
    as (df & Hdata & Hne & Hrows & Hnum & Hc & Hres & Hsel & Hans).
  exists df. simpl in *. rewrite length_app in *. simpl.
  repeat (split; [assumption|]). split; [lia | assumption].
Qed.

#[local] Instance ok_step_preorder : PreOrder ok_step.
Proof. split; unfold ok_step; [intros s; tauto | intros s1 s2 s3; tauto]. Qed.

Lemma session_ok_bind_selected (s : State) :
  session_ok s ->
  session_ok (set_results (<[current_row_index s := selected_points s]>
                             (results s)) s).
Proof.
  intros (df & Hdata & Hne & Hrows & Hnum & Hcur & Hres & Hsel & Hans).
  exists df. simpl. repeat (split; [assumption|]).
  split; [|split; assumption].
  intros j Hj. destruct (decide (current_row_index s = j)) as [<-|Hij].
  - exists (selected_points s). by rewrite lookup_insert_eq.
  - rewrite lookup_insert_ne by exact Hij. by apply Hres.
Qed.

Lemma session_ok_set_stdin (s : State) (i : list string) :
  session_ok s -> session_ok (set_stdin i s).
Proof. intros (df & H). exists df. exact H. Qed.

Lemma manual_input_ok_step : keeps ok_step manual_input.
Proof.
  unfold manual_input, enter_slot.
  repeat keeps_step ltac:(first
    [ exact session_ok_update_plot
    | unfold ok_step; apply session_ok_alter
    | unfold ok_step; apply session_ok_set_stdin
    | unfold ok_step; apply session_ok_bind_selected ]).
Qed.

#[local] Instance only_reports_preorder : PreOrder only_reports.
Proof.
  split.
  - intros s. exists []. rewrite app_nil_r. by destruct s.
  - intros s1 s2 s3 [o1 ->] [o2 ->]. exists (o1 ++ o2). simpl.
    by rewrite app_assoc.
Qed.

Lemma only_reports_emit (o : Output) (s : State) : only_reports s (emit o s).
Proof. by exists [o]. Qed.

Lemma save_plot_only_reports (row_idx : option Z) (prefix : option string) :
  keeps only_reports (save_plot row_idx prefix).
Proof. unfold save_plot. repeat keeps_step ltac:(apply only_reports_emit). Qed.

Lemma save_results_only_reports : keeps only_reports save_results.
Proof.
  unfold save_results.
  repeat keeps_step ltac:(first [ apply save_plot_only_reports
                                | apply only_reports_emit ]).
Qed.

Lemma save_all_plots_exec (s : State) : exec save_all_plots s = s.
Proof. reflexivity. Qed.

Lemma export_only_reports (s : State) (ev : Event) :
  ev ∈ export_events -> only_reports s (handle s ev).
Proof.
  unfold export_events. intros Hev.
  assert (Hguard : forall m : Py unit, keeps only_reports m ->
            only_reports s (exec (do s0 <- get;
                                  match data s0 with
                                  | None => ret tt
                                  | Some df => if df_empty df then ret tt else m
                                  end) s)).
  { intros m Hm. unfold exec, bind, get.
    destruct (data s) as [df|]; [|reflexivity].
    destruct (df_empty df); [reflexivity | apply Hm]. }
  repeat (apply elem_of_cons in Hev as [->|Hev]);
    [ apply (Hguard save_results), save_results_only_reports
    | apply (Hguard (save_plot None None)), save_plot_only_reports
    | apply (Hguard save_all_plots); intros s0;
      change (snd (save_all_plots s0)) with s0; reflexivity
    | apply save_results_only_reports
    | apply save_plot_only_reports
    | by apply elem_of_nil in Hev ].
Qed.

Lemma session_ok_only_reports (s s' : State) :
  only_reports s s' -> session_ok s -> session_ok s'.
Proof. intros [out ->] (df & H). exists df. exact H. Qed.

Lemma session_ok_goto_mod (s : State) (df : DataFrame) (a : Z) :
  session_ok s ->
  session_ok (exec (do i <- py_mod a (num_rows s);
                    run modify (set_current_row_index i);
                    run row_label df i;
                    update_plot) s).
Proof.
  intros Hok.
  assert (Hn : 0 < num_rows s)
    by (destruct Hok as (df' & _ & _ & _ & _ & Hcur & _); lia).
  rewrite (exec_bind_ok (py_mod a (num_rows s)) _ s s (a mod num_rows s)).
  2:{ unfold py_mod. destruct (Z.eqb_spec (num_rows s) 0); [lia | reflexivity]. }
  apply (session_ok_same_session
           (set_current_row_index (a mod num_rows s) s));
    [apply goto_row_same_session|].
  apply session_ok_goto; [exact Hok|]. by apply Z.mod_pos_bound.
Qed.

Lemma change_data_file_no_answer (s : State) :
  dialog s = [] -> exec change_data_file s = s.
Proof.
  intros Hdlg. unfold change_data_file. rewrite exec_try_except_all.
  unfold exec, bind, askopenfilename. by rewrite Hdlg.
Qed.

Lemma df_nonempty_len (df : DataFrame) : df_empty df = false -> 0 < df_len df.
Proof.
  unfold df_empty, df_len. intros H. apply orb_false_iff in H as [H _].
  destruct (df_values df); [discriminate | simpl; lia].
Qed.

Lemma session_ok_reloaded (s : State) (new_file : string) (df : DataFrame)
    (rest : list (string * option DataFrame)) :
  df_empty df = false -> rows_ok df -> answers_ok rest ->
  (selected_points s < length (heap s))%nat ->
  session_ok (reloaded new_file df rest s).
Proof.
  intros Hne Hrows Hrest Hsel.
  pose proof (df_nonempty_len df Hne) as Hlen.
  destruct (new_results_spec (length (df_values df)) (heap s)) as [Hh Hr].
  exists df. unfold reloaded. cbv zeta. simpl. fold (df_len df) in *.
  unfold df_len in *. rewrite Hh, length_app, length_replicate.
  repeat (split; [first [assumption | reflexivity | lia]|]).
  split; [|split; [lia | assumption]].
  intros i Hi. rewrite Hr. case_decide; [|lia].
  eexists. split; [reflexivity | lia].
Qed.

Lemma session_ok_change_data_file (s : State) :
  session_ok s -> session_ok (exec change_data_file s).
Proof.
  intros Hok.
  destruct (dialog s) as [|[new_file loaded] rest] eqn:Hdlg.
  { by rewrite change_data_file_no_answer. }
  assert (Hans : answers_ok ((new_file, loaded) :: rest)).
  { destruct Hok as (df & _ & _ & _ & _ & _ & _ & _ & Hans). by rewrite <- Hdlg. }
  apply Forall_cons in Hans as [Hloaded Hrest]. simpl in Hloaded.
  destruct (decide (new_file = EmptyString)) as [Hfile|Hfile].
  { destruct (change_data_file_failure s new_file loaded rest Hdlg) as [fig ->];
      [by left|].
    destruct Hok as (df & Hdata & Hne & Hrows & Hnum & Hcur & Hres & Hsel & _).
    exists df. simpl. auto 10. }
  destruct (no_data loaded) eqn:Hload.
  { destruct (change_data_file_failure s new_file loaded rest Hdlg) as [fig ->];
      [by right|].
    destruct Hok as (df & Hdata & Hne & Hrows & Hnum & Hcur & Hres & Hsel & _).
    exists df. simpl. auto 10. }
  destruct loaded as [df|]; [simpl in Hload | discriminate].
  rewrite (change_data_file_success s new_file df rest Hdlg Hfile Hload).
  apply session_ok_update_plot, session_ok_reloaded; auto.
  destruct Hok as (df' & _ & _ & _ & _ & _ & _ & Hsel & _). exact Hsel.
Qed.

Lemma session_ok_on_key (s : State) (key : string) :
  session_ok s -> session_ok (exec (on_key key) s).
Proof.
  intros Hok. pose proof Hok as (df & Hdata & Hne & _).
  unfold on_key. rewrite (exec_bind_ok get _ s s s) by reflexivity.
  rewrite Hdata, Hne.
  destruct (String.eqb key "right"); [by apply session_ok_goto_mod|].
  destruct (String.eqb key "left"); [by apply session_ok_goto_mod|].
  destruct (String.eqb key "m"); [by apply manual_input_ok_step|].
  destruct (String.eqb key "c"); [by apply session_ok_clear_selection|].
  destruct (String.eqb key "s");
    [exact (session_ok_only_reports _ _ (save_results_only_reports s) Hok)|].
  destruct (String.eqb key "o"); [by apply session_ok_change_data_file|].
  destruct (String.eqb key "p");
    [exact (session_ok_only_reports _ _ (save_plot_only_reports None None s) Hok)|].
  destruct (String.eqb key "a"); exact Hok.
Qed.

Lemma session_ok_button (s : State) (bwd : bool) :
  session_ok s ->
  session_ok (exec (if bwd then prev_row_button_clicked
                    else next_row_button_clicked) s).
Proof.
  intros Hok. pose proof Hok as (df & Hdata & Hne & _).
  destruct bwd; unfold prev_row_button_clicked, next_row_button_clicked;
    rewrite (exec_bind_ok get _ s s s) by reflexivity;
    rewrite Hdata, Hne; by apply session_ok_goto_mod.
Qed.

Lemma session_ok_callback (s : State) (ev : Event) :
  session_ok s -> session_ok (handle s ev).
Proof.
  intros Hok. destruct ev as [e|key| | | | |]; unfold handle, callback.
  - by apply session_ok_on_click.
  - by apply session_ok_on_key.
  - by apply (session_ok_button s true).
  - by apply (session_ok_button s false).
  - exact (session_ok_only_reports _ _ (save_results_only_reports s) Hok).
  - by apply session_ok_change_data_file.
  - exact (session_ok_only_reports _ _ (save_plot_only_reports None None s) Hok).
Qed.

Lemma session_ok_start (initial_file : string) (df : DataFrame)
    (console : list string) (answers : list (string * option DataFrame)) :
  df_empty df = false -> rows_ok df -> answers_ok answers ->
  session_ok (start initial_file df console answers).
Proof.
  intros Hne Hrows Hans. unfold start. cbv zeta.
  apply session_ok_update_plot.
  pose proof (df_nonempty_len df Hne) as Hlen.
  destruct (new_results_spec (length (df_values df)) [unset]) as [Hh Hr].
  exists df. simpl. fold (df_len df) in *. unfold df_len in *.
  rewrite Hh. simpl. rewrite length_replicate.
  repeat (split; [first [assumption | reflexivity | lia]|]).
  split; [|split; [lia | assumption]].
  intros i Hi. rewrite Hr. case_decide; [|lia].
  eexists. split; [reflexivity | simpl; lia].
Qed.

Lemma session_ok_row_view (s : State) (i : Z) :
  session_ok s -> 0 <= i < num_rows s -> is_Some (row_view s i).
Proof.
  intros (df & _ & _ & _ & _ & _ & Hres & _) Hi.
  destruct (Hres i Hi) as (l & Hl & Hlt). unfold row_view. rewrite Hl.
  by apply lookup_lt_is_Some_2.
Qed.

(** X1. Every event keeps the session invariant: after any click, key
    press or button, a table is still loaded, [num_rows] is its length,
    the current row index lies in 0..num_rows-1 and every row index is
    bound to an existing dict. *)
Theorem every_event_keeps_session_ok (s : State) (ev : Event) :
  session_ok s -> session_ok (handle s ev).
Proof. apply session_ok_callback. Qed.

(** X2. From startup on a non-empty table, whatever events follow, the
    current row index is a row of the loaded table and every row of it
    has an annotation to show. *)
Theorem reachable_sessions_are_in_bounds (initial_file : string)
    (df : DataFrame) (console : list string)
    (answers : list (string * option DataFrame)) (evs : list Event) :
  df_empty df = false -> rows_ok df -> answers_ok answers ->
  let s := handle_all (start initial_file df console answers) evs in
  exists df', data s = Some df' /\ num_rows s = df_len df' /\
    0 <= current_row_index s < df_len df' /\
    forall i, 0 <= i < df_len df' -> is_Some (row_view s i).
Proof.
  intros Hne Hrows Hans s.
  assert (Hok : session_ok s).
  { subst s. unfold handle_all.
    generalize (session_ok_start initial_file df console answers Hne Hrows Hans).
    generalize (start initial_file df console answers).
    induction evs as [|ev evs IH]; intros s0 H0; simpl; [exact H0|].
    apply IH. by apply session_ok_callback. }
  pose proof Hok as (df' & Hdata & _ & _ & Hnum & Hcur & _).
  exists df'. split; [exact Hdata|]. split; [exact Hnum|].
  split; [by rewrite <- Hnum|].
  intros i Hi. apply session_ok_row_view; [exact Hok | by rewrite Hnum].
Qed.

(** X3. In a session that satisfies the invariant a click inside the
    axes never goes unanswered: it writes the snapped sample into the
    first unset slot of the current row, or clears the row when all
    three are set. *)
Theorem click_takes_effect_in_ok_session (s : State) (e : MouseEvent) :
  session_ok s -> inaxes e = true ->
  exists df ys d p,
    data s = Some df /\
    iloc (df_values df) (current_row_index s) = Some ys /\
    row_view s (current_row_index s) = Some d /\
    snap (df_columns df) ys (xdata e) (ydata e) = Some p /\
    row_view (handle s (ButtonPress e)) (current_row_index s) =
      Some match next_slot d with
           | Some k => set_slot k (Some p) d
           | None => unset
           end.
Proof.
  intros (df & Hdata & Hne & Hrows & Hnum & Hcur & Hres & _) Hin.
  destruct (Hres _ Hcur) as (l & Hl & Hlt).
  destruct (lookup_lt_is_Some_2 _ _ Hlt) as [d Hd].
  assert (Hrow : exists ys, iloc (df_values df) (current_row_index s) = Some ys
                            /\ df_values df !! Z.to_nat (current_row_index s)
                               = Some ys).
  { unfold iloc. destruct (Z.leb_spec 0 (current_row_index s)); [|lia].
    destruct (lookup_lt_is_Some_2 (df_values df)
                (Z.to_nat (current_row_index s))) as [ys Hys];
      [unfold df_len in Hnum; lia | eauto]. }
  destruct Hrow as (ys & Hrow & Hys).
  assert (Hnonempty : ys <> []).
  { eapply Forall_lookup_1 in Hrows; [|exact Hys]. simpl in Hrows.
    unfold df_empty in Hne. apply orb_false_iff in Hne as [_ Hc].
    destruct ys, (df_columns df); simpl in *; congruence. }
  destruct (snap_is_Some (df_columns df) ys (xdata e) (ydata e)) as [p Hp];
    [by apply df_nonempty_zip|].
  exists df, ys, d, p. split; [exact Hdata|]. split; [exact Hrow|].
  split; [unfold row_view; by rewrite Hl|]. split; [exact Hp|].
  by apply (on_click_row_view s e df ys p l d).
Qed.

(** X4. The export commands (keys 's', 'p', 'a', the Save Results and
    Save Plot buttons) only write out: whatever the state, they leave
    the table, the annotations, the cache, the current row and the
    figure as they are. *)
Theorem exports_leave_the_session_alone (s : State) (ev : Event) :
  ev ∈ export_events -> only_reports s (handle s ev).
Proof. apply export_only_reports. Qed.

End Invariant.

(** ** Which rows a handler writes to *)

Section Sharing.

Context {ext : Externals}.

Lemma row_view_bound (s : State) (j : Z) (d : Selection) :
  row_view s j = Some d ->
  exists l, results s !! j = Some l /\ heap s !! l = Some d.
Proof.
  unfold row_view. destruct (results s !! j) as [l|]; [eauto | discriminate].
Qed.

(** A row bound to another dict than the current row's keeps its
    annotation through a click. *)
Lemma on_click_other_dict (s : State) (e : MouseEvent) (j : Z) (d : Selection) :
  row_view s j = Some d ->
  results s !! j <> results s !! current_row_index s ->
  row_view (handle s (ButtonPress e)) j = Some d.
Proof.
  intros Hview Hdiff. destruct (row_view_bound s j d Hview) as (lj & Hj & Hd).
  unfold handle, callback.
  destruct (on_click_cases s e)
    as [-> | [(l & d0 & k & p & Hl & _ & _ & ->) | (l & d0 & Hl & _ & _ & ->)]].
  - exact Hview.
  - rewrite update_plot_row_view. unfold row_view. simpl. rewrite Hj.
    rewrite list_lookup_alter_ne; [exact Hd | congruence].
  - rewrite update_plot_row_view. unfold row_view. simpl.
    rewrite lookup_insert_ne by (intros Heq; apply Hdiff; by rewrite Heq).
    rewrite Hj. apply lookup_app_l_Some. exact Hd.
Qed.

(** X5. A click changes the annotation of no row that is bound to
    another dict than the current row: such a row shows after the click
    what it showed before. *)
Theorem click_leaves_rows_of_other_dicts (s : State) (e : MouseEvent)
    (j : Z) (d : Selection) :
  row_view s j = Some d ->
  results s !! j <> results s !! current_row_index s ->
  row_view (handle s (ButtonPress e)) j = Some d.
Proof. apply on_click_other_dict. Qed.

(** X6. A click writes through to every row bound to the dict of the
    current row: when it fills a slot, each such row shows the same
    filled slot; when it resets, only the current row is bound to a new
    dict and the other rows keep the three points. *)
Theorem click_writes_through_shared_dict (s : State) (e : MouseEvent)
    (df : DataFrame) (ys : list num) (p : point) (l : nat) (d : Selection)
    (j : Z) :
  inaxes e = true -> data s = Some df -> df_empty df = false ->
  iloc (df_values df) (current_row_index s) = Some ys ->
  snap (df_columns df) ys (xdata e) (ydata e) = Some p ->
  results s !! current_row_index s = Some l -> heap s !! l = Some d ->
  j <> current_row_index s -> results s !! j = Some l ->
  row_view (handle s (ButtonPress e)) j =
  Some match next_slot d with
       | Some k => set_slot k (Some p) d
       | None => d
       end.
Proof.
  intros Hin Hdata Hne Hrow Hsnap Hres Hheap Hj Hshared.
  destruct (on_click_session s e df ys p l d) as (_ & _ & Hs); try assumption.
  unfold row_view. destruct (next_slot d) as [k|]; destruct Hs as [-> ->].
  - by rewrite Hshared, list_lookup_alter_eq, Hheap.
  - rewrite lookup_insert_ne by congruence. rewrite Hshared.
    by apply lookup_app_l_Some.
Qed.

#[local] Instance un_step_preorder : PreOrder un_step.
Proof. split; unfold un_step; [intros s; tauto | intros s1 s2 s3; tauto]. Qed.

Lemma unshared_same_session (s s' : State) :
  same_session s s' -> unshared s -> unshared s'.
Proof.
  intros (_ & _ & _ & _ & Hsp & Hr & Hh & _) H.
  unfold unshared. by rewrite Hsp, Hr, Hh.
Qed.

Lemma unshared_update_plot (s : State) :
  unshared s -> unshared (exec update_plot s).
Proof. apply unshared_same_session, update_plot_same_session. Qed.

Lemma unshared_alter (s : State) (f : Selection -> Selection) (l : nat) :
  unshared s -> unshared (set_heap (alter f l (heap s)) s).
Proof. unfold unshared. simpl. by rewrite length_alter. Qed.

Lemma unshared_rebind_fresh (s : State) (i : Z) :
  unshared s ->
  unshared (set_results (<[i := length (heap s)]> (results s))
                        (set_heap (heap s ++ [unset]) s)).
Proof.
  intros (Hinj & Hval & Hsel). unfold unshared. simpl.
  rewrite length_app. simpl. split; [|split; [|lia]].
  - intros a b l Ha Hb.
    apply lookup_insert_Some in Ha as [[<- <-]|[Hia Ha]];
      apply lookup_insert_Some in Hb as [[<- Hl]|[Hib Hb]];
      try reflexivity.
    + destruct (Hval _ _ Hb). lia.
    + subst l. destruct (Hval _ _ Ha). lia.
    + by apply (Hinj a b l).
  - intros a l Ha.
    apply lookup_insert_Some in Ha as [[<- <-]|[Hia Ha]]; [lia|].
    destruct (Hval _ _ Ha). split; [assumption | lia].
Qed.

Lemma unshared_on_click (s : State) (e : MouseEvent) :
  unshared s -> unshared (exec (on_click e) s).
Proof.
  intros Hun.
  destruct (on_click_cases s e)
    as [-> | [(l & d & k & p & _ & _ & _ & ->) | (l & d & _ & _ & _ & ->)]].
  - exact Hun.
  - by apply unshared_update_plot, unshared_alter.
  - by apply unshared_update_plot, unshared_rebind_fresh.
Qed.

Lemma unshared_reloaded (s : State) (new_file : string) (df : DataFrame)
    (rest : list (string * option DataFrame)) :
  (selected_points s < length (heap s))%nat ->
  unshared (reloaded new_file df rest s).
Proof.
  intros Hsel.
  destruct (new_results_spec (length (df_values df)) (heap s)) as [Hh Hr].
  unfold unshared, reloaded. cbv zeta. simpl. fold (df_len df).
  unfold df_len. rewrite Hh, length_app, length_replicate.
  split; [|split; [|lia]].
  - intros a b l. rewrite !Hr. repeat case_decide; try discriminate.
    intros [= <-] [= Heq]. lia.
  - intros a l. rewrite Hr. case_decide; [|discriminate].
    intros [= <-]. lia.
Qed.

Lemma unshared_change_data_file (s : State) :
  unshared s -> unshared (exec change_data_file s).
Proof.
  intros Hun.
  destruct (dialog s) as [|[new_file loaded] rest] eqn:Hdlg.
  { by rewrite change_data_file_no_answer. }
  destruct (decide (new_file = EmptyString)) as [Hfile|Hfile].
  { by destruct (change_data_file_failure s new_file loaded rest Hdlg)
      as [fig ->]; [by left|]. }
  destruct (no_data loaded) eqn:Hload.
  { by destruct (change_data_file_failure s new_file loaded rest Hdlg)
      as [fig ->]; [by right|]. }
  destruct loaded as [df|]; [simpl in Hload | discriminate].
  rewrite (change_data_file_success s new_file df rest Hdlg Hfile Hload).
  apply unshared_update_plot, unshared_reloaded. by destruct Hun as (_ & _ & ?).
Qed.

Lemma goto_un_step (df : DataFrame) (a n : Z) :
  keeps un_step (do i <- py_mod a n;
                 run modify (set_current_row_index i);
                 run row_label df i;
                 update_plot).
Proof.
  repeat keeps_step ltac:(first [ exact unshared_update_plot
                                | unfold un_step; tauto ]).
Qed.

Lemma unshared_only_reports (s s' : State) :
  only_reports s s' -> unshared s -> unshared s'.
Proof. by intros [out ->]. Qed.

Lemma unshared_callback (s : State) (ev : Event) :
  ~ binds_selected ev -> unshared s -> unshared (handle s ev).
Proof.
  unfold binds_selected. intros Hev Hun.
  destruct ev as [e|key| | | | |]; unfold handle, callback.
  - by apply unshared_on_click.
  - unfold on_key. rewrite (exec_bind_ok get _ s s s) by reflexivity.
    destruct (data s) as [df|]; [|exact Hun].
    destruct (df_empty df); [exact Hun|].
    destruct (String.eqb key "right"); [by apply goto_un_step|].
    destruct (String.eqb key "left"); [by apply goto_un_step|].
    destruct (String.eqb_spec key "m") as [->|_]; [tauto|].
    destruct (String.eqb_spec key "c") as [->|_]; [tauto|].
    destruct (String.eqb key "s");
      [exact (unshared_only_reports _ _ (save_results_only_reports s) Hun)|].
    destruct (String.eqb key "o"); [by apply unshared_change_data_file|].
    destruct (String.eqb key "p");
      [exact (unshared_only_reports _ _ (save_plot_only_reports None None s) Hun)|].
    destruct (String.eqb key "a"); exact Hun.
  - unfold prev_row_button_clicked.
    rewrite (exec_bind_ok get _ s s s) by reflexivity.
    destruct (data s) as [df|]; [|exact Hun].
    destruct (df_empty df); [exact Hun | by apply goto_un_step].
  - unfold next_row_button_clicked.
    rewrite (exec_bind_ok get _ s s s) by reflexivity.
    destruct (data s) as [df|]; [|exact Hun].
    destruct (df_empty df); [exact Hun | by apply goto_un_step].
  - exact (unshared_only_reports _ _ (save_results_only_reports s) Hun).
  - by apply unshared_change_data_file.
  - exact (unshared_only_reports _ _ (save_plot_only_reports None None s) Hun).
Qed.

Lemma unshared_start (initial_file : string) (df : DataFrame)
    (console : list string) (answers : list (string * option DataFrame)) :
  unshared (start initial_file df console answers).
Proof.
  unfold start. cbv zeta. apply unshared_update_plot.
  destruct (new_results_spec (length (df_values df)) [unset]) as [Hh Hr].
  unfold unshared. simpl. fold (df_len df). unfold df_len.
  rewrite Hh. simpl. split; [|split; [|lia]].
  - intros a b l. rewrite !Hr. repeat case_decide; try discriminate.
    intros [= <-] [= Heq]. simpl in Heq. lia.
  - intros a l. rewrite Hr. case_decide; [|discriminate].
    intros [= <-]. simpl. rewrite length_replicate. lia.
Qed.

(** X7. From startup, as long as no manual entry ('m') and no clear
    ('c') has happened, every row has a dict of its own, and a click
    changes the annotation of the current row only. *)
Theorem rows_stay_unshared_without_manual_or_clear (initial_file : string)
    (df : DataFrame) (console : list string)
    (answers : list (string * option DataFrame)) (evs : list Event) :
  Forall (fun ev => ~ binds_selected ev) evs ->
  let s := handle_all (start initial_file df console answers) evs in
  unshared s /\
  forall e j, j <> current_row_index s ->
    row_view (handle s (ButtonPress e)) j = row_view s j.
Proof.
  intros Hevs s.
  assert (Hun : unshared s).
  { subst s. unfold handle_all.
    generalize (unshared_start initial_file df console answers).
    generalize (start initial_file df console answers).
    induction Hevs as [|ev evs Hev _ IH]; intros s0 H0; simpl; [exact H0|].
    apply IH. by apply unshared_callback. }
  split; [exact Hun|]. intros e j Hj.
  destruct Hun as (Hinj & Hval & _).
  destruct (row_view s j) as [d|] eqn:Hview.
  - apply on_click_other_dict; [exact Hview|].
    destruct (row_view_bound s j d Hview) as (l & Hl & _).
    intros Heq. apply Hj. apply (Hinj j (current_row_index s) l); congruence.
  - unfold handle, callback.
    destruct (on_click_cases s e)
      as [-> | [(l & d0 & k & p & Hl & _ & _ & ->) | (l & d0 & Hl & _ & _ & ->)]];
      [exact Hview | |]; rewrite update_plot_row_view.
    + unfold row_view in *. simpl.
      destruct (results s !! j) as [lj|] eqn:Hlj; [|reflexivity].
      rewrite list_lookup_alter_ne; [exact Hview|].
      intros <-. apply Hj. by apply (Hinj j (current_row_index s) l).
    + unfold row_view in *. simpl. rewrite lookup_insert_ne by congruence.
      destruct (results s !! j) as [lj|] eqn:Hlj; [|reflexivity].
      destruct (Hval _ _ Hlj) as [_ Hlt].
      apply lookup_lt_is_Some_2 in Hlt as [d' Hd']. congruence.
Qed.

(** X8. A clear, on a loaded table and a current row of it, leaves the
    current row all-unset whatever it held, binds it to a new dict that
    [selected_points] names too, and changes the annotation of no other
    row. *)
Theorem clear_unsets_current_row_only (s : State) (df : DataFrame)
    (ys : list num) :
  data s = Some df -> df_empty df = false ->
  iloc (df_values df) (current_row_index s) = Some ys ->
  let s' := handle s (KeyPress "c") in
  row_view s' (current_row_index s) = Some unset /\
  results s' !! current_row_index s = Some (selected_points s') /\
  current_row_index s' = current_row_index s /\
  forall j d, j <> current_row_index s -> row_view s j = Some d ->
    row_view s' j = Some d.
Proof.
  intros Hdata Hne Hrow s'.
  assert (Hs' : s' = exec update_plot
            (set_results (<[current_row_index s := length (heap s)]> (results s))
               (set_selected_points (length (heap s))
                  (set_heap (heap s ++ [unset]) s)))).
  { subst s'. unfold handle, callback, on_key.
    rewrite (exec_bind_ok get _ s s s) by reflexivity.
    rewrite Hdata, Hne. simpl.
    unfold clear_selection. py_simpl. by rewrite Hdata, Hne, Hrow. }
  match type of Hs' with
  | _ = exec update_plot ?x =>
      pose proof (update_plot_same_session x) as Hss;
      fold (exec update_plot x) in Hss; rewrite <- Hs' in Hss;
      destruct Hss as (_ & _ & Hc & _ & Hsp & Hr & Hh & _)
  end.
  simpl in Hc, Hsp, Hr, Hh.
  unfold row_view. rewrite Hr, Hh, Hsp.
  split; [|split; [|split]].
  - rewrite lookup_insert_eq, lookup_app_r by lia. by rewrite Nat.sub_diag.
  - by rewrite lookup_insert_eq.
  - exact Hc.
  - intros j d Hj Hview. destruct (row_view_bound s j d Hview) as (l & Hl & Hd).
    rewrite lookup_insert_ne by congruence. rewrite Hl.
    by apply lookup_app_l_Some.
Qed.

(** X9. A complete manual entry (no malformed line) binds the current
    row to the dict of [selected_points], and every row that was bound
    to that dict already, by an earlier manual entry or clear, shows
    after it the same three slots as the current row. *)
Theorem manual_entry_rewrites_rows_of_selected_dict (s : State)
    (df : DataFrame) (t l r : string) (rest : list string) (i : Z) :
  data s = Some df -> df_empty df = false ->
  stdin s = t :: l :: r :: rest ->
  entry_of t <> Malformed -> entry_of l <> Malformed ->
  entry_of r <> Malformed ->
  results s !! i = Some (selected_points s) ->
  let s' := handle s (KeyPress "m") in
  selected_points s' = selected_points s /\
  results s' !! current_row_index s = Some (selected_points s) /\
  results s' !! i = Some (selected_points s) /\
  row_view s' i = row_view s' (current_row_index s).
Proof.
  intros Hdata Hne Hin Et El Er Hi s'. subst s'.
  rewrite (on_key_m s df Hdata Hne).
  rewrite (manual_input_exec s df t l r rest Hdata Hne Hin). cbv zeta.
  destruct (entry_of t) as [|pt|]; [| |congruence];
    (destruct (entry_of l) as [|pl|]; [| |congruence]);
    (destruct (entry_of r) as [|pr|]; [| |congruence]);
    match goal with
    | |- context [exec update_plot ?x] =>
        destruct (update_plot_same_session x)
          as (_ & _ & _ & _ & Hsp & Hr & _);
        unfold row_view, exec; rewrite Hsp, Hr
    end;
    simpl;
    (destruct (decide (current_row_index s = i)) as [->|Hne'];
      [ rewrite !lookup_insert_eq | rewrite lookup_insert_eq,
          lookup_insert_ne by exact Hne'; rewrite Hi ]);
    auto.
Qed.

End Sharing.

(** ** The cache and the table it belongs to *)

Section Coherence.

Context {ext : Externals}.

#[local] Instance co_step_preorder : PreOrder co_step.
Proof. split; unfold co_step; [intros s; tauto | intros s1 s2 s3; tauto]. Qed.

Lemma coherent_same (s s' : State) :
  data s' = data s -> peak_candidates s' = peak_candidates s ->
  cache_coherent s -> cache_coherent s'.
Proof. unfold cache_coherent. intros -> ->. auto. Qed.

Lemma coherent_update_plot (s : State) :
  cache_coherent s -> cache_coherent (exec update_plot s).
Proof.
  intros Hco.
  destruct (update_plot_same_session s) as (Hdata & _).
  fold (exec update_plot s) in Hdata.
  assert (Hsame : forall fig, cache_coherent (set_figure fig s))
    by (intros fig; by apply (coherent_same s)).
  destruct (data s) as [df|] eqn:Hdf.
  2:{ unfold exec, update_plot. py_simpl. rewrite Hdf. apply Hsame. }
  destruct (df_empty df || (df_len df <=? current_row_index s)) eqn:Hguard.
  { unfold exec, update_plot. py_simpl. rewrite Hdf, Hguard. apply Hsame. }
  apply orb_false_iff in Hguard as [Hne Hlen].
  destruct (iloc (df_values df) (current_row_index s)) as [ys|] eqn:Hrow.
  2:{ unfold exec, update_plot. py_simpl. rewrite Hdf, Hne, Hlen. simpl.
      rewrite Hrow. exact Hco. }
  destruct (peak_candidates s !! current_row_index s) as [c|] eqn:Hc.
  - destruct (update_plot_hit s df ys c Hdf Hne Hlen Hrow Hc) as (_ & Hp & _).
    apply (coherent_same s); [congruence | exact Hp | exact Hco].
  - destruct (update_plot_miss s df ys Hdf Hne Hlen Hrow Hc) as (_ & Hp & _).
    destruct (peak_points _ _ _) as [c|] eqn:Hpp.
    + intros i c' Hi. rewrite Hp in Hi. rewrite Hdata.
      apply lookup_insert_Some in Hi as [[<- <-]|[_ Hi]].
      * exists df, ys. auto.
      * rewrite <- Hdf. by apply Hco.
    + apply (coherent_same s); [congruence | exact Hp | exact Hco].
Qed.

Ltac co_leaf :=
  first
    [ exact coherent_update_plot
    | unfold co_step; apply coherent_same; reflexivity ].

Lemma on_click_co_step (e : MouseEvent) : keeps co_step (on_click e).
Proof. unfold on_click. repeat keeps_step co_leaf. Qed.

Lemma clear_selection_co_step : keeps co_step clear_selection.
Proof. unfold clear_selection. repeat keeps_step co_leaf. Qed.

Lemma manual_input_co_step : keeps co_step manual_input.
Proof. unfold manual_input, enter_slot. repeat keeps_step co_leaf. Qed.

Lemma save_plot_co_step (row_idx : option Z) (prefix : option string) :
  keeps co_step (save_plot row_idx prefix).
Proof. unfold save_plot. repeat keeps_step co_leaf. Qed.

Lemma save_results_co_step : keeps co_step save_results.
Proof.
  unfold save_results.
  repeat keeps_step ltac:(first [apply save_plot_co_step | co_leaf]).
Qed.

Lemma save_all_plots_co_step : keeps co_step save_all_plots.
Proof. intros s. change (snd (save_all_plots s)) with s. reflexivity. Qed.

Lemma change_data_file_co_step : keeps co_step change_data_file.
Proof.
  intros s Hco. fold (exec change_data_file s).
  destruct (dialog s) as [|[new_file loaded] rest] eqn:Hdlg.
  { by rewrite change_data_file_no_answer. }
  destruct (decide (new_file = EmptyString)) as [Hfile|Hfile].
  { by destruct (change_data_file_failure s new_file loaded rest Hdlg)
      as [fig ->]; [by left|]. }
  destruct (no_data loaded) eqn:Hload.
  { by destruct (change_data_file_failure s new_file loaded rest Hdlg)
      as [fig ->]; [by right|]. }
  destruct loaded as [df|]; [simpl in Hload | discriminate].
  rewrite (change_data_file_success s new_file df rest Hdlg Hfile Hload).
  apply coherent_update_plot. intros i c Hi.
  unfold reloaded in Hi. simpl in Hi. by rewrite lookup_empty in Hi.
Qed.

Lemma prev_row_co_step : keeps co_step prev_row_button_clicked.
Proof. unfold prev_row_button_clicked. repeat keeps_step co_leaf. Qed.

Lemma next_row_co_step : keeps co_step next_row_button_clicked.
Proof. unfold next_row_button_clicked. repeat keeps_step co_leaf. Qed.

Lemma on_key_co_step (key : string) : keeps co_step (on_key key).
Proof.
  unfold on_key.
  repeat keeps_step ltac:(first
    [ exact manual_input_co_step | exact clear_selection_co_step
    | exact save_results_co_step | exact change_data_file_co_step
    | apply save_plot_co_step | exact save_all_plots_co_step
    | co_leaf ]).
Qed.

Lemma callback_co_step (ev : Event) : keeps co_step (callback ev).
Proof.
  destruct ev; simpl;
    [ apply on_click_co_step | apply on_key_co_step | apply prev_row_co_step
    | apply next_row_co_step | apply save_results_co_step
    | apply change_data_file_co_step | apply save_plot_co_step ].
Qed.

(** X10. The candidate cache never holds a stale entry: from startup,
    whatever events follow (file switches included), every entry of the
    cache is what the finder gives on the row of that index in the
    table that is loaded at that moment. *)
Theorem cache_never_holds_stale_candidates (initial_file : string)
    (df : DataFrame) (console : list string)
    (answers : list (string * option DataFrame)) (evs : list Event) :
  cache_coherent (handle_all (start initial_file df console answers) evs).
Proof.
  unfold handle_all.
  assert (H0 : cache_coherent (start initial_file df console answers)).
  { unfold start. cbv zeta. apply coherent_update_plot.
    intros i c Hi. simpl in Hi. by rewrite lookup_empty in Hi. }
  revert H0. generalize (start initial_file df console answers).
  induction evs as [|ev evs IH]; intros s0 H0; simpl; [exact H0|].
  apply IH. by apply callback_co_step.
Qed.

(** X11. While no table is loaded (none, or an empty one), every event
    but the Switch File button leaves the whole state as it is: clicks,
    keys (the 'o' key too), navigation and export do nothing. *)
Theorem without_table_only_switch_file_acts (s : State) (ev : Event) :
  no_data (data s) = true -> ev <> SwitchFileButton -> handle s ev = s.
Proof.
  intros Hno Hev. unfold no_data in Hno.
  destruct ev as [e|key| | | | |]; try congruence;
    unfold handle, callback, on_click, on_key, prev_row_button_clicked,
      next_row_button_clicked, save_results, save_plot, exec, bind, get,
      ret, no_data;
    destruct (data s) as [df|]; try rewrite Hno;
    rewrite ?orb_true_r; try reflexivity;
    destruct (String.eqb (data_filepath s) EmptyString); reflexivity.
Qed.

(** X12. [find_potential_peaks] hands the finder a sequence of the
    same length without any NaN: each NaN of the row is replaced by 0,
    every other value is kept, and the NaN warning is printed exactly
    when the row holds a NaN. It changes nothing else. *)
Theorem find_potential_peaks_cleans_nan (y_data : list num) (s : State) :
  let cleaned := nan_to_zero y_data in
  let warn := if existsb id (map isnan y_data)
              then [WarnNaN (current_row_index s)] else [] in
  find_potential_peaks y_data s =
    (Ok (find_peaks cleaned),
     mkState (data s) (data_filepath s) (current_row_index s) (num_rows s)
       (selected_points s) (results s) (peak_candidates s) (heap s)
       (figure s) (stdin s) (dialog s)
       (trace s ++ warn ++ [CallFindPeaks cleaned])) /\
  Forall finite cleaned /\ length cleaned = length y_data /\
  (forall i y, y_data !! i = Some y ->
     cleaned !! i = Some (if isnan y then Fin 0 else y)) /\
  (existsb id (map isnan y_data) = false -> cleaned = y_data).
Proof.
  cbv zeta. unfold nan_to_zero.
  assert (Hclean : existsb id (map isnan y_data) = false ->
            map (fun y => if isnan y then Fin 0 else y) y_data = y_data).
  { induction y_data as [|y ys IH]; simpl; [reflexivity|].
    intros H. apply orb_false_iff in H as [Hy Hys]. unfold id in Hy.
    rewrite Hy. f_equal. by apply IH. }
  split; [|split; [|split; [|split]]].
  - unfold find_potential_peaks. py_simpl.
    destruct (existsb id (map isnan y_data)) eqn:Hnan; simpl.
    + unfold emit. simpl. by rewrite <- app_assoc.
    + by rewrite Hclean.
  - apply Forall_fmap, Forall_forall. intros y _. simpl. by destruct y.
  - apply length_map.
  - intros i y Hi. by rewrite list_lookup_fmap, Hi.
  - exact Hclean.
Qed.

End Coherence.

Section NanSnap.

Context {ext : Externals}.

Lemma sq_dist_isnan (qx qy x y : num) :
  finite qx -> finite qy -> finite x ->
  isnan (sq_dist qx qy (x, y)) = isnan y.
Proof.
  destruct qx, qy, x, y; unfold finite; simpl; congruence.
Qed.

(** X13. On a row whose x values are numbers and one of whose y values
    is NaN, the snap of a click at any point is the sample of the first
    NaN: the click stores (x, NaN), however near it lies to another
    sample. *)
Theorem snap_picks_first_nan_sample (x_data y_data : list num) (qx qy : num) :
  length x_data = length y_data -> Forall finite x_data ->
  finite qx -> finite qy -> ~ Forall finite y_data ->
  exists i x,
    is_first_nan y_data i /\ x_data !! i = Some x /\
    snap x_data y_data qx qy = Some (x, NaN).
Proof.
  intros Hlen Hx Hqx Hqy Hnan.
  set (dists := map (sq_dist qx qy) (zip x_data y_data)).
  assert (Hdist : forall j y, y_data !! j = Some y ->
            exists x d, x_data !! j = Some x /\ dists !! j = Some d /\
                        isnan d = isnan y).
  { intros j y Hy.
    destruct (lookup_lt_is_Some_2 x_data j) as [x Hxj];
      [rewrite Hlen; by eapply lookup_lt_Some|].
    exists x, (sq_dist qx qy (x, y)). split; [exact Hxj|]. split.
    - subst dists. rewrite list_lookup_fmap.
      replace (zip x_data y_data !! j) with (Some (x, y)); [reflexivity|].
      symmetry. apply lookup_zip_with_Some. eauto.
    - apply sq_dist_isnan; try assumption.
      eapply Forall_lookup_1 in Hx; [exact Hx | exact Hxj]. }
  assert (Hnd : ~ Forall finite dists).
  { intros Hfin. apply Hnan. apply Forall_lookup. intros j y Hy.
    destruct (Hdist j y Hy) as (x & d & _ & Hd & Hiso).
    eapply Forall_lookup_1 in Hfin; [|exact Hd]. unfold finite in *. congruence. }
  destruct (np_argmin_first_nan dists Hnd) as (r & Hr & Hrn & Hfirst).
  assert (Hlt : (r < length y_data)%nat).
  { apply np_argmin_lt in Hr. subst dists.
    rewrite length_map, length_zip_with in Hr. lia. }
  destruct (lookup_lt_is_Some_2 y_data r Hlt) as [y Hy].
  destruct (Hdist r y Hy) as (x & d & Hxr & Hd & Hiso).
  assert (y = NaN) as ->.
  { rewrite Hrn in Hd. injection Hd as <-. simpl in Hiso. by destruct y. }
  exists r, x. split; [|split; [exact Hxr|]].
  - split; [exact Hy|]. intros j y' Hj Hy'.
    destruct (Hdist j y' Hy') as (x' & d' & _ & Hd' & Hiso').
    specialize (Hfirst j d' Hj Hd'). unfold finite in *. congruence.
  - unfold snap. fold dists. by rewrite Hr, Hxr, Hy.
Qed.

End NanSnap.

(** ** Coordinate strings and file names *)

Lemma split_comma_not_nil (s : string) : split_comma s <> [].
Proof.
  destruct s as [|c s]; simpl; [discriminate|].
  destruct (Ascii.eqb c ","); [discriminate|].
  destruct (split_comma s); discriminate.
Qed.

Lemma split_comma_single (s b : string) :
  split_comma s = [b] -> s = b /\ has_comma s = false.
Proof.
  revert b. induction s as [|c s IH]; intros b; simpl.
  - intros [= <-]. auto.
  - destruct (Ascii.eqb c ",") eqn:Hc.
    + intros [= _ Hnil]. by destruct (split_comma_not_nil s).
    + destruct (split_comma s) as [|h t] eqn:Hs; [by destruct (split_comma_not_nil s)|].
      intros [= <- ->]. destruct (IH h eq_refl) as [-> Hno]. auto.
Qed.

Lemma split_comma_pair (s a b : string) :
  split_comma s = [a; b] ->
  s = String.append a (String "," b) /\ has_comma a = false /\
  has_comma b = false.
Proof.
  revert a. induction s as [|c s IH]; intros a; simpl; [discriminate|].
  destruct (Ascii.eqb_spec c ",") as [->|Hc].
  - intros [= <- Hs]. destruct (split_comma_single s b Hs) as [-> Hno]. auto.
  - destruct (split_comma s) as [|h t] eqn:Hs; [discriminate|].
    intros [= <- ->]. destruct (IH h eq_refl) as (-> & Ha & Hb).
    simpl. apply Ascii.eqb_neq in Hc. rewrite Hc. auto.
Qed.

Lemma split_comma_no_comma (s : string) :
  has_comma s = false -> split_comma s = [s].
Proof.
  induction s as [|c s IH]; simpl; [reflexivity|].
  intros H. apply orb_false_iff in H as [Hc Hs]. by rewrite Hc, IH.
Qed.

Lemma split_comma_append (a b : string) :
  has_comma a = false ->
  split_comma (String.append a (String "," b)) = a :: split_comma b.
Proof.
  induction a as [|c a IH]; simpl; [reflexivity|].
  intros H. apply orb_false_iff in H as [Hc Ha]. by rewrite Hc, IH.
Qed.

Section Parsing.

Context {ext : Externals}.

(** X14. A coordinate line is accepted exactly when it holds one comma
    and [float] accepts what stands, stripped of blanks, on each side
    of it; the pair stored is the two values in that order. A line
    without comma or with two commas is malformed. *)
Theorem parse_xy_accepts_one_comma_two_floats (str : string) (x y : num) :
  parse_xy str = Some (x, y) <->
  exists a b,
    str = String.append a (String "," b) /\
    has_comma a = false /\ has_comma b = false /\
    py_float (strip a) = Some x /\ py_float (strip b) = Some y.
Proof.
  unfold parse_xy. split.
  - destruct (split_comma str) as [|a [|b [|? ?]]] eqn:Hs; try discriminate.
    destruct (split_comma_pair str a b Hs) as (-> & Ha & Hb).
    destruct (py_float (strip a)) as [x'|] eqn:Hx; [|discriminate].
    destruct (py_float (strip b)) as [y'|] eqn:Hy; [|discriminate].
    intros [= <- <-]. exists a, b. auto.
  - intros (a & b & -> & Ha & Hb & Hx & Hy).
    rewrite split_comma_append, split_comma_no_comma by assumption.
    by rewrite Hx, Hy.
Qed.

End Parsing.

Lemma rstrip_all_chars (P : ascii -> bool) (s : string) :
  all_chars P s = true -> all_chars P (rstrip s) = true.
Proof.
  induction s as [|c s IH]; simpl; [reflexivity|].
  intros H. apply andb_true_iff in H as [Hc Hs]. specialize (IH Hs).
  destruct (rstrip s) as [|c' r].
  - destruct (is_space c); simpl; [reflexivity | by rewrite Hc].
  - simpl in *. by rewrite Hc, IH.
Qed.

Lemma rstrip_last_char (s : string) (c : ascii) :
  last_char (rstrip s) = Some c -> is_space c = false.
Proof.
  induction s as [|c0 s IH]; simpl; [discriminate|].
  destruct (rstrip s) as [|c' r].
  - destruct (is_space c0) eqn:Hsp; simpl; [discriminate|]. by intros [= <-].
  - simpl in *. exact IH.
Qed.

Lemma rstrip_idempotent (s : string) : rstrip (rstrip s) = rstrip s.
Proof.
  induction s as [|c s IH]; simpl; [reflexivity|].
  destruct (rstrip s) as [|c' r] eqn:Hr.
  - destruct (is_space c) eqn:Hsp; simpl; [reflexivity | by rewrite Hsp].
  - change (rstrip (String c (String c' r)))
      with (match rstrip (String c' r) with
            | EmptyString =>
                if is_space c then EmptyString else String c EmptyString
            | r0 => String c r0
            end).
    by rewrite IH.
Qed.

Lemma rstrip_length (s : string) :
  (String.length (rstrip s) <= String.length s)%nat.
Proof.
  induction s as [|c s IH]; simpl; [lia|].
  destruct (rstrip s) as [|c' r].
  - destruct (is_space c); simpl; lia.
  - simpl in *. lia.
Qed.

Lemma map_chars_length (f : ascii -> ascii) (s : string) :
  String.length (map_chars f s) = String.length s.
Proof. induction s; simpl; congruence. Qed.

Section SafeName.

Variable isalnum : ascii -> bool.

Lemma kept_underscore : kept_char isalnum "_" = true.
Proof. unfold kept_char. simpl. by rewrite !orb_true_r. Qed.

Lemma map_chars_kept (name : string) :
  all_chars (kept_char isalnum)
    (map_chars (fun c => if kept_char isalnum c then c else "_"%char) name)
  = true.
Proof.
  induction name as [|c s IH]; simpl; [reflexivity|].
  rewrite IH, andb_true_r.
  destruct (kept_char isalnum c) eqn:Hc; [exact Hc | apply kept_underscore].
Qed.

Lemma map_chars_fixes_kept (s : string) :
  all_chars (kept_char isalnum) s = true ->
  map_chars (fun c => if kept_char isalnum c then c else "_"%char) s = s.
Proof.
  induction s as [|c s IH]; simpl; [reflexivity|].
  intros H. apply andb_true_iff in H as [Hc Hs]. by rewrite Hc, IH.
Qed.

(** X15. The sanitised name used for output files holds only
    alphanumeric characters, blanks, '.', '_' and '-', does not end in
    white space, is not longer than the name it comes from, and
    sanitising it again changes nothing. *)
Theorem safe_name_is_safe (name : string) :
  all_chars (kept_char isalnum) (safe_name isalnum name) = true /\
  (forall c, last_char (safe_name isalnum name) = Some c -> is_space c = false) /\
  (String.length (safe_name isalnum name) <= String.length name)%nat /\
  safe_name isalnum (safe_name isalnum name) = safe_name isalnum name.
Proof.
  unfold safe_name. split; [|split; [|split]].
  - apply rstrip_all_chars, map_chars_kept.
  - intros c. apply rstrip_last_char.
  - etransitivity; [apply rstrip_length|]. by rewrite map_chars_length.
  - rewrite map_chars_fixes_kept; [apply rstrip_idempotent|].
    apply rstrip_all_chars, map_chars_kept.
Qed.

End SafeName.

(** ** What a manual entry and a saved plot leave alone *)

Section Frames.

Context {ext : Externals}.

#[local] Instance manual_frame_preorder : PreOrder manual_frame.
Proof.
  split.
  - intros s. unfold manual_frame. auto.
  - intros s1 s2 s3 (Hsp1 & Hc1 & Hl1 & Hh1 & Hr1) (Hsp2 & Hc2 & Hl2 & Hh2 & Hr2).
    unfold manual_frame. rewrite Hsp2, Hc2, Hl2. repeat (split; [assumption|]).
    split.
    + intros l Hl. rewrite Hh2 by congruence. by apply Hh1.
    + intros j Hj. rewrite Hr2 by congruence. by apply Hr1.
Qed.

Lemma manual_frame_same_session (s s' : State) :
  same_session s s' -> manual_frame s s'.
Proof.
  intros (_ & _ & Hc & _ & Hsp & Hr & Hh & _).
  unfold manual_frame. rewrite Hc, Hsp, Hr, Hh. auto.
Qed.

Lemma manual_input_frame : keeps manual_frame manual_input.
Proof.
  unfold manual_input, enter_slot.
  repeat keeps_step ltac:(first
    [ intros ?; apply manual_frame_same_session, update_plot_same_session
    | unfold manual_frame; simpl; rewrite ?length_alter;
      repeat split; try reflexivity;
      intros; first [ by apply list_lookup_alter_ne
                    | by apply lookup_insert_ne ] ]).
Qed.

(** X16. A manual entry, whatever lines the console delivers, changes
    the annotation of no row other than the current one, unless that
    row is bound to the dict of [selected_points]. *)
Theorem manual_entry_leaves_rows_of_other_dicts (s : State) (j : Z)
    (d : Selection) :
  j <> current_row_index s -> row_view s j = Some d ->
  results s !! j <> Some (selected_points s) ->
  row_view (handle s (KeyPress "m")) j = Some d.
Proof.
  intros Hj Hview Hsp.
  assert (Hstep : manual_frame s (handle s (KeyPress "m"))).
  { unfold handle, callback, on_key, exec, bind, get.
    destruct (data s) as [df|]; [|reflexivity].
    destruct (df_empty df); [reflexivity|]. apply manual_input_frame. }
  destruct Hstep as (_ & _ & _ & Hh & Hr).
  unfold row_view in *. rewrite (Hr j Hj).
  destruct (results s !! j) as [l|]; [|discriminate].
  rewrite Hh; [exact Hview | congruence].
Qed.

(** X17. Saving the plot saves the figure as it stands, without
    drawing the row again: after a file switch that fails (the file
    does not load, or loads empty) the figure is the error notice, and
    Save Plot writes that notice to the file named after the current
    row. *)
Theorem save_plot_after_failed_switch_saves_notice (s : State)
    (df : DataFrame) (new_file : string) (loaded : option DataFrame)
    (rest : list (string * option DataFrame)) :
  data s = Some df -> df_empty df = false ->
  data_filepath s <> EmptyString ->
  0 <= current_row_index s < df_len df ->
  dialog s = (new_file, loaded) :: rest ->
  new_file <> EmptyString -> no_data loaded = true ->
  let s1 := handle s SwitchFileButton in
  figure s1 = FigMessage "Error Loading File" /\
  trace (handle s1 SavePlotButton) =
    trace s ++ [SaveFig (current_row_index s) (FigMessage "Error Loading File")].
Proof.
  intros Hdata Hne Hpath Hcur Hdlg Hfile Hload s1.
  assert (Hs1 : s1 = set_figure (FigMessage "Error Loading File")
                       (set_dialog rest s)).
  { subst s1. unfold handle, callback, change_data_file.
    rewrite exec_try_except_all.
    unfold exec, bind, askopenfilename. rewrite Hdlg. simpl.
    apply String.eqb_neq in Hfile. rewrite Hfile.
    destruct loaded as [df'|]; simpl in Hload; [by rewrite Hload | reflexivity]. }
  rewrite Hs1. split; [reflexivity|].
  unfold handle, callback, save_plot. py_simpl. rewrite Hdata, Hne.
  apply String.eqb_neq in Hpath. rewrite Hpath.
  destruct (Z.leb_spec (df_len df) (current_row_index s)) as [|_]; [lia|].
  unfold iloc. destruct (Z.leb_spec 0 (current_row_index s)) as [_|]; [|lia].
  destruct (lookup_lt_is_Some_2 (df_values df) (Z.to_nat (current_row_index s)))
    as [ys ->]; [unfold df_len in Hcur; lia|].
  reflexivity.
Qed.

End Frames.

(** ** The figure after a redraw *)

Section Figure.

Context {ext : Externals}.

Lemma session_ok_current_row (s : State) :
  session_ok s ->
  exists df ys l d,
    data s = Some df /\ df_empty df = false /\
    (df_len df <=? current_row_index s) = false /\
    iloc (df_values df) (current_row_index s) = Some ys /\
    length ys = length (df_columns df) /\
    results s !! current_row_index s = Some l /\ heap s !! l = Some d.
Proof.
  intros (df & Hdata & Hne & Hrows & Hnum & Hcur & Hres & _).
  destruct (Hres _ Hcur) as (l & Hl & Hlt).
  destruct (lookup_lt_is_Some_2 _ _ Hlt) as [d Hd].
  destruct (lookup_lt_is_Some_2 (df_values df)
              (Z.to_nat (current_row_index s))) as [ys Hys];
    [unfold df_len in Hnum; lia|].
  exists df, ys, l, d. split; [exact Hdata|]. split; [exact Hne|].
  split; [apply Z.leb_gt; lia|]. split.
  - unfold iloc. destruct (Z.leb_spec 0 (current_row_index s)); [exact Hys | lia].
  - split; [|auto]. eapply Forall_lookup_1 in Hrows; [exact Hrows | exact Hys].
Qed.

(** A plot of a well-formed session, with a finder that keeps its
    contract, ends with the figure of the current row. *)
Lemma update_plot_shows (s : State) :
  finder_in_range -> session_ok s ->
  figure_shows_current_row (exec update_plot s).
Proof.
  intros Hfinder Hok.
  destruct (session_ok_current_row s Hok)
    as (df & ys & l & d & Hdata & Hne & Hlen & Hrow & Hys & Hl & Hd).
  destruct (peak_points_is_Some (df_columns df) ys (find_peaks ys)) as [c Hc].
  { eapply Forall_impl; [apply Hfinder|]. intros p Hp. simpl in *.
    rewrite length_zip_with. lia. }
  destruct (update_plot_same_session s) as (Hsd & _ & Hsc & _ & _ & Hsr & Hsh & _).
  fold (exec update_plot s) in *.
  assert (Hgoal : forall c0, peak_candidates (exec update_plot s)
                             !! current_row_index s = Some c0 ->
            figure (exec update_plot s) =
              FigCurve (df_columns df) ys c0 (Some d) ->
            figure_shows_current_row (exec update_plot s)).
  { intros c0 Hc0 Hfig. exists df, ys, c0, d.
    unfold row_view. rewrite Hsd, Hsc, Hsr, Hsh, Hl. auto. }
  destruct (peak_candidates s !! current_row_index s) as [c0|] eqn:Hentry.
  - apply (Hgoal c0).
    + destruct (update_plot_hit s df ys c0 Hdata Hne Hlen Hrow Hentry)
        as (_ & -> & _). exact Hentry.
    + unfold update_plot. py_simpl. rewrite Hdata, Hne, Hlen. simpl.
      rewrite Hrow. simpl. rewrite Hentry. simpl. rewrite Hentry. simpl.
      rewrite Hl. simpl. by rewrite Hd.
  - apply (Hgoal c).
    + destruct (update_plot_miss s df ys Hdata Hne Hlen Hrow Hentry)
        as (_ & -> & _). rewrite Hc. apply lookup_insert_eq.
    + unfold update_plot. py_simpl. rewrite Hdata, Hne, Hlen. simpl.
      rewrite Hrow. simpl. rewrite Hentry. simpl. rewrite Hc. simpl.
      rewrite lookup_insert_eq. simpl. rewrite Hl. simpl. by rewrite Hd.
Qed.

Lemma goto_row_exec (s : State) (df : DataFrame) (a : Z) :
  session_ok s -> data s = Some df ->
  exec (do i <- py_mod a (num_rows s);
        run modify (set_current_row_index i);
        run row_label df i;
        update_plot) s =
  exec update_plot (set_current_row_index (a mod num_rows s) s).
Proof.
  intros Hok Hdata.
  destruct Hok as (df' & Hdata' & _ & _ & Hnum & Hcur & _).
  assert (df' = df) as -> by congruence.
  assert (Hn : 0 < num_rows s) by lia.
  pose proof (Z.mod_pos_bound a (num_rows s) Hn) as Hi.
  unfold py_mod. destruct (Z.eqb_spec (num_rows s) 0); [lia|].
  unfold exec, bind, modify, ret, row_label, from_option, iloc. simpl.
  destruct (Z.leb_spec 0 (a mod num_rows s)); [|lia].
  destruct (lookup_lt_is_Some_2 (df_values df) (Z.to_nat (a mod num_rows s)))
    as [ys ->]; [unfold df_len in Hnum; lia|].
  reflexivity.
Qed.

(** X18. In a session that satisfies the invariant, with a peak finder
    that returns indices into its argument, a click inside the axes, a
    navigation and a clear each end with the figure of the row that is
    current then: its curve as loaded, the candidates cached for it,
    and its annotation as the event left it. *)
Theorem redrawing_events_show_current_row (s : State) (ev : Event) :
  finder_in_range -> session_ok s -> redraws ev ->
  figure_shows_current_row (handle s ev).
Proof.
  intros Hfinder Hok Hev.
  destruct (session_ok_current_row s Hok)
    as (df & ys & l & d & Hdata & Hne & Hlen & Hrow & Hys & Hl & Hd).
  assert (Hcur : 0 <= current_row_index s < num_rows s)
    by (destruct Hok as (df' & _ & _ & _ & _ & Hcur & _); exact Hcur).
  destruct Hev as [(e & -> & Hin) | [Hnav | ->]].
  - assert (Hnonempty : zip (df_columns df) ys <> []).
    { apply df_nonempty_zip; [exact Hne|].
      unfold df_empty in Hne. apply orb_false_iff in Hne as [_ Hc].
      destruct ys, (df_columns df); simpl in *; congruence. }
    destruct (snap_is_Some (df_columns df) ys (xdata e) (ydata e) Hnonempty)
      as [p Hp].
    unfold handle, callback.
    rewrite (on_click_exec s e df ys p l d) by assumption.
    apply update_plot_shows; [exact Hfinder|].
    destruct (next_slot d);
      [by apply session_ok_alter | by apply session_ok_rebind_fresh].
  - assert (Hgo : forall a,
              figure_shows_current_row
                (exec (do i <- py_mod a (num_rows s);
                       run modify (set_current_row_index i);
                       run row_label df i;
                       update_plot) s)).
    { intros a. rewrite (goto_row_exec s df a Hok Hdata).
      apply update_plot_shows; [exact Hfinder|].
      apply session_ok_goto; [exact Hok|]. apply Z.mod_pos_bound. lia. }
    unfold forward_events, backward_events in Hnav. simpl in Hnav.
    repeat (apply elem_of_cons in Hnav as [->|Hnav]);
      [ | | | | by apply elem_of_nil in Hnav ];
      unfold handle, callback, on_key, next_row_button_clicked,
        prev_row_button_clicked;
      rewrite (exec_bind_ok get _ s s s) by reflexivity;
      rewrite Hdata, Hne; apply Hgo.
  - unfold handle, callback, on_key.
    rewrite (exec_bind_ok get _ s s s) by reflexivity.
    rewrite Hdata, Hne. simpl.
    destruct (clear_selection_cases s) as [Hsame | ->].
    + exfalso. revert Hsame. unfold clear_selection. py_simpl.
      rewrite Hdata, Hne, Hrow. simpl. intros Hsame.
      assert (Hlen' : length (heap (exec update_plot
                (set_results (<[current_row_index s := length (heap s)]> (results s))
                   (set_selected_points (length (heap s))
                      (set_heap (heap s ++ [unset]) s))))) = length (heap s))
        by (unfold exec; by rewrite Hsame).
      match type of Hlen' with
      | context [exec update_plot ?x] =>
          destruct (update_plot_same_session x) as (_ & _ & _ & _ & _ & _ & Hh & _)
      end.
      unfold exec in Hlen'. rewrite Hh in Hlen'. simpl in Hlen'.
      rewrite length_app in Hlen'. simpl in Hlen'. lia.
    + apply update_plot_shows; [exact Hfinder|].
      pose proof (session_ok_rebind_fresh s (current_row_index s) Hok Hcur)
        as (df' & Hdata' & Hne' & Hrows' & Hnum' & Hc' & Hres' & Hsel' & Hans').
      exists df'. simpl in *. rewrite length_app in *. simpl.
      repeat (split; [assumption|]). split; [lia | assumption].
Qed.

End Figure.

(** * The session at work on concrete tables *)

(** Closes a side condition on concrete data by evaluation. *)
Ltac concrete :=
  first
    [ vm_compute; reflexivity
    | discriminate
    | vm_compute; discriminate
    | by left
    | vm_compute; repeat constructor ].

(** Discharges the premises of [H], one after the other, with [concrete]. *)
Ltac feed H :=
  repeat match type of H with
         | ?P -> _ =>
             let HP := fresh "Hpremise" in
             assert (HP : P) by concrete;
             specialize (H HP); clear HP
         end.

Section Scenarios.

#[local] Existing Instance stand_in.

(** Four clicks on row 0 of [demo_table]: near (1,5), near (3,4), on
    (2,1), on (0,0). *)
Lemma clicks_fill_left_top_right_then_reset_witness :
  let s := demo_session [] in
  let e1 := ButtonPress (click_at (11 # 10) (52 # 10)) in
  let e2 := ButtonPress (click_at (31 # 10) (39 # 10)) in
  let e3 := ButtonPress (click_at 2 1) in
  let e4 := ButtonPress (click_at 0 0) in
  row_view (handle_all s [e1]) 0 =
    Some {| top := None; left := Some (Fin 1, Fin 5); right := None |} /\
  row_view (handle_all s [e1; e2]) 0 =
    Some {| top := Some (Fin 3, Fin 4); left := Some (Fin 1, Fin 5);
            right := None |} /\
  row_view (handle_all s [e1; e2; e3]) 0 =
    Some {| top := Some (Fin 3, Fin 4); left := Some (Fin 1, Fin 5);
            right := Some (Fin 2, Fin 1) |} /\
  row_view (handle_all s [e1; e2; e3; e4]) 0 = Some unset.
Proof.
  cbv zeta.
  pose proof (clicks_fill_left_top_right_then_reset (demo_session [])
                demo_table demo_row0 1%nat (click_at (11 # 10) (52 # 10))
                (click_at (31 # 10) (39 # 10)) (click_at 2 1) (click_at 0 0))
    as H.
  feed H. cbv zeta in H.
  destruct H as (p1 & p2 & p3 & H1 & H2 & H3 & Hv1 & Hv2 & Hv3 & Hv4).
  replace (current_row_index (demo_session [])) with 0 in * by concrete.
  vm_compute in H1, H2, H3.
  injection H1 as <-. injection H2 as <-. injection H3 as <-.
  repeat split; assumption.
Defined.

(** A manual entry sets TOP and RIGHT while LEFT is unset; the next
    click fills LEFT and keeps the two. *)
Lemma click_fills_first_unset_slot_witness :
  let s := handle (demo_session ["2,1"; ""; "4,0"]) (KeyPress "m") in
  row_view s 0 =
    Some {| top := Some (Fin 2, Fin 1); left := None;
            right := Some (Fin 4, Fin 0) |} /\
  row_view (handle s (ButtonPress (click_at (11 # 10) (52 # 10)))) 0 =
    Some {| top := Some (Fin 2, Fin 1); left := Some (Fin 1, Fin 5);
            right := Some (Fin 4, Fin 0) |}.
Proof.
  cbv zeta. split; [vm_compute; reflexivity|].
  pose proof (click_fills_first_unset_slot
                (handle (demo_session ["2,1"; ""; "4,0"]) (KeyPress "m"))
                (click_at (11 # 10) (52 # 10)) demo_table demo_row0 O
                {| top := Some (Fin 2, Fin 1); left := None;
                   right := Some (Fin 4, Fin 0) |}) as H.
  feed H. destruct H as (p & Hp & Hleft & _).
  vm_compute in Hp. injection Hp as <-.
  replace (current_row_index
             (handle (demo_session ["2,1"; ""; "4,0"]) (KeyPress "m")))
    with 0 in Hleft by concrete.
  exact (Hleft eq_refl).
Defined.

(** The snap of a click near (1,5) on row 0 of [demo_table]. *)
Lemma snap_returns_first_nearest_sample_witness :
  exists i,
    snap (df_columns demo_table) demo_row0 (Fin (11 # 10)) (Fin (52 # 10)) =
      Some (Fin 1, Fin 5) /\
    zip (df_columns demo_table) demo_row0 !! i = Some (Fin 1, Fin 5) /\
    is_first_min
      (map (sq_dist (Fin (11 # 10)) (Fin (52 # 10)))
           (zip (df_columns demo_table) demo_row0)) i.
Proof.
  pose proof (snap_returns_first_nearest_sample (df_columns demo_table)
                demo_row0 (Fin (11 # 10)) (Fin (52 # 10))) as H.
  feed H. destruct H as (i & p & Hp & Hi & Hmin).
  vm_compute in Hp. injection Hp as <-.
  exists i. split; [concrete|]. split; [exact Hi|].
  feed Hmin. exact (proj2 Hmin).
Defined.

(** C2, the code at work. Row 0 of [nan_row_table] holds the samples
    (1,5), (2,NaN), (3,2). A click on (1,5), at distance 0 of the first
    sample, stores (2,NaN) in LEFT: the distance of the sample with the
    NaN cell is NaN, and the argmin stops at it. *)
Theorem click_on_nan_row_stores_nan_sample :
  iloc (df_values nan_row_table) (current_row_index nan_row_session) =
    Some [Fin 5; NaN; Fin 2] /\
  zip (df_columns nan_row_table) [Fin 5; NaN; Fin 2] !! O =
    Some (Fin 1, Fin 5) /\
  sq_dist (Fin 1) (Fin 5) (Fin 1, Fin 5) = Fin 0 /\
  sq_dist (Fin 1) (Fin 5) (Fin 2, NaN) = NaN /\
  row_view nan_row_session 0 = Some unset /\
  row_view (handle nan_row_session (ButtonPress (click_at 1 5))) 0 =
    Some {| top := None; left := Some (Fin 2, NaN); right := None |}.
Proof. vm_compute. repeat split. Qed.

(** A batch whose LEFT line is malformed: RIGHT is not read and the
    row does not get the entered selection. *)
Lemma manual_batch_ends_at_first_malformed_witness :
  let s := demo_session ["2,1"; "oops"; "3,4"] in
  let s' := handle s (KeyPress "m") in
  stdin s' = ["3,4"] /\ results s' = results s /\
  (forall l', l' <> O -> heap s' !! l' = heap s !! l') /\
  exists d', heap s' !! O = Some d' /\ left d' = None /\ right d' = None.
Proof.
  cbv zeta.
  pose proof (manual_batch_ends_at_first_malformed
                (demo_session ["2,1"; "oops"; "3,4"]) demo_table
                "2,1" "oops" "3,4" [] unset) as H.
  feed H. destruct H as (_ & Hleft & _).
  feed Hleft.
  replace (selected_points (demo_session ["2,1"; "oops"; "3,4"]))
    with O in Hleft by concrete.
  exact Hleft.
Defined.

(** C3, counterexample. TOP is malformed, LEFT and RIGHT are well
    formed: after the batch LEFT and RIGHT of the row are still unset
    and their two lines are still unread. *)
Lemma manual_batch_drops_later_slots_counterexample :
  let s := demo_session ["oops"; "1,2"; "3,4"] in
  let s' := handle s (KeyPress "m") in
  entry_of "oops" = Malformed /\
  entry_of "1,2" = Pair (Fin 1, Fin 2) /\
  entry_of "3,4" = Pair (Fin 3, Fin 4) /\
  row_view s 0 = Some unset /\
  row_view s' 0 = Some unset /\
  heap s' !! selected_points s' = Some unset /\
  stdin s' = ["1,2"; "3,4"].
Proof. vm_compute. repeat split. Qed.

(** C4, the code at work. A click sets LEFT of row 0; a manual entry of
    TOP alone then leaves row 0 with LEFT unset. On row 1 a manual entry
    of LEFT alone gives row 1 the TOP typed for row 0, and changes LEFT
    of row 0: both rows are the one dict [selected_points]. *)
Theorem manual_entry_shares_one_dict_between_rows :
  let s0 := demo_session ["2,1"; ""; ""; ""; "3,4"; ""] in
  let s1 := handle s0 (ButtonPress (click_at (11 # 10) (52 # 10))) in
  let s2 := handle s1 (KeyPress "m") in
  let s3 := handle s2 (KeyPress "right") in
  let s4 := handle s3 (KeyPress "m") in
  row_view s1 0 =
    Some {| top := None; left := Some (Fin 1, Fin 5); right := None |} /\
  row_view s2 0 =
    Some {| top := Some (Fin 2, Fin 1); left := None; right := None |} /\
  row_view s3 1 = Some unset /\
  current_row_index s4 = 1 /\
  row_view s4 1 =
    Some {| top := Some (Fin 2, Fin 1); left := Some (Fin 3, Fin 4);
            right := None |} /\
  row_view s4 0 =
    Some {| top := Some (Fin 2, Fin 1); left := Some (Fin 3, Fin 4);
            right := None |} /\
  results s4 !! 0 = results s4 !! 1.
Proof. vm_compute. repeat split. Qed.

(** C5, the code at work. The first plot of [nan_table] hands the
    finder the row with its NaN and prints no warning, and the figure
    shows the same values; [find_potential_peaks], which replaces NaN by
    0 and warns, is not what [update_plot] calls. *)
Theorem update_plot_hands_nan_to_the_finder :
  trace nan_session = [CallFindPeaks [Fin 5; NaN; Fin 2]] /\
  (exists peaks marks,
     figure nan_session =
     FigCurve [Fin 1; Fin 2; Fin 3] [Fin 5; NaN; Fin 2] peaks marks) /\
  trace (exec (find_potential_peaks [Fin 5; NaN; Fin 2]) nan_session) =
    trace nan_session ++
    [WarnNaN 0; CallFindPeaks [Fin 5; Fin 0; Fin 2]].
Proof.
  split; [vm_compute; reflexivity|]. split; [|vm_compute; reflexivity].
  vm_compute. eauto.
Qed.

(** Row 1 of [demo_table] is requested for the first time. *)
Lemma candidate_cache_memoizes_witness :
  let s := set_current_row_index 1 (demo_session []) in
  let s' := exec update_plot s in
  peak_candidates s !! 1 = None /\
  peak_candidates s' !! 1 = Some [(Fin 2, Fin 3)] /\
  trace s' = trace s ++ [CallFindPeaks demo_row1] /\
  peak_candidates (exec update_plot s') = peak_candidates s' /\
  trace (exec update_plot s') = trace s'.
Proof.
  cbv zeta.
  pose proof (candidate_cache_memoizes
                (set_current_row_index 1 (demo_session []))
                demo_table demo_row1) as H.
  feed H. destruct H as (Hfirst & _ & [Hagain1 Hagain2] & _).
  feed Hfirst. destruct Hfirst as (c & Hc & Hp & Ht).
  split; [concrete|]. split; [concrete|].
  split; [exact Ht|]. split; assumption.
Defined.

(** A switch to [nan_table] from a session on [demo_table]. *)
Lemma load_replaces_all_or_nothing_witness :
  let s := @start stand_in "peaks.csv" demo_table []
             [("cells.csv", Some nan_table)] in
  let s' := handle s SwitchFileButton in
  data s' = Some nan_table /\ current_row_index s' = 0 /\
  num_rows s' = 1 /\ row_view s' 0 = Some unset /\ results s' !! 1 = None.
Proof.
  cbv zeta.
  pose proof (load_replaces_all_or_nothing
                (@start stand_in "peaks.csv" demo_table []
                   [("cells.csv", Some nan_table)])
                SwitchFileButton "cells.csv" (Some nan_table) []) as H.
  feed H. destruct H as [Hok _].
  specialize (Hok nan_table). feed Hok.
  destruct Hok as (Hd & Hc & Hn & Hv & Hr & _).
  split; [exact Hd|]. split; [exact Hc|]. split; [exact Hn|].
  split; [apply Hv; unfold df_len; simpl; lia|].
  apply Hr. unfold df_len. simpl. lia.
Defined.

(** Right arrow then Previous button, and back, on [demo_table]. *)
Lemma navigation_wraps_and_keeps_annotations_witness :
  let s := demo_session [] in
  current_row_index (handle s (KeyPress "right")) = (0 + 1) mod 2 /\
  current_row_index (handle s PrevRowButton) = (0 - 1 + 2) mod 2 /\
  current_row_index (handle (handle s (KeyPress "right")) PrevRowButton) = 0 /\
  current_row_index (handle (handle s PrevRowButton) (KeyPress "right")) = 0.
Proof.
  cbv zeta.
  pose proof (navigation_wraps_and_keeps_annotations (demo_session [])
                demo_table (KeyPress "right") PrevRowButton) as H.
  feed H. cbv zeta in H. destruct H as (Hf & Hb & Hfb & _).
  replace (current_row_index (demo_session [])) with 0 in * by concrete.
  replace (num_rows (demo_session [])) with 2 in * by concrete.
  destruct Hfb as [Hfb Hbf]; [lia|].
  split; [exact Hf|]. split; [exact Hb|]. split; assumption.
Defined.

End Scenarios.

(** * The invariants and frames at work *)

(** As [concrete], evaluating before anything else. *)
Ltac evaluated :=
  first
    [ vm_compute; reflexivity
    | vm_compute; discriminate
    | vm_compute; repeat constructor ].

Ltac feed_evaluated H :=
  repeat match type of H with
         | ?P -> _ =>
             let HP := fresh "Hpremise" in
             assert (HP : P) by evaluated;
             specialize (H HP); clear HP
         end.

Section MoreScenarios.

#[local] Existing Instance stand_in.

Lemma demo_rows_ok : rows_ok demo_table.
Proof. repeat constructor. Qed.

Lemma demo_session_ok (console : list string) : session_ok (demo_session console).
Proof.
  apply session_ok_start; [reflexivity | exact demo_rows_ok | constructor].
Qed.

Lemma every_event_keeps_session_ok_witness :
  session_ok (handle (demo_session []) (KeyPress "right")).
Proof.
  apply every_event_keeps_session_ok. exact (demo_session_ok []).
Defined.

Lemma reachable_sessions_are_in_bounds_witness :
  let s := handle_all (start "peaks.csv" demo_table ["2,1"; ""; ""] [])
             [ButtonPress (click_at 1 5); KeyPress "right"; KeyPress "m"] in
  exists df', data s = Some df' /\ num_rows s = df_len df' /\
    0 <= current_row_index s < df_len df' /\
    forall i, 0 <= i < df_len df' -> is_Some (row_view s i).
Proof.
  apply reachable_sessions_are_in_bounds;
    [reflexivity | exact demo_rows_ok | constructor].
Defined.

Lemma click_takes_effect_in_ok_session_witness :
  exists df ys d p,
    data (demo_session []) = Some df /\
    iloc (df_values df) (current_row_index (demo_session [])) = Some ys /\
    row_view (demo_session []) (current_row_index (demo_session [])) = Some d /\
    snap (df_columns df) ys (Fin (11 # 10)) (Fin (52 # 10)) = Some p /\
    row_view (handle (demo_session [])
                (ButtonPress (click_at (11 # 10) (52 # 10))))
             (current_row_index (demo_session [])) =
      Some match next_slot d with
           | Some k => set_slot k (Some p) d
           | None => unset
           end.
Proof.
  apply (click_takes_effect_in_ok_session (demo_session [])
           (click_at (11 # 10) (52 # 10)));
    [exact (demo_session_ok []) | reflexivity].
Defined.

Lemma exports_leave_the_session_alone_witness :
  only_reports (demo_session []) (handle (demo_session []) (KeyPress "s")).
Proof.
  apply exports_leave_the_session_alone.
  unfold export_events. constructor.
Defined.

Lemma click_leaves_rows_of_other_dicts_witness :
  row_view (handle (demo_session []) (ButtonPress (click_at 1 5))) 1 =
  Some unset.
Proof.
  pose proof (click_leaves_rows_of_other_dicts (demo_session [])
                (click_at 1 5) 1 unset) as H.
  feed_evaluated H. exact H.
Defined.

(** Rows 0 and 1 have both received a manual entry; a click on row 1
    fills LEFT of row 0 as well. *)
Lemma click_writes_through_shared_dict_witness :
  let s := handle_all (demo_session ["2,1"; ""; ""; ""; ""; ""])
             [KeyPress "m"; KeyPress "right"; KeyPress "m"] in
  current_row_index s = 1 /\
  row_view (handle s (ButtonPress (click_at 2 3))) 0 =
    Some {| top := Some (Fin 2, Fin 1); left := Some (Fin 2, Fin 3);
            right := None |}.
Proof.
  cbv zeta. split; [evaluated|].
  pose proof (click_writes_through_shared_dict
                (handle_all (demo_session ["2,1"; ""; ""; ""; ""; ""])
                   [KeyPress "m"; KeyPress "right"; KeyPress "m"])
                (click_at 2 3) demo_table demo_row1 (Fin 2, Fin 3) O
                {| top := Some (Fin 2, Fin 1); left := None; right := None |}
                0) as H.
  feed_evaluated H. exact H.
Defined.

Lemma rows_stay_unshared_without_manual_or_clear_witness :
  unshared (handle_all (start "peaks.csv" demo_table [] [])
              [ButtonPress (click_at 1 5); KeyPress "right";
               ButtonPress (click_at 2 3)]).
Proof.
  apply (rows_stay_unshared_without_manual_or_clear "peaks.csv" demo_table
           [] [] [ButtonPress (click_at 1 5); KeyPress "right";
                  ButtonPress (click_at 2 3)]).
  repeat constructor; intros [H|H]; discriminate.
Defined.

Lemma clear_unsets_current_row_only_witness :
  let s := handle (demo_session []) (ButtonPress (click_at 1 5)) in
  row_view s 0 =
    Some {| top := None; left := Some (Fin 1, Fin 5); right := None |} /\
  row_view (handle s (KeyPress "c")) 0 = Some unset.
Proof.
  cbv zeta. split; [evaluated|].
  pose proof (clear_unsets_current_row_only
                (handle (demo_session []) (ButtonPress (click_at 1 5)))
                demo_table demo_row0) as H.
  feed_evaluated H. cbv zeta in H. destruct H as [H _].
  replace (current_row_index
             (handle (demo_session []) (ButtonPress (click_at 1 5))))
    with 0 in H by evaluated.
  exact H.
Defined.

(** Row 0 has received a manual entry; a manual entry on row 1 leaves
    both rows with the same slots. *)
Lemma manual_entry_rewrites_rows_of_selected_dict_witness :
  let s := handle_all (demo_session ["2,1"; ""; ""; ""; "3,4"; ""])
             [KeyPress "m"; KeyPress "right"] in
  let s' := handle s (KeyPress "m") in
  row_view s' 0 = row_view s' 1.
Proof.
  cbv zeta.
  pose proof (manual_entry_rewrites_rows_of_selected_dict
                (handle_all (demo_session ["2,1"; ""; ""; ""; "3,4"; ""])
                   [KeyPress "m"; KeyPress "right"])
                demo_table "" "3,4" "" [] 0) as H.
  feed_evaluated H. cbv zeta in H. destruct H as (_ & _ & _ & H).
  replace (current_row_index
             (handle_all (demo_session ["2,1"; ""; ""; ""; "3,4"; ""])
                [KeyPress "m"; KeyPress "right"]))
    with 1 in H by evaluated.
  exact H.
Defined.

Lemma without_table_only_switch_file_acts_witness :
  handle (set_data None (demo_session [])) (KeyPress "o") =
  set_data None (demo_session []).
Proof.
  apply without_table_only_switch_file_acts; [reflexivity | discriminate].
Defined.

Lemma snap_picks_first_nan_sample_witness :
  exists i x,
    is_first_nan [Fin 5; NaN; Fin 2] i /\
    df_columns nan_table !! i = Some x /\
    snap (df_columns nan_table) [Fin 5; NaN; Fin 2] (Fin 1) (Fin 5) =
      Some (x, NaN).
Proof.
  apply snap_picks_first_nan_sample;
    [reflexivity | repeat constructor | reflexivity | reflexivity |].
  intros H. apply Forall_cons in H as [_ H].
  apply Forall_cons in H as [H _]. discriminate.
Defined.

Lemma manual_entry_leaves_rows_of_other_dicts_witness :
  row_view (handle (demo_session ["2,1"; ""; ""]) (KeyPress "m")) 1 =
  Some unset.
Proof.
  pose proof (manual_entry_leaves_rows_of_other_dicts
                (demo_session ["2,1"; ""; ""]) 1 unset) as H.
  feed_evaluated H. exact H.
Defined.

Lemma save_plot_after_failed_switch_saves_notice_witness :
  let s := @start stand_in "peaks.csv" demo_table [] [("notes.txt", None)] in
  trace (handle (handle s SwitchFileButton) SavePlotButton) =
    trace s ++ [SaveFig 0 (FigMessage "Error Loading File")].
Proof.
  cbv zeta.
  pose proof (save_plot_after_failed_switch_saves_notice
                (@start stand_in "peaks.csv" demo_table []
                   [("notes.txt", None)])
                demo_table "notes.txt" None []) as H.
  feed_evaluated H.
  assert (Hcur : 0 <= current_row_index
                        (@start stand_in "peaks.csv" demo_table []
                           [("notes.txt", None)]) < df_len demo_table)
    by (replace (current_row_index
                   (@start stand_in "peaks.csv" demo_table []
                      [("notes.txt", None)])) with 0 by evaluated;
        unfold df_len; simpl; lia).
  specialize (H Hcur). feed_evaluated H. cbv zeta in H. destruct H as [_ H].
  replace (current_row_index
             (@start stand_in "peaks.csv" demo_table [] [("notes.txt", None)]))
    with 0 in H by evaluated.
  exact H.
Defined.

Lemma local_maxima_range (l : list num) (i : nat) (prev : num) :
  Forall (fun p => (i <= p < i + length l)%nat) (local_maxima i prev l).
Proof.
  revert i prev. induction l as [|cur tl IH]; intros i prev; simpl;
    [constructor|].
  destruct tl as [|next tl']; [constructor|].
  assert (Hrest : Forall (fun p => (i <= p < i + S (length (next :: tl')))%nat)
                    (local_maxima (S i) cur (next :: tl'))).
  { eapply Forall_impl; [apply IH|]. intros p Hp. simpl in *. lia. }
  destruct (num_lt prev cur && num_lt next cur); [|exact Hrest].
  constructor; [simpl; lia | exact Hrest].
Qed.

Lemma stand_in_finder_in_range : finder_in_range.
Proof.
  intros y. simpl. unfold interior_maxima. destruct y as [|first tl];
    [constructor|].
  eapply Forall_impl; [apply local_maxima_range|].
  intros p Hp. simpl in *. lia.
Qed.

Lemma redrawing_events_show_current_row_witness :
  figure_shows_current_row (handle (demo_session []) (KeyPress "right")).
Proof.
  apply redrawing_events_show_current_row;
    [ exact stand_in_finder_in_range | exact (demo_session_ok [])
    | right; left; unfold forward_events; constructor ].
Defined.

(** Two samples whose exact distances to the click differ by 2^-60:
    rounded, both are 1/4, and the first of the two is stored. *)
Lemma snap_compares_rounded_distances :
  map (sq_dist (Fin (3 # 2)) (Fin 0))
      (zip [Fin 1; Fin 2] [Fin (1 # 1073741824); Fin 0]) =
    [Fin (1 # 4); Fin (1 # 4)] /\
  snap [Fin 1; Fin 2] [Fin (1 # 1073741824); Fin 0] (Fin (3 # 2)) (Fin 0) =
    Some (Fin 1, Fin (1 # 1073741824)).
Proof. vm_compute. split; reflexivity. Qed.

End MoreScenarios.
